(** * clipse: the clipboard-history store, its sampler and its browser session

    A shallow embedding of [selector/main.go].  Go strings are byte
    sequences and are modelled by [string]; a Go slice is a list together
    with the distinction between the nil slice and an empty one, which the
    JSON encoding observes ([null] against [[]]). *)

From Stdlib Require Import ZArith String Ascii List Bool Lia.
From stdpp Require Import base option list gmap strings.
Import ListNotations.

Local Open Scope string_scope.
Local Open Scope Z_scope.
Local Open Scope list_scope.

(** ** Bytes *)

(** The numeric value of a byte and the byte of a numeric value. *)
Definition code (a : ascii) : Z := Z.of_N (N_of_ascii a).
Definition chr (z : Z) : ascii := ascii_of_N (Z.to_N z).

Definition bytes := list ascii.

Definition bytes_of (s : string) : bytes := list_ascii_of_string s.
Definition string_of (b : bytes) : string := string_of_list_ascii b.

(** ** Slices *)

(** [None] is the nil slice, [Some l] a slice holding [l]. *)
Definition slice (A : Type) : Type := option (list A).

Definition elems {A} (s : slice A) : list A :=
  match s with
  | None => []
  | Some l => l
  end.

Definition len {A} (s : slice A) : nat := List.length (elems s).

(** [append(s, x)]: the result is never nil. *)
Definition append {A} (s : slice A) (x : A) : slice A := Some (elems s ++ [x]).

(** [s[:n]] for [n <= len(s)]; the nil slice stays nil. *)
Definition slice_to {A} (s : slice A) (n : nat) : slice A :=
  match s with
  | None => None
  | Some l => Some (firstn n l)
  end.

(** ** The data model (main.go, lines 25-33 and 396-403) *)

Record ClipboardItem : Type := mkItem
  { Value : string;       (* json:"value" *)
    Recorded : string     (* json:"recorded" *) }.

Record Data : Type := mkData
  { ClipboardHistory : slice ClipboardItem   (* json:"clipboardHistory" *) }.

(** The browser section declares the same two shapes a second time, as
    [ClipboardEntry] and [ClipboardHistory], with the same fields and the
    same JSON tags. *)
Abbreviation ClipboardEntry := ClipboardItem.

(** The zero value [var data Data]. *)
Definition zero_Data : Data := mkData None.

(** ** Time: [time.Now().UTC().String()] *)

(** A location: the zone abbreviation and its offset east of UTC, in
    seconds. *)
Record Location : Type := mkLoc { zone_name : string; zone_offset : Z }.

Definition UTC_loc : Location := mkLoc "UTC" 0.

(** An instant: seconds since the Unix epoch, nanoseconds within the
    second, and the location it is shown in.  The monotonic clock
    reading that [time.Now] attaches is stripped by [UTC] before the
    value is printed; it is left out. *)
Record Time : Type := mkTime { unix_sec : Z; nsec : Z; loc : Location }.

Definition UTC (t : Time) : Time := mkTime (unix_sec t) (nsec t) UTC_loc.

Definition digit (d : Z) : ascii := chr (48 + d).

(** The last [w] decimal digits of [x], most significant first. *)
Fixpoint digits_w (w : nat) (x : Z) : bytes :=
  match w with
  | O => []
  | S k => digits_w k (x / 10) ++ [digit (x mod 10)]
  end.

(** The number of decimal digits of [u >= 0]. *)
Fixpoint ndigits (fuel : nat) (u : Z) : nat :=
  match fuel with
  | O => 1%nat
  | S k => if u <? 10 then 1%nat else S (ndigits k (u / 10))
  end.

(** [appendInt(b, x, width)]: decimal, zero-padded to at least [width]. *)
Definition appendInt (x : Z) (width : nat) : bytes :=
  let u := Z.abs x in
  (if x <? 0 then ["-"%char] else []) ++
  digits_w (Nat.max width (ndigits (Z.to_nat u) u)) u.

(** Days since 1970-01-01 to (year, month, day) of the proleptic
    Gregorian calendar. *)
Definition civil_from_days (days : Z) : Z * Z * Z :=
  let z := days + 719468 in
  let era := z / 146097 in
  let doe := z - era * 146097 in
  let yoe := (doe - doe / 1460 + doe / 36524 - doe / 146096) / 365 in
  let doy := doe - (365 * yoe + yoe / 4 - yoe / 100) in
  let mp := (5 * doy + 2) / 153 in
  let d := doy - (153 * mp + 2) / 5 + 1 in
  let m := if mp <? 10 then mp + 3 else mp - 9 in
  let y := yoe + era * 400 + (if m <=? 2 then 1 else 0) in
  (y, m, d).

(** The fractional second of the layout element [.999999999]: nothing
    when it is zero, otherwise nine digits with the trailing zeros cut. *)
Fixpoint trim_zeros_rev (r : bytes) : bytes :=
  match r with
  | c :: r' => if Ascii.eqb c "0" then trim_zeros_rev r' else r
  | [] => []
  end.

Definition appendNano (nanosec : Z) : bytes :=
  if nanosec =? 0 then []
  else "."%char :: rev (trim_zeros_rev (rev (digits_w 9 nanosec))).

(** The layout element [-0700]: the offset in minutes, rounded towards
    zero. *)
Definition appendZone (offset : Z) : bytes :=
  let zone := Z.quot offset 60 in
  let a := Z.abs zone in
  (if zone <? 0 then "-"%char else "+"%char) ::
  appendInt (a / 60) 2 ++ appendInt (a mod 60) 2.

(** The layout elements [2006-01-02 15:04:05] for [abs] seconds of
    local time since the epoch. *)
Definition appendDateClock (abs : Z) : bytes :=
  let '(y, m, d) := civil_from_days (abs / 86400) in
  let s := abs mod 86400 in
  appendInt y 4 ++ "-"%char :: appendInt m 2 ++ "-"%char :: appendInt d 2 ++
  " "%char :: appendInt (s / 3600) 2 ++ ":"%char ::
  appendInt (s mod 3600 / 60) 2 ++ ":"%char :: appendInt (s mod 60) 2.

(** [t.String()] with the layout
    [2006-01-02 15:04:05.999999999 -0700 MST]. *)
Definition Time_String (t : Time) : string :=
  string_of
    (appendDateClock (unix_sec t + zone_offset (loc t)) ++
     appendNano (nsec t) ++
     " "%char :: appendZone (zone_offset (loc t)) ++
     " "%char :: bytes_of (zone_name (loc t))).

(** The value of a list of decimal digits, least significant first. *)
Fixpoint digits_value (r : bytes) : Z :=
  match r with
  | [] => 0
  | c :: r' => (code c - 48) + 10 * digits_value r'
  end.

(** [strings.HasPrefix(s, prefix)]. *)
Fixpoint HasPrefix (s prefix : bytes) {struct prefix} : bool :=
  match prefix with
  | [] => true
  | p :: prefix' =>
    match s with
    | c :: s' => Ascii.eqb c p && HasPrefix s' prefix'
    | [] => false
    end
  end.

(** [strings.Split(s, sep)] for a non-empty [sep]: [cur] is the part
    being collected, [skip] the number of bytes of a matched separator
    still to be passed over. *)
Fixpoint Split_go (sep : bytes) (skip : nat) (cur : bytes) (s : bytes)
  : list bytes :=
  match s with
  | [] => [cur]
  | c :: s' =>
    match skip with
    | S k => Split_go sep k cur s'
    | O =>
      if HasPrefix s sep
      then cur :: Split_go sep (List.length sep - 1) [] s'
      else Split_go sep O (cur ++ [c]) s'
    end
  end.

Definition strings_Split (s sep : string) : list string :=
  map string_of (Split_go (bytes_of sep) O [] (bytes_of s)).

(** Line 62:
    [timeNow := strings.Split(time.Now().UTC().String(), "+0000")[0]],
    with the reading [now] of the clock as its input. *)
Definition timeNow (now : Time) : string :=
  hd "" (strings_Split (Time_String (UTC now)) "+0000").

(** ** The sampler (main.go, lines 35-93) *)

(** [contains] (lines 86-93): does some item of the slice hold [str]? *)
Fixpoint contains (slice : list ClipboardItem) (str : string) : bool :=
  match slice with
  | [] => false
  | item :: rest =>
    if String.eqb (Value item) str then true else contains rest str
  end.

(** The in-memory part of one turn of the loop of [runListener] (lines
    55-66), called [Insert] by the specification: [text] is what the
    clipboard held and [now] the reading of the clock. *)
Definition Insert (data : Data) (text : string) (now : Time) : Data :=
  if negb (String.eqb text "") && negb (contains (elems (ClipboardHistory data)) text)
  then
    let history :=
      if (50 <=? len (ClipboardHistory data))%nat
      then
        let lastIndex := (len (ClipboardHistory data) - 1)%nat in
        slice_to (ClipboardHistory data) lastIndex
      else ClipboardHistory data in
    let item := mkItem text (timeNow now) in
    mkData (Some ([item] ++ elems history))
  else data.

(** A run of the sampler's insertions: one observation per turn. *)
Definition Inserts (data : Data) (obs : list (string * Time)) : Data :=
  fold_left (fun d o => Insert d (fst o) (snd o)) obs data.

(** ** Delete by value (main.go, lines 436-441) *)

(** The loop of [deleteJsonItem] over the decoded entries, with
    [updatedClipboardHistory] starting as the nil slice. *)
Fixpoint Remove_loop (updatedClipboardHistory : slice ClipboardEntry)
    (entries : list ClipboardEntry) (item : string) : slice ClipboardEntry :=
  match entries with
  | [] => updatedClipboardHistory
  | entry :: rest =>
    if negb (String.eqb (Value entry) item)
    then Remove_loop (append updatedClipboardHistory entry) rest item
    else Remove_loop updatedClipboardHistory rest item
  end.

Definition Remove (data : Data) (item : string) : Data :=
  mkData (Remove_loop None (elems (ClipboardHistory data)) item).

(** ** UTF-8 (package unicode/utf8) *)

Definition RuneError : Z := 0xFFFD.
Definition MaxRune : Z := 0x10FFFF.

(** The size that the first byte announces (table [first]): 0 for a
    byte that cannot start a sequence of two bytes or more. *)
Definition lead_size (b0 : Z) : nat :=
  if (b0 <? 0xC2) || (0xF4 <? b0) then 0
  else if b0 <? 0xE0 then 2
  else if b0 <? 0xF0 then 3
  else 4.

(** The range accepted for the second byte (table [acceptRanges]). *)
Definition accept_lo (b0 : Z) : Z :=
  if b0 =? 0xE0 then 0xA0 else if b0 =? 0xF0 then 0x90 else 0x80.
Definition accept_hi (b0 : Z) : Z :=
  if b0 =? 0xED then 0x9F else if b0 =? 0xF4 then 0x8F else 0xBF.

(** The runes that two, three and four bytes stand for. *)
Definition rune2 (b0 b1 : Z) : Z :=
  Z.lor (Z.shiftl (Z.land b0 0x1F) 6) (Z.land b1 0x3F).
Definition rune3 (b0 b1 b2 : Z) : Z :=
  Z.lor (Z.lor (Z.shiftl (Z.land b0 0x0F) 12) (Z.shiftl (Z.land b1 0x3F) 6))
        (Z.land b2 0x3F).
Definition rune4 (b0 b1 b2 b3 : Z) : Z :=
  Z.lor (Z.lor (Z.lor (Z.shiftl (Z.land b0 0x07) 18) (Z.shiftl (Z.land b1 0x3F) 12))
               (Z.shiftl (Z.land b2 0x3F) 6))
        (Z.land b3 0x3F).

(** [utf8.DecodeRune]: the rune at the head of [p] and its width. *)
Definition DecodeRune (p : bytes) : Z * nat :=
  match p with
  | [] => (RuneError, 0%nat)
  | p0 :: _ =>
    let b0 := code p0 in
    if b0 <? 0x80 then (b0, 1%nat)
    else
      let sz := lead_size b0 in
      if (sz =? 0)%nat || (List.length p <? sz)%nat then (RuneError, 1%nat)
      else
        let b1 := code (nth 1 p "000"%char) in
        let b2 := code (nth 2 p "000"%char) in
        let b3 := code (nth 3 p "000"%char) in
        if (b1 <? accept_lo b0) || (accept_hi b0 <? b1) then (RuneError, 1%nat)
        else if (sz <=? 2)%nat then (rune2 b0 b1, 2%nat)
        else if (b2 <? 0x80) || (0xBF <? b2) then (RuneError, 1%nat)
        else if (sz <=? 3)%nat then (rune3 b0 b1 b2, 3%nat)
        else if (b3 <? 0x80) || (0xBF <? b3) then (RuneError, 1%nat)
        else (rune4 b0 b1 b2 b3, 4%nat)
  end.

(** The conversion [byte(x)]: the low eight bits. *)
Definition byte (x : Z) : Z := Z.land x 0xFF.

(** [utf8.EncodeRune] for a rune [r >= 0]. *)
Definition EncodeRune (r : Z) : bytes :=
  if r <=? 0x7F then [chr (byte r)]
  else if r <=? 0x7FF then
    [chr (Z.lor 0xC0 (byte (Z.shiftr r 6)));
     chr (Z.lor 0x80 (Z.land (byte r) 0x3F))]
  else
    let three (r : Z) :=
      [chr (Z.lor 0xE0 (byte (Z.shiftr r 12)));
       chr (Z.lor 0x80 (Z.land (byte (Z.shiftr r 6)) 0x3F));
       chr (Z.lor 0x80 (Z.land (byte r) 0x3F))] in
    if (MaxRune <? r) || ((0xD800 <=? r) && (r <=? 0xDFFF)) then three RuneError
    else if r <=? 0xFFFF then three r
    else
      [chr (Z.lor 0xF0 (byte (Z.shiftr r 18)));
       chr (Z.lor 0x80 (Z.land (byte (Z.shiftr r 12)) 0x3F));
       chr (Z.lor 0x80 (Z.land (byte (Z.shiftr r 6)) 0x3F));
       chr (Z.lor 0x80 (Z.land (byte r) 0x3F))].

(** [utf8.Valid]: no byte of [p] decodes to the error rune of width 1. *)
Fixpoint Valid_go (fuel : nat) (p : bytes) : bool :=
  match fuel with
  | O => match p with [] => true | _ => false end
  | S f =>
    match p with
    | [] => true
    | _ :: _ =>
      let '(r, size) := DecodeRune p in
      if (r =? RuneError) && (size =? 1)%nat then false
      else Valid_go f (skipn size p)
    end
  end.

Definition ValidString (s : string) : bool :=
  Valid_go (String.length s) (bytes_of s).

(** ** JSON strings (package encoding/json) *)

Definition quote : ascii := "034"%char.
Definition backslash : ascii := "092"%char.

(** The table [htmlSafeSet], for a byte below [0x80]. *)
Definition htmlSafeSet (b : Z) : bool :=
  (0x20 <=? b) &&
  negb ((b =? 34) || (b =? 92) || (b =? 60) || (b =? 62) || (b =? 38)).

(** The table [hex]. *)
Definition hex (d : Z) : ascii := if d <? 10 then chr (48 + d) else chr (87 + d).

(** What [appendString] writes for a byte [c] below [0x80], with
    [escapeHTML] set, as both [Encoder.Encode] and [Marshal] run it. *)
Definition appendEscape (c : ascii) : bytes :=
  let b := code c in
  if htmlSafeSet b then [c]
  else if (b =? 92) || (b =? 34) then [backslash; c]
  else if b =? 8 then [backslash; "b"%char]
  else if b =? 12 then [backslash; "f"%char]
  else if b =? 10 then [backslash; "n"%char]
  else if b =? 13 then [backslash; "r"%char]
  else if b =? 9 then [backslash; "t"%char]
  else [backslash; "u"%char; "0"%char; "0"%char;
        hex (Z.shiftr b 4); hex (Z.land b 0xF)].

(** The loop of [appendString]: the bytes written for [src], without
    the two quotes. *)
Fixpoint appendString_go (fuel : nat) (src : bytes) : bytes :=
  match fuel with
  | O => []
  | S f =>
    match src with
    | [] => []
    | c :: src' =>
      if code c <? 0x80 then appendEscape c ++ appendString_go f src'
      else
        let '(r, size) := DecodeRune (firstn 4 src) in
        if (r =? RuneError) && (size =? 1)%nat then
          backslash :: bytes_of "ufffd" ++ appendString_go f src'
        else if (r =? 0x2028) || (r =? 0x2029) then
          backslash :: bytes_of "u202" ++ hex (Z.land r 0xF) ::
          appendString_go f (skipn size src)
        else firstn size src ++ appendString_go f (skipn size src)
    end
  end.

Definition appendString (src : string) : bytes :=
  quote :: appendString_go (String.length src) (bytes_of src) ++ [quote].

(** [getu4]: the value of the escape [\uXXXX] at the head of [s], or -1. *)
Definition hexval (c : ascii) : Z :=
  let b := code c in
  if (48 <=? b) && (b <=? 57) then b - 48
  else if (97 <=? b) && (b <=? 102) then b - 97 + 10
  else if (65 <=? b) && (b <=? 70) then b - 65 + 10
  else -1.

Definition hexstep (r : Z) (c : ascii) : Z :=
  if (r <? 0) || (hexval c <? 0) then -1 else r * 16 + hexval c.

Definition getu4 (s : bytes) : Z :=
  match s with
  | c0 :: c1 :: h0 :: h1 :: h2 :: h3 :: _ =>
    if Ascii.eqb c0 backslash && Ascii.eqb c1 "u"
    then fold_left hexstep [h0; h1; h2; h3] 0
    else -1
  | _ => -1
  end.

(** [utf16.DecodeRune]. *)
Definition utf16_DecodeRune (r1 r2 : Z) : Z :=
  if (0xD800 <=? r1) && (r1 <? 0xDC00) && (0xDC00 <=? r2) && (r2 <? 0xE000)
  then Z.lor (Z.shiftl (r1 - 0xD800) 10) (r2 - 0xDC00) + 0x10000
  else RuneError.

(** Reading a string literal, after its opening quote: the scanner
    looks for the closing quote and [unquote] decodes what is between
    the two; here in one pass.  The result is the decoded string and
    the input after the closing quote; [None] is a syntax error. *)
Fixpoint unquote (fuel : nat) (s : bytes) : option (bytes * bytes) :=
  match fuel with
  | O => None
  | S f =>
    match s with
    | [] => None
    | c :: s' =>
      let b := code c in
      if b =? 34 then Some ([], s')
      else if b =? 92 then
        match s' with
        | [] => None
        | e :: s'' =>
          let simple (x : ascii) :=
            match unquote f s'' with
            | Some (t, rest) => Some (x :: t, rest)
            | None => None
            end in
          let eb := code e in
          if (eb =? 34) || (eb =? 92) || (eb =? 47) then simple e
          else if eb =? 98 then simple (chr 8)
          else if eb =? 102 then simple (chr 12)
          else if eb =? 110 then simple (chr 10)
          else if eb =? 114 then simple (chr 13)
          else if eb =? 116 then simple (chr 9)
          else if eb =? 117 then
            let rr := getu4 s in
            if rr <? 0 then None
            else
              let s1 := skipn 6 s in
              let rr1 := getu4 s1 in
              let dec := utf16_DecodeRune rr rr1 in
              let surrogate := (0xD800 <=? rr) && (rr <? 0xE000) in
              let '(out, next) :=
                if surrogate && negb (dec =? RuneError)
                then (EncodeRune dec, skipn 6 s1)
                else if surrogate then (EncodeRune RuneError, s1)
                else (EncodeRune rr, s1) in
              match unquote f next with
              | Some (t, rest) => Some (out ++ t, rest)
              | None => None
              end
          else None
        end
      else if b <? 0x20 then None
      else if b <? 0x80 then
        match unquote f s' with
        | Some (t, rest) => Some (c :: t, rest)
        | None => None
        end
      else
        let '(rr, size) := DecodeRune s in
        match unquote f (skipn size s) with
        | Some (t, rest) => Some (EncodeRune rr ++ t, rest)
        | None => None
        end
    end
  end.

(** ** JSON values *)

#[local] Unset Elimination Schemes.
Inductive json : Type :=
  | JNull
  | JBool (b : bool)
  | JNumber (literal : bytes)
  | JString (s : bytes)
  | JArray (l : list json)
  | JObject (members : list (bytes * json)).
#[local] Set Elimination Schemes.

Definition is_space (c : ascii) : bool :=
  let b := code c in (b =? 32) || (b =? 9) || (b =? 13) || (b =? 10).

Fixpoint skip_ws (s : bytes) : bytes :=
  match s with
  | c :: s' => if is_space c then skip_ws s' else s
  | [] => []
  end.

Definition is_digit (c : ascii) : bool := (48 <=? code c) && (code c <=? 57).

Fixpoint span_digits (s : bytes) : bytes * bytes :=
  match s with
  | c :: s' =>
    if is_digit c then let '(ds, r) := span_digits s' in (c :: ds, r)
    else ([], s)
  | [] => ([], [])
  end.

(** A number literal: an optional minus sign; a zero, or a digit from 1
    to 9 and then any digits; an optional fraction, a point and one digit
    or more; an optional exponent, [e] or [E], an optional sign and one
    digit or more. *)
Definition scan_exp (acc s : bytes) : option (bytes * bytes) :=
  match s with
  | e :: t =>
    if Ascii.eqb e "e" || Ascii.eqb e "E" then
      let '(sign, t1) :=
        match t with
        | g :: t' => if Ascii.eqb g "+" || Ascii.eqb g "-" then ([g], t') else ([], t)
        | [] => ([], t)
        end in
      match span_digits t1 with
      | ([], _) => None
      | (ds, r) => Some (acc ++ e :: sign ++ ds, r)
      end
    else Some (acc, s)
  | [] => Some (acc, s)
  end.

Definition scan_frac (acc s : bytes) : option (bytes * bytes) :=
  match s with
  | d :: t =>
    if Ascii.eqb d "." then
      match span_digits t with
      | ([], _) => None
      | (ds, r) => scan_exp (acc ++ d :: ds) r
      end
    else scan_exp acc s
  | [] => Some (acc, s)
  end.

Definition scan_number (s : bytes) : option (bytes * bytes) :=
  let '(neg, s1) :=
    match s with
    | m :: t => if Ascii.eqb m "-" then ([m], t) else ([], s)
    | [] => ([], s)
    end in
  match s1 with
  | c :: t =>
    if Ascii.eqb c "0" then scan_frac (neg ++ [c]) t
    else if is_digit c then
      let '(ds, r) := span_digits t in scan_frac (neg ++ c :: ds) r
    else None
  | [] => None
  end.

(** The decoder's reading of one value at the head of [s], after
    optional white space: the value and the input that follows it. *)
Fixpoint parse_value (fuel : nat) (s : bytes) : option (json * bytes) :=
  match fuel with
  | O => None
  | S f =>
    match skip_ws s with
    | [] => None
    | c :: t =>
      if Ascii.eqb c quote then
        match unquote (List.length t) t with
        | Some (str, r) => Some (JString str, r)
        | None => None
        end
      else if Ascii.eqb c "[" then
        match skip_ws t with
        | d :: r => if Ascii.eqb d "]" then Some (JArray [], r)
                    else match parse_elems f t with
                         | Some (l, r') => Some (JArray l, r')
                         | None => None
                         end
        | [] => None
        end
      else if Ascii.eqb c "{" then
        match skip_ws t with
        | d :: r => if Ascii.eqb d "}" then Some (JObject [], r)
                    else match parse_members f t with
                         | Some (l, r') => Some (JObject l, r')
                         | None => None
                         end
        | [] => None
        end
      else if HasPrefix (c :: t) (bytes_of "null") then Some (JNull, skipn 3 t)
      else if HasPrefix (c :: t) (bytes_of "true") then Some (JBool true, skipn 3 t)
      else if HasPrefix (c :: t) (bytes_of "false") then Some (JBool false, skipn 4 t)
      else match scan_number (c :: t) with
           | Some (lit, r) => Some (JNumber lit, r)
           | None => None
           end
    end
  end
with parse_elems (fuel : nat) (s : bytes) : option (list json * bytes) :=
  match fuel with
  | O => None
  | S f =>
    match parse_value f s with
    | Some (v, r) =>
      match skip_ws r with
      | d :: r' =>
        if Ascii.eqb d "," then
          match parse_elems f r' with
          | Some (l, r'') => Some (v :: l, r'')
          | None => None
          end
        else if Ascii.eqb d "]" then Some ([v], r')
        else None
      | [] => None
      end
    | None => None
    end
  end
with parse_members (fuel : nat) (s : bytes)
  : option (list (bytes * json) * bytes) :=
  match fuel with
  | O => None
  | S f =>
    match skip_ws s with
    | q :: t =>
      if Ascii.eqb q quote then
        match unquote (List.length t) t with
        | Some (k, r) =>
          match skip_ws r with
          | d :: r1 =>
            if Ascii.eqb d ":" then
              match parse_value f r1 with
              | Some (v, r2) =>
                match skip_ws r2 with
                | e :: r3 =>
                  if Ascii.eqb e "," then
                    match parse_members f r3 with
                    | Some (l, r4) => Some ((k, v) :: l, r4)
                    | None => None
                    end
                  else if Ascii.eqb e "}" then Some ([(k, v)], r3)
                  else None
                | [] => None
                end
              | None => None
              end
            else None
          | [] => None
          end
        | None => None
        end
      else None
    | [] => None
    end
  end.

(** ** Encoding [Data] (main.go, lines 25-33: the field tags) *)

Definition encode_key (name : string) : bytes :=
  quote :: bytes_of name ++ [quote; ":"%char].

Definition encode_item (it : ClipboardItem) : bytes :=
  "{"%char :: encode_key "value" ++ appendString (Value it) ++
  ","%char :: encode_key "recorded" ++ appendString (Recorded it) ++ ["}"%char].

Fixpoint encode_items (l : list ClipboardItem) : bytes :=
  match l with
  | [] => []
  | [it] => encode_item it
  | it :: l' => encode_item it ++ ","%char :: encode_items l'
  end.

(** A nil slice is written [null], any other between brackets. *)
Definition encode_slice (s : slice ClipboardItem) : bytes :=
  match s with
  | None => bytes_of "null"
  | Some l => "["%char :: encode_items l ++ ["]"%char]
  end.

(** [json.Marshal(data)]. *)
Definition Marshal (data : Data) : bytes :=
  "{"%char :: encode_key "clipboardHistory" ++
  encode_slice (ClipboardHistory data) ++ ["}"%char].

(** [encoder.Encode(data)]: the value and a newline. *)
Definition Encode (data : Data) : bytes := Marshal data ++ [chr 10].

(** ** Decoding into [Data] *)

(** [foldName]: the key that field names are compared under.  Letters
    of ASCII go to upper case; of the other runes only the two that fold
    to a letter of ASCII are mapped, U+017F to S and U+212A to K: no
    other rune can make a key equal to a field name of this program. *)
Definition foldRune (r : Z) : Z :=
  if r =? 0x17F then 83 else if r =? 0x212A then 75 else r.

Fixpoint foldName_go (fuel : nat) (s : bytes) : bytes :=
  match fuel with
  | O => []
  | S f =>
    match s with
    | [] => []
    | c :: s' =>
      if code c <? 0x80 then
        (if (97 <=? code c) && (code c <=? 122) then chr (code c - 32) else c)
        :: foldName_go f s'
      else
        let '(r, n) := DecodeRune s in
        EncodeRune (foldRune r) ++ foldName_go f (skipn n s)
    end
  end.

Definition foldName (s : bytes) : bytes := foldName_go (List.length s) s.

Definition field_is (key : bytes) (name : string) : bool :=
  String.eqb (string_of (foldName key)) (string_of (foldName (bytes_of name))).

(** Each decoder takes the value that the target holds and gives the
    value it holds afterwards, with [false] when a value of the wrong
    kind was met (an [UnmarshalTypeError], after which decoding goes on). *)
Definition decode_string (cur : string) (j : json) : string * bool :=
  match j with
  | JString s => (string_of s, true)
  | JNull => (cur, true)
  | _ => (cur, false)
  end.

Definition decode_item (cur : ClipboardItem) (j : json) : ClipboardItem * bool :=
  match j with
  | JObject members =>
    fold_left
      (fun (acc : ClipboardItem * bool) (kv : bytes * json) =>
         let '(it, ok) := acc in
         if field_is (fst kv) "value" then
           let '(x, ok') := decode_string (Value it) (snd kv) in
           (mkItem x (Recorded it), ok && ok')
         else if field_is (fst kv) "recorded" then
           let '(x, ok') := decode_string (Recorded it) (snd kv) in
           (mkItem (Value it) x, ok && ok')
         else acc)
      members (cur, true)
  | JNull => (cur, true)
  | _ => (cur, false)
  end.

(** The elements of an array go, in order, into the elements that the
    slice already holds and then into zero values. *)
Fixpoint decode_elems (cur : list ClipboardItem) (js : list json)
  : list ClipboardItem * bool :=
  match js with
  | [] => ([], true)
  | j :: js' =>
    let '(x, ok) := decode_item (hd (mkItem "" "") cur) j in
    let '(xs, ok') := decode_elems (tl cur) js' in
    (x :: xs, ok && ok')
  end.

Definition decode_slice (cur : slice ClipboardItem) (j : json)
  : slice ClipboardItem * bool :=
  match j with
  | JArray js => let '(l, ok) := decode_elems (elems cur) js in (Some l, ok)
  | JNull => (None, true)
  | _ => (cur, false)
  end.

Definition decode_Data (cur : Data) (j : json) : Data * bool :=
  match j with
  | JObject members =>
    fold_left
      (fun (acc : Data * bool) (kv : bytes * json) =>
         let '(d, ok) := acc in
         if field_is (fst kv) "clipboardHistory" then
           let '(h, ok') := decode_slice (ClipboardHistory d) (snd kv) in
           (mkData h, ok && ok')
         else acc)
      members (cur, true)
  | JNull => (cur, true)
  | _ => (cur, false)
  end.

Inductive error : Type :=
  | ErrNotExist            (* the file is not there *)
  | ErrPermission          (* the file cannot be written *)
  | EOF
  | SyntaxError
  | UnmarshalTypeError
  | ErrClipboard           (* the platform's clipboard call failed *)
  | Errorf (message : string) (wrapped : error).

(** [decoder.Decode(data)]: the first value of the stream goes into
    [data]; a syntax error leaves [data] as it was. *)
Definition Decode (input : bytes) (data : Data) : Data * option error :=
  match skip_ws input with
  | [] => (data, Some EOF)
  | _ :: _ =>
    match parse_value (2 * List.length input + 2) input with
    | None => (data, Some SyntaxError)
    | Some (j, _) =>
      let '(d, ok) := decode_Data data j in
      (d, if ok then None else Some UnmarshalTypeError)
    end
  end.

(** [json.Unmarshal(fileContent, &data)]: the whole input is one value. *)
Definition Unmarshal (input : bytes) (data : Data) : Data * option error :=
  match parse_value (2 * List.length input + 2) input with
  | None => (data, Some SyntaxError)
  | Some (j, rest) =>
    match skip_ws rest with
    | [] =>
      let '(d, ok) := decode_Data data j in
      (d, if ok then None else Some UnmarshalTypeError)
    | _ :: _ => (data, Some SyntaxError)
    end
  end.

(** ** Files *)

(** The files by path.  Opening a file fails when it is not there;
    creating or writing one fails when the file system refuses writes. *)
Record FS : Type := mkFS { files : gmap string bytes; read_only : bool }.

Definition os_ReadFile (fs : FS) (path : string) : option bytes :=
  files fs !! path.

Definition os_WriteFile (fs : FS) (path : string) (content : bytes) : FS :=
  mkFS (<[path := content]> (files fs)) (read_only fs).

(** [loadDataFromFile] (lines 96-109). *)
Definition loadDataFromFile (fs : FS) (fullPath : string) (data : Data)
  : Data * option error :=
  match os_ReadFile fs fullPath with
  | None => (data, Some ErrNotExist)
  | Some content => Decode content data
  end.

(** [saveDataToFile] (lines 112-125): [os.Create] empties the file and
    the encoder writes the value into it. *)
Definition saveDataToFile (fs : FS) (fullPath : string) (data : Data)
  : FS * option error :=
  if read_only fs then (fs, Some ErrPermission)
  else (os_WriteFile fs fullPath (Encode data), None).

(** [deleteJsonItem] (lines 425-457). *)
Definition deleteJsonItem (fs : FS) (fullPath item : string)
  : FS * option error :=
  match os_ReadFile fs fullPath with
  | None => (fs, Some (Errorf "error reading file: %w" ErrNotExist))
  | Some fileContent =>
    match Unmarshal fileContent zero_Data with
    | (_, Some err) => (fs, Some (Errorf "error unmarshalling JSON: %w" err))
    | (data, None) =>
      let updatedData := Remove data item in
      let updatedJSON := Marshal updatedData in
      if read_only fs
      then (fs, Some (Errorf "error writing file: %w" ErrPermission))
      else (os_WriteFile fs fullPath updatedJSON, None)
    end
  end.

(** One turn of the loop of [runListener] (lines 47-78): [text] is the
    clipboard's content as read at this turn; a failed save is printed
    and the loop goes on with the data in memory. *)
Definition runListener_turn (fullPath : string) (st : FS * Data)
    (o : string * Time) : FS * Data :=
  let '(fs, data) := st in
  let data' := Insert data (fst o) (snd o) in
  if negb (String.eqb (fst o) "") &&
     negb (contains (elems (ClipboardHistory data)) (fst o))
  then (fst (saveDataToFile fs fullPath data'), data')
  else (fs, data).

(** ** The browser session (main.go, lines 142-353) *)

Record item : Type := mkitem
  { title : string; titleFull : string; description : string }.

(** Of the list model: the items shown and the index of the cursor. *)
Record list_Model : Type := mkModel { Items : list item; Index : nat }.

Definition SelectedItem (m : list_Model) : option item := Items m !! Index m.

Definition RemoveItem (m : list_Model) (index : nat) : list_Model :=
  mkModel (delete index (Items m)) (Index m).

(** A key binding: its keys and whether it is enabled. *)
Record Binding : Type := mkBinding { Keys : list string; Enabled : bool }.

Record delegateKeyMap : Type := mkKeys { choose : Binding; remove : Binding }.

(** [newDelegateKeyMap] (lines 380-391). *)
Definition newDelegateKeyMap : delegateKeyMap :=
  mkKeys (mkBinding ["enter"] true) (mkBinding ["x"; "backspace"] true).

Inductive Msg : Type :=
  | KeyMsg (key : string)
  | WindowSizeMsg (width height : Z).

Definition key_Matches (key : string) (b : Binding) : bool :=
  Enabled b && existsb (String.eqb key) (Keys b).

(** What the session works on: the files, the system clipboard, and
    whether the platform's clipboard call fails. *)
Record World : Type := mkWorld
  { fs_of : FS; clipboard : string; clipboard_fails : bool }.

(** [clipboard.WriteAll]. *)
Definition clipboard_WriteAll (w : World) (text : string) : World * option error :=
  if clipboard_fails w then (w, Some ErrClipboard)
  else (mkWorld (fs_of w) text (clipboard_fails w), None).

(** How a call of the delegate ends: it returns a command (here the
    text of the status message, if any), it panics, or it leaves the
    process through [os.Exit]. *)
Inductive control : Type :=
  | Return (statusMessage : option string)
  | Panic (err : error)
  | Exit (status : Z).

Record Session : Type := mkSession
  { world : World; m_list : list_Model; keys : delegateKeyMap }.

(** [d.UpdateFunc] of [newItemDelegate] (lines 303-340); [fullPath] is
    what [getFullPath] gives. *)
Definition UpdateFunc (fullPath : string) (msg : Msg) (s : Session)
  : Session * control :=
  match SelectedItem (m_list s) with
  | None => (s, Return None)
  | Some i =>
    let title := title i in
    let fullValue := titleFull i in
    match msg with
    | KeyMsg k =>
      if key_Matches k (choose (keys s)) then
        match clipboard_WriteAll (world s) fullValue with
        | (w, Some err) => (mkSession w (m_list s) (keys s), Panic err)
        | (w, None) =>
          (mkSession w (m_list s) (keys s),
           Return (Some ("Copied to clipboard: " ++ title)%string))
        end
      else if key_Matches k (remove (keys s)) then
        let index := Index (m_list s) in
        let m := RemoveItem (m_list s) index in
        let keys' :=
          if (List.length (Items m) =? 0)%nat
          then mkKeys (choose (keys s)) (mkBinding (Keys (remove (keys s))) false)
          else keys s in
        match deleteJsonItem (fs_of (world s)) fullPath fullValue with
        | (fs', Some err) =>
          (mkSession (mkWorld fs' (clipboard (world s)) (clipboard_fails (world s)))
                     m keys', Exit 1)
        | (fs', None) =>
          (mkSession (mkWorld fs' (clipboard (world s)) (clipboard_fails (world s)))
                     m keys',
           Return (Some ("Deleted: " ++ title)%string))
        end
      else (s, Return None)
    | _ => (s, Return None)
    end
  end.

(** The session over the messages it receives: a panic or an exit ends
    it, and the messages that follow are not handled. *)
Fixpoint Run (fullPath : string) (msgs : list Msg) (s : Session)
  : Session * control :=
  match msgs with
  | [] => (s, Return None)
  | msg :: rest =>
    match UpdateFunc fullPath msg s with
    | (s', Return _) => Run fullPath rest s'
    | (s', stop) => (s', stop)
    end
  end.

(** [m.Select(index)] of the list. *)
Definition Select (m : list_Model) (index : nat) : list_Model :=
  mkModel (Items m) index.

(** The calls of the delegate in the order in which a session makes
    them.  The delegate is called by the update of the list (package
    list, not under src/), which handles the keys of the cursor, of the
    filter and of the end of the program before it, and not at every
    message; so each call comes with the place, among the items, of
    the item that the list has selected by then.  A panic or an exit
    ends the session. *)
Fixpoint Calls (fullPath : string) (calls : list (nat * Msg)) (s : Session)
  : Session * control :=
  match calls with
  | [] => (s, Return None)
  | (index, msg) :: rest =>
    match UpdateFunc fullPath msg
            (mkSession (world s) (Select (m_list s) index) (keys s)) with
    | (s', Return _) => Calls fullPath rest s'
    | (s', stop) => (s', stop)
    end
  end.

(** [shorten] (lines 291-297) and the items made from the entries by
    [newModel] (lines 200-210). *)
Definition ReplaceAll_newline (s : bytes) : bytes :=
  map (fun c => if code c =? 10 then " "%char else c) s.

Definition shorten (s : string) : string :=
  let maxLen := 50%nat in
  if (String.length s <=? maxLen)%nat
  then string_of (ReplaceAll_newline (bytes_of s))
  else (string_of (ReplaceAll_newline (firstn (maxLen - 3) (bytes_of s))) ++ "...")%string.

Definition entryItems (clipboardItems : list ClipboardEntry) : list item :=
  map (fun entry =>
         mkitem (shorten (Value entry)) (Value entry)
                ("Copied to clipboard: " ++ Recorded entry)%string)
      clipboardItems.

(** ** The base configuration (main.go, lines 467-479 and 533-564) *)

(** [appendNewline]: a newline, the prefix and [depth] times the indent. *)
Definition appendNewline (prefix indent : bytes) (depth : nat) : bytes :=
  chr 10 :: prefix ++ concat (repeat indent depth).

(** The loop of [appendIndent] over a valid document: [depth] and
    [needIndent] are the loop's own variables; of the scanner's state it
    keeps the nesting, whether the byte is inside a string, whether it
    follows a backslash there, and whether the value has begun.  White
    space between the tokens is dropped, white space after the value is
    copied. *)
Fixpoint appendIndent_go (prefix indent : bytes) (depth : nat)
    (needIndent : bool) (nesting : nat) (inString escaped started : bool)
    (src : bytes) : bytes :=
  match src with
  | [] => []
  | c :: src' =>
    if inString then
      c :: appendIndent_go prefix indent depth needIndent nesting
             (escaped || negb (Ascii.eqb c quote))
             (negb escaped && Ascii.eqb c backslash) started src'
    else if is_space c then
      if (nesting =? 0)%nat && started
      then c :: appendIndent_go prefix indent depth needIndent nesting
                  false false started src'
      else appendIndent_go prefix indent depth needIndent nesting
             false false started src'
    else
      let closing := Ascii.eqb c "}" || Ascii.eqb c "]" in
      let opened := needIndent && negb closing in
      let depth1 := if opened then S depth else depth in
      let lead := if opened then appendNewline prefix indent depth1 else [] in
      if Ascii.eqb c "{" || Ascii.eqb c "[" then
        lead ++ c :: appendIndent_go prefix indent depth1 true (S nesting)
                       false false true src'
      else if Ascii.eqb c "," then
        lead ++ c :: appendNewline prefix indent depth1 ++
        appendIndent_go prefix indent depth1 false nesting false false true src'
      else if Ascii.eqb c ":" then
        lead ++ c :: " "%char ::
        appendIndent_go prefix indent depth1 false nesting false false true src'
      else if closing then
        if needIndent then
          c :: appendIndent_go prefix indent depth1 false (nesting - 1)
                 false false true src'
        else
          appendNewline prefix indent (depth1 - 1) ++
          c :: appendIndent_go prefix indent (depth1 - 1) false (nesting - 1)
                 false false true src'
      else
        lead ++ c :: appendIndent_go prefix indent depth1 false nesting
                       (Ascii.eqb c quote) false true src'
  end.

Definition appendIndent (src prefix indent : bytes) : bytes :=
  appendIndent_go prefix indent 0 false 0 false false false src.

(** [encoder.Encode] after [encoder.SetIndent(prefix, indent)]. *)
Definition EncodeIndent (data : Data) (prefix indent : string) : bytes :=
  appendIndent (Encode data) (bytes_of prefix) (bytes_of indent).

(** [baseConfig]: the history with an empty slice that is not nil. *)
Definition baseConfig : Data := mkData (Some []).

(** [setBaseConfig] (lines 533-564): the file is opened or created,
    emptied and written with the indented base configuration. *)
Definition setBaseConfig (fs : FS) (fullPath : string) : FS * option error :=
  if read_only fs then (fs, Some ErrPermission)
  else (os_WriteFile fs fullPath (EncodeIndent baseConfig "" "    "), None).

(** [createHistoryFile] (lines 467-479). *)
Definition createHistoryFile (fs : FS) (fullPath : string) : FS * option error :=
  if read_only fs then (fs, Some ErrPermission)
  else setBaseConfig (os_WriteFile fs fullPath []) fullPath.

(** [checkConfig] (lines 493-531) with [createConfigDir] (lines
    459-465); [fullPath] is the path that it joins from the home
    directory.  The result is the exit status of [os.Exit], or none
    when the path is returned.  What the files by path do not hold is
    given: [userError], that [user.Current] fails (lines 494-498);
    [statError], that [os.Stat] of the path fails with an error other
    than that the file does not exist (lines 526-529);
    [configDirExists], that [os.Stat] does not report the directory as
    missing.  [os.MkdirAll] fails, as every write does, when the file
    system refuses writes. *)
Definition checkConfig (fs : FS) (userError statError configDirExists : bool)
    (fullPath : string) : FS * option Z :=
  if userError then (fs, Some 1)
  else if statError then (fs, Some 1)
  else
    match os_ReadFile fs fullPath with
    | Some _ => (fs, None)
    | None =>
      if negb configDirExists && read_only fs then (fs, Some 1)
      else
        match createHistoryFile fs fullPath with
        | (fs', Some _) => (fs', Some 1)
        | (fs', None) => (fs', None)
        end
    end.

(** ** Starting the sampler and the browser *)

(** [runListener] (lines 35-83) over the clipboard contents that its
    turns read: the data is loaded once, an error of the load is printed
    and the loop starts with what the load left in [data]. *)
Definition runListener (fullPath : string) (fs : FS)
    (obs : list (string * Time)) : FS * Data :=
  fold_left (runListener_turn fullPath) obs
            (fs, fst (loadDataFromFile fs fullPath zero_Data)).

(** [getjsonData] (lines 405-423): the entries of the file, or the exit
    of the process with status 1 when the file cannot be opened (the
    decoder then reads from no file and fails) or cannot be decoded. *)
Definition getjsonData (fs : FS) (fullPath : string)
  : slice ClipboardEntry + Z :=
  match os_ReadFile fs fullPath with
  | None => inr 1
  | Some content =>
    match Decode content zero_Data with
    | (data, None) => inl (ClipboardHistory data)
    | (_, Some _) => inr 1
    end
  end.

(** [newModel] (lines 193-232): the list of the items made from the
    entries, its cursor on the first of them, and the key map. *)
Definition newModel (fs : FS) (fullPath : string)
  : (list_Model * delegateKeyMap) + Z :=
  match getjsonData fs fullPath with
  | inl clipboardItems =>
    inl (mkModel (entryItems (elems clipboardItems)) 0, newDelegateKeyMap)
  | inr status => inr status
  end.

(** ** Notions that the statements use *)

(** The bytes that the recorded time is made of: below [0x80], and none
    of them the sign that [strings.Split] cuts at. *)
Definition no_plus (l : bytes) : Prop :=
  Forall (fun c => c <> "+"%char /\ code c < 0x80) l.

(** An entry whose two strings are valid UTF-8. *)
Definition valid_item (it : ClipboardItem) : Prop :=
  ValidString (Value it) = true /\ ValidString (Recorded it) = true.

(** The JSON values that the encoder writes. *)
Definition json_of_item (it : ClipboardItem) : json :=
  JObject [(bytes_of "value", JString (bytes_of (Value it)));
           (bytes_of "recorded", JString (bytes_of (Recorded it)))].

Definition json_of_slice (s : slice ClipboardItem) : json :=
  match s with
  | None => JNull
  | Some l => JArray (map json_of_item l)
  end.

Definition json_of_Data (data : Data) : json :=
  JObject [(bytes_of "clipboardHistory", json_of_slice (ClipboardHistory data))].

(** What a string becomes on its way through the encoder and the decoder:
    each byte that [DecodeRune] does not accept at its place is replaced
    by the three bytes of U+FFFD, the other bytes stay. *)
Fixpoint coerce_go (fuel : nat) (s : bytes) : bytes :=
  match fuel with
  | O => []
  | S f =>
    match s with
    | [] => []
    | _ :: s' =>
      let '(r, size) := DecodeRune s in
      if (r =? RuneError) && (size =? 1)%nat
      then EncodeRune RuneError ++ coerce_go f s'
      else firstn size s ++ coerce_go f (skipn size s)
    end
  end.

Definition coerce (s : string) : string :=
  string_of (coerce_go (String.length s) (bytes_of s)).

Definition coerce_item (it : ClipboardItem) : ClipboardItem :=
  mkItem (coerce (Value it)) (coerce (Recorded it)).

Definition coerce_Data (data : Data) : Data :=
  mkData (match ClipboardHistory data with
          | None => None
          | Some l => Some (map coerce_item l)
          end).

(** Bytes that are valid UTF-8, and a JSON value all of whose string
    values are. *)
Definition valid_bytes (t : bytes) : Prop := Valid_go (List.length t) t = true.

Fixpoint json_valid (j : json) : Prop :=
  match j with
  | JString s => valid_bytes s
  | JArray l =>
    (fix all (l : list json) : Prop :=
       match l with
       | [] => True
       | x :: l' => json_valid x /\ all l'
       end) l
  | JObject members =>
    (fix all (ms : list (bytes * json)) : Prop :=
       match ms with
       | [] => True
       | (_, v) :: ms' => json_valid v /\ all ms'
       end) members
  | _ => True
  end.

(** ** Sample data *)

Definition sample_time : Time := mkTime 1710006195 123456789 (mkLoc "CET" 3600).

(** Distinct values that are not empty: [n + 1] times the letter a. *)
Definition sample_value (n : nat) : string := string_of (repeat "a"%char (S n)).

Definition sample_obs (n : nat) : list (string * Time) :=
  map (fun i => (sample_value i, sample_time)) (seq 0 n).

Definition sample_items (n : nat) : list ClipboardItem :=
  map (fun i => mkItem (sample_value i) "2024-03-09 17:43:15 ") (seq 0 n).

Definition sample_session (fails : bool) : Session :=
  mkSession
    (mkWorld (mkFS {[ "history.json" := Marshal (mkData (Some (sample_items 3))) ]} false)
             "" fails)
    (mkModel (entryItems (sample_items 3)) 1)
    newDelegateKeyMap.

(** * The store: insertion *)

Section Store.

Implicit Types (data : Data) (text : string) (now : Time).

Abbreviation history data := (elems (ClipboardHistory data)).

Lemma contains_In (l : list ClipboardItem) (str : string) :
  contains l str = true <-> In str (map Value l).
Proof.
  induction l as [|item rest IH]; simpl.
  - split; [discriminate | tauto].
  - destruct (String.eqb_spec (Value item) str) as [->|Hne].
    + tauto.
    + rewrite IH. split; [tauto | intros [H|H]; [contradiction | exact H]].
Qed.

Lemma contains_false_In (l : list ClipboardItem) (str : string) :
  contains l str = false <-> ~ In str (map Value l).
Proof.
  rewrite <- contains_In. destruct (contains l str); split; congruence.
Qed.

(** What [Insert] leaves in the slice when the value is added. *)
Lemma Insert_new data text now :
  text <> "" -> contains (history data) text = false ->
  history (Insert data text now) =
  mkItem text (timeNow now) ::
  (if (50 <=? List.length (history data))%nat
   then removelast (history data) else history data).
Proof.
  intros Hne Hc. unfold Insert. rewrite Hc.
  destruct (String.eqb_spec text "") as [->|_]; [contradiction|].
  cbn [negb andb]. unfold len.
  destruct (50 <=? List.length (history data))%nat;
    cbn [ClipboardHistory elems app]; [|reflexivity].
  f_equal. rewrite removelast_firstn_len.
  destruct (ClipboardHistory data) as [l|]; cbn [elems slice_to]; [|reflexivity].
  f_equal. lia.
Qed.

Lemma Insert_old data text now :
  text = "" \/ contains (history data) text = true ->
  Insert data text now = data.
Proof.
  intros [->|Hc]; unfold Insert; [reflexivity|].
  rewrite Hc, andb_false_r. reflexivity.
Qed.

Lemma Insert_cases data text now :
  (text <> "" /\ contains (history data) text = false) \/
  (text = "" \/ contains (history data) text = true).
Proof.
  destruct (String.eqb_spec text ""); destruct (contains (history data) text); auto.
Qed.

Lemma removelast_sublist {A} (l : list A) : removelast l `sublist_of` l.
Proof. rewrite removelast_firstn_len. apply sublist_take. Qed.

Lemma map_sublist {A B} (f : A -> B) (l1 l2 : list A) :
  l1 `sublist_of` l2 -> map f l1 `sublist_of` map f l2.
Proof. induction 1; simpl; constructor; assumption. Qed.

Lemma Insert_NoDup data text now :
  NoDup (map Value (history data)) ->
  NoDup (map Value (history (Insert data text now))).
Proof.
  intros Hnd.
  destruct (Insert_cases data text now) as [[Hne Hc]|Hold].
  - rewrite Insert_new by assumption. cbn [map].
    apply contains_false_In in Hc.
    destruct (50 <=? List.length (history data))%nat.
    + apply NoDup_cons. split.
      * intros Hin. apply Hc, list_elem_of_In.
        eapply elem_of_sublist; [exact Hin|].
        apply map_sublist, removelast_sublist.
      * apply (sublist_NoDup _ (map Value (history data))); [exact Hnd|].
        apply map_sublist, removelast_sublist.
    + apply NoDup_cons. split; [rewrite list_elem_of_In; exact Hc | exact Hnd].
  - rewrite Insert_old by assumption. exact Hnd.
Qed.

Lemma Insert_length data text now :
  (List.length (history data) <= 50)%nat ->
  (List.length (history (Insert data text now)) <= 50)%nat.
Proof.
  intros Hlen.
  destruct (Insert_cases data text now) as [[Hne Hc]|Hold].
  - rewrite Insert_new by assumption. cbn [List.length].
    destruct (Nat.leb_spec 50 (List.length (history data))).
    + rewrite removelast_firstn_len, length_take. lia.
    + lia.
  - rewrite Insert_old by assumption. exact Hlen.
Qed.

Lemma Inserts_snoc data obs o :
  Inserts data (obs ++ [o]) = Insert (Inserts data obs) (fst o) (snd o).
Proof. unfold Inserts. rewrite fold_left_app. reflexivity. Qed.

(** C1: after any sequence of insertions that starts from an empty
    store, no two entries of the store hold the same value. *)
Theorem Inserts_unique data (obs : list (string * Time)) :
  history data = [] ->
  NoDup (map Value (history (Inserts data obs))).
Proof.
  intros Hempty. induction obs as [|o obs IH] using rev_ind.
  - simpl. rewrite Hempty. constructor.
  - rewrite Inserts_snoc. apply Insert_NoDup, IH.
Qed.

Lemma Inserts_unique_witness :
  history zero_Data = [] /\
  NoDup (map Value (history (Inserts zero_Data
    [("a", sample_time); ("b", sample_time); ("a", sample_time)]))).
Proof. split; [reflexivity | apply (Inserts_unique zero_Data); reflexivity]. Defined.

Lemma Inserts_length data (obs : list (string * Time)) :
  history data = [] ->
  (List.length (history (Inserts data obs)) <= 50)%nat.
Proof.
  intros Hempty. induction obs as [|o obs IH] using rev_ind.
  - simpl. rewrite Hempty. simpl. lia.
  - rewrite Inserts_snoc. apply Insert_length, IH.
Qed.

(** C2: after any sequence of insertions that starts from an empty
    store the store holds at most 50 entries; and when it holds 50, the
    insertion of a new value that is not empty drops exactly the last
    entry, the oldest, and puts the new entry in front of the others. *)
Theorem Inserts_capacity data (obs : list (string * Time)) text now :
  history data = [] ->
  (List.length (history (Inserts data obs)) <= 50)%nat /\
  (List.length (history (Inserts data obs)) = 50%nat ->
   text <> "" -> contains (history (Inserts data obs)) text = false ->
   history (Insert (Inserts data obs) text now) =
     mkItem text (timeNow now) :: removelast (history (Inserts data obs)) /\
   List.length (history (Insert (Inserts data obs) text now)) = 50%nat).
Proof.
  intros Hempty. split; [apply Inserts_length, Hempty|].
  intros Hfull Hne Hc. rewrite Insert_new by assumption.
  rewrite Hfull. change (50 <=? 50)%nat with true. cbv iota.
  split; [reflexivity|].
  cbn [List.length]. rewrite removelast_firstn_len, length_take. lia.
Qed.

Lemma Inserts_capacity_witness :
  history zero_Data = [] /\
  List.length (history (Inserts zero_Data (sample_obs 50))) = 50%nat /\
  sample_value 50 <> "" /\
  contains (history (Inserts zero_Data (sample_obs 50))) (sample_value 50) = false /\
  history (Insert (Inserts zero_Data (sample_obs 50)) (sample_value 50) sample_time) =
    mkItem (sample_value 50) (timeNow sample_time) ::
    removelast (history (Inserts zero_Data (sample_obs 50))).
Proof.
  assert (H0 : history zero_Data = []) by reflexivity.
  assert (H1 : List.length (history (Inserts zero_Data (sample_obs 50))) = 50%nat)
    by (vm_compute; reflexivity).
  assert (H2 : sample_value 50 <> "") by discriminate.
  assert (H3 : contains (history (Inserts zero_Data (sample_obs 50)))
                 (sample_value 50) = false) by (vm_compute; reflexivity).
  split; [exact H0|]. split; [exact H1|]. split; [exact H2|]. split; [exact H3|].
  exact (proj1 (proj2 (Inserts_capacity zero_Data (sample_obs 50) (sample_value 50)
                         sample_time H0) H1 H2 H3)).
Defined.

(** C5: the insertion of the empty value, or of a value that some entry
    of the store holds, gives back the store as it was: same entries,
    same order, same times. *)
Theorem Insert_noop data text now :
  text = "" \/ contains (history data) text = true ->
  Insert data text now = data.
Proof.
  intros [Hempty|Hheld]; unfold Insert.
  - rewrite Hempty. reflexivity.
  - rewrite Hheld. destruct (negb (String.eqb text "")); reflexivity.
Qed.

Lemma Insert_noop_witness :
  Insert (mkData (Some (sample_items 3))) "" sample_time =
    mkData (Some (sample_items 3)) /\
  Insert (mkData (Some (sample_items 3))) (sample_value 1) sample_time =
    mkData (Some (sample_items 3)).
Proof.
  split.
  - apply (Insert_noop (mkData (Some (sample_items 3))) "" sample_time).
    left. reflexivity.
  - apply (Insert_noop (mkData (Some (sample_items 3))) (sample_value 1) sample_time).
    right. vm_compute. reflexivity.
Defined.

(** C10: in a store that holds more than 50 entries, the insertion of
    a new value that is not empty drops one entry, the last, and puts
    the new one in front: the store keeps its length, above 50. *)
Theorem Insert_over_capacity data text now :
  (50 < List.length (history data))%nat ->
  text <> "" -> contains (history data) text = false ->
  history (Insert data text now) =
    mkItem text (timeNow now) :: removelast (history data) /\
  List.length (history (Insert data text now)) = List.length (history data) /\
  (50 < List.length (history (Insert data text now)))%nat.
Proof.
  intros Hlen Hne Hc. rewrite Insert_new by assumption.
  destruct (Nat.leb_spec 50 (List.length (history data))); [|lia].
  cbn [List.length]. rewrite removelast_firstn_len, length_take.
  repeat split; lia.
Qed.

Lemma Insert_over_capacity_witness :
  (50 < List.length (history (mkData (Some (sample_items 52)))))%nat /\
  List.length (history (Insert (mkData (Some (sample_items 52)))
                               (sample_value 52) sample_time)) = 52%nat.
Proof.
  assert (H1 : (50 < List.length (history (mkData (Some (sample_items 52)))))%nat)
    by (vm_compute; lia).
  assert (H2 : sample_value 52 <> "") by discriminate.
  assert (H3 : contains (history (mkData (Some (sample_items 52))))
                 (sample_value 52) = false) by (vm_compute; reflexivity).
  split; [exact H1|].
  exact (proj1 (proj2 (Insert_over_capacity (mkData (Some (sample_items 52)))
                         (sample_value 52) sample_time H1 H2 H3))).
Defined.

(** * The store: deletion *)

Lemma Remove_loop_filter (updated : slice ClipboardEntry)
    (entries : list ClipboardEntry) (item : string) :
  elems (Remove_loop updated entries item) =
  elems updated ++ List.filter (fun e => negb (String.eqb (Value e) item)) entries.
Proof.
  revert updated. induction entries as [|entry rest IH]; intros updated.
  - simpl. rewrite app_nil_r. reflexivity.
  - cbn [Remove_loop List.filter].
    destruct (negb (String.eqb (Value entry) item)).
    + rewrite IH. cbn [append elems]. rewrite <- app_assoc. reflexivity.
    + apply IH.
Qed.

Lemma filter_absent (l : list ClipboardEntry) (item : string) :
  contains l item = false ->
  List.filter (fun e => negb (String.eqb (Value e) item)) l = l.
Proof.
  induction l as [|e l IH]; simpl; [reflexivity|].
  destruct (String.eqb (Value e) item); [discriminate|].
  intros Hc. simpl. f_equal. apply IH, Hc.
Qed.

(** C6: [Remove] leaves no entry that holds the value; the entries it
    keeps are the other entries of the store, each as it was and in the
    order they had; a value that no entry holds leaves the sequence of
    entries as it was; and on a file that can be read, decoded and written
    [deleteJsonItem] ends without an error, whether the value is there or
    not, and leaves the encoding of that store in the file. *)
Theorem Remove_correct data (item : string) :
  (forall e, In e (history (Remove data item)) -> Value e <> item) /\
  history (Remove data item) =
    List.filter (fun e => negb (String.eqb (Value e) item)) (history data) /\
  (contains (history data) item = false ->
   history (Remove data item) = history data) /\
  (forall fs fullPath fileContent,
     os_ReadFile fs fullPath = Some fileContent ->
     Unmarshal fileContent zero_Data = (data, None) ->
     read_only fs = false ->
     deleteJsonItem fs fullPath item =
       (os_WriteFile fs fullPath (Marshal (Remove data item)), None)).
Proof.
  assert (Hf : history (Remove data item) =
    List.filter (fun e => negb (String.eqb (Value e) item)) (history data)).
  { unfold Remove. cbn [ClipboardHistory]. rewrite Remove_loop_filter. reflexivity. }
  split; [|split; [exact Hf|split]].
  - intros e He. rewrite Hf in He. apply filter_In in He as [_ He].
    destruct (String.eqb_spec (Value e) item); [discriminate | assumption].
  - intros Hc. rewrite Hf. apply filter_absent, Hc.
  - intros fs fullPath fileContent Hread Hdec Hrw.
    unfold deleteJsonItem. rewrite Hread, Hdec, Hrw. reflexivity.
Qed.

Lemma Remove_correct_witness :
  contains (history (mkData (Some (sample_items 3)))) "b" = false /\
  history (Remove (mkData (Some (sample_items 3))) "b") =
    history (mkData (Some (sample_items 3))) /\
  history (Remove (mkData (Some (sample_items 3))) (sample_value 1)) =
    [mkItem (sample_value 0) "2024-03-09 17:43:15 ";
     mkItem (sample_value 2) "2024-03-09 17:43:15 "] /\
  deleteJsonItem (fs_of (world (sample_session false))) "history.json" "b" =
    (os_WriteFile (fs_of (world (sample_session false))) "history.json"
       (Marshal (Remove (mkData (Some (sample_items 3))) "b")), None).
Proof.
  assert (H : contains (history (mkData (Some (sample_items 3)))) "b" = false)
    by (vm_compute; reflexivity).
  split; [exact H|]. split; [|split].
  - exact (proj1 (proj2 (proj2 (Remove_correct (mkData (Some (sample_items 3))) "b"))) H).
  - rewrite (proj1 (proj2 (Remove_correct (mkData (Some (sample_items 3)))
                             (sample_value 1)))).
    vm_compute. reflexivity.
  - apply (proj2 (proj2 (proj2 (Remove_correct (mkData (Some (sample_items 3))) "b")))
             (fs_of (world (sample_session false))) "history.json"
             (Marshal (mkData (Some (sample_items 3))))).
    + reflexivity.
    + vm_compute. reflexivity.
    + reflexivity.
Defined.

End Store.

(** * Bytes and digits *)

Lemma code_range (a : ascii) : 0 <= code a < 256.
Proof.
  unfold code. pose proof (N_ascii_bounded a). lia.
Qed.

Lemma chr_code (a : ascii) : chr (code a) = a.
Proof.
  unfold chr, code. rewrite N2Z.id. apply ascii_N_embedding.
Qed.

Lemma code_chr (z : Z) : 0 <= z < 256 -> code (chr z) = z.
Proof.
  intros Hz. unfold chr, code. rewrite N_ascii_embedding by lia. lia.
Qed.

Lemma code_inj (a b : ascii) : code a = code b -> a = b.
Proof. intros H. rewrite <- (chr_code a), <- (chr_code b), H. reflexivity. Qed.

Lemma string_of_bytes_of (s : string) : string_of (bytes_of s) = s.
Proof. apply string_of_list_ascii_of_string. Qed.

Lemma bytes_of_string_of (b : bytes) : bytes_of (string_of b) = b.
Proof. apply list_ascii_of_string_of_list_ascii. Qed.

Lemma string_of_inj (a b : bytes) : string_of a = string_of b -> a = b.
Proof.
  intros H. rewrite <- (bytes_of_string_of a), <- (bytes_of_string_of b), H.
  reflexivity.
Qed.

Lemma length_bytes_of (s : string) : List.length (bytes_of s) = String.length s.
Proof. induction s; simpl; congruence. Qed.

Lemma code_digit (d : Z) : 0 <= d < 10 -> code (digit d) = 48 + d.
Proof. intros Hd. unfold digit. apply code_chr. lia. Qed.

Lemma length_digits_w (w : nat) (x : Z) : List.length (digits_w w x) = w.
Proof.
  revert x. induction w as [|w IH]; intros x; simpl; [reflexivity|].
  rewrite length_app, IH. simpl. lia.
Qed.

Lemma digits_value_digits_w (w : nat) (x : Z) :
  digits_value (rev (digits_w w x)) = x mod 10 ^ Z.of_nat w.
Proof.
  revert x. induction w as [|w IH]; intros x.
  - simpl. rewrite Z.mod_1_r. reflexivity.
  - cbn [digits_w]. rewrite rev_app_distr. cbn [rev app digits_value].
    rewrite IH, code_digit by (apply Z.mod_pos_bound; lia).
    rewrite Nat2Z.inj_succ, Z.pow_succ_r by lia.
    rewrite (Z.mul_comm 10), Z.rem_mul_r by lia. lia.
Qed.

(** Cutting zeros at the low end divides the value by a power of ten. *)
Lemma digits_value_trim (r : bytes) :
  digits_value r =
  digits_value (trim_zeros_rev r) *
  10 ^ Z.of_nat (List.length r - List.length (trim_zeros_rev r)).
Proof.
  induction r as [|c r IH]; [reflexivity|].
  cbn [trim_zeros_rev]. destruct (Ascii.eqb_spec c "0") as [->|Hc].
  - cbn [digits_value List.length]. rewrite IH at 1.
    assert (Hle : (List.length (trim_zeros_rev r) <= List.length r)%nat).
    { clear. induction r as [|c r IH]; simpl; [lia|].
      destruct (Ascii.eqb c "0"); simpl; lia. }
    replace (S (List.length r) - List.length (trim_zeros_rev r))%nat
      with (S (List.length r - List.length (trim_zeros_rev r))) by lia.
    rewrite Nat2Z.inj_succ, Z.pow_succ_r by lia.
    change (code "0" - 48) with 0. lia.
  - rewrite Nat.sub_diag. simpl Z.of_nat. rewrite Z.pow_0_r. lia.
Qed.

(** The fraction of the second determines the nanoseconds. *)
Lemma appendNano_inj (n1 n2 : Z) :
  0 <= n1 < 10 ^ 9 -> 0 <= n2 < 10 ^ 9 ->
  appendNano n1 = appendNano n2 -> n1 = n2.
Proof.
  intros H1 H2. unfold appendNano.
  destruct (Z.eqb_spec n1 0) as [->|Hn1], (Z.eqb_spec n2 0) as [->|Hn2];
    try reflexivity; try discriminate.
  pose proof (digits_value_trim (rev (digits_w 9 n1))) as E1.
  pose proof (digits_value_trim (rev (digits_w 9 n2))) as E2.
  rewrite !length_rev, !length_digits_w in E1, E2.
  rewrite !digits_value_digits_w in E1, E2.
  rewrite Z.mod_small in E1, E2 by (change (Z.of_nat 9) with 9; lia).
  remember (trim_zeros_rev (rev (digits_w 9 n1))) as r1 eqn:Hr1.
  remember (trim_zeros_rev (rev (digits_w 9 n2))) as r2 eqn:Hr2.
  clear Hr1 Hr2. intros Heq.
  assert (Hr : r1 = r2).
  { apply (f_equal (@tl ascii)) in Heq. cbn [tl] in Heq.
    apply (f_equal (@rev ascii)) in Heq. rewrite !rev_involutive in Heq.
    exact Heq. }
  subst r2. lia.
Qed.

(** * The recorded time *)

Lemma plain_char (c : ascii) :
  Ascii.eqb c "+" = false -> (code c <? 0x80) = true ->
  c <> "+"%char /\ code c < 0x80.
Proof.
  intros H1 H2. split; [apply Ascii.eqb_neq, H1 | apply Z.ltb_lt, H2].
Qed.

Lemma digits_w_no_plus (w : nat) (x : Z) : no_plus (digits_w w x).
Proof.
  revert x. induction w as [|w IH]; intros x; simpl; [constructor|].
  apply Forall_app. split; [apply IH|]. repeat constructor.
  - intros H. apply (f_equal code) in H.
    rewrite code_digit in H by (apply Z.mod_pos_bound; lia).
    change (code "+") with 43 in H. pose proof (Z.mod_pos_bound x 10). lia.
  - rewrite code_digit by (apply Z.mod_pos_bound; lia).
    pose proof (Z.mod_pos_bound x 10). lia.
Qed.

Lemma appendInt_no_plus (x : Z) (w : nat) : no_plus (appendInt x w).
Proof.
  unfold appendInt. apply Forall_app. split; [|apply digits_w_no_plus].
  destruct (x <? 0); repeat constructor; apply plain_char; reflexivity.
Qed.

Lemma appendDateClock_no_plus (abs : Z) : no_plus (appendDateClock abs).
Proof.
  unfold appendDateClock. destruct (civil_from_days _) as [[y m] d].
  unfold no_plus.
  repeat (first [ apply appendInt_no_plus
                | apply Forall_cons; split; [apply plain_char; reflexivity|]
                | apply Forall_app; split ]).
Qed.

Lemma trim_zeros_rev_no_plus (r : bytes) : no_plus r -> no_plus (trim_zeros_rev r).
Proof.
  induction 1 as [|c r Hc Hr IH]; simpl; [constructor|].
  destruct (Ascii.eqb c "0"); [exact IH | constructor; assumption].
Qed.

Lemma appendNano_no_plus (n : Z) : no_plus (appendNano n).
Proof.
  unfold appendNano. destruct (n =? 0); [constructor|].
  constructor; [apply plain_char; reflexivity|].
  apply Forall_rev, trim_zeros_rev_no_plus, Forall_rev, digits_w_no_plus.
Qed.

(** The first part that [strings.Split] cuts at the sign of the zone. *)
Lemma Split_go_first (p cur rest : bytes) :
  no_plus p ->
  hd [] (Split_go (bytes_of "+0000") 0 cur (p ++ bytes_of "+0000" ++ rest)) = cur ++ p.
Proof.
  intros Hp. revert cur. induction Hp as [|c p Hc Hp IH]; intros cur.
  - cbn. rewrite app_nil_r. reflexivity.
  - cbn [app Split_go]. 
    replace (HasPrefix (c :: p ++ bytes_of "+0000" ++ rest) (bytes_of "+0000"))
      with false.
    + rewrite IH, <- app_assoc. reflexivity.
    + cbn [bytes_of list_ascii_of_string HasPrefix].
      destruct (Ascii.eqb_spec c "+"); [destruct Hc; contradiction | reflexivity].
Qed.

Lemma timeNow_bytes (now : Time) :
  timeNow now =
  string_of (appendDateClock (unix_sec now) ++ appendNano (nsec now) ++ [" "%char]).
Proof.
  unfold timeNow, strings_Split, Time_String, UTC.
  cbn [unix_sec nsec loc zone_offset zone_name UTC_loc].
  rewrite Z.add_0_r, bytes_of_string_of.
  change (" "%char :: appendZone 0 ++ " "%char :: bytes_of "UTC")
    with ([" "%char] ++ bytes_of "+0000" ++ bytes_of " UTC").
  rewrite !app_assoc, <- (app_assoc _ (bytes_of "+0000")).
  set (p := (appendDateClock (unix_sec now) ++ appendNano (nsec now)) ++ [" "%char]).
  assert (Hp : no_plus p).
  { subst p. apply Forall_app_2; [apply Forall_app_2|].
    - apply appendDateClock_no_plus.
    - apply appendNano_no_plus.
    - repeat constructor; apply plain_char; reflexivity. }
  pose proof (Split_go_first p [] (bytes_of " UTC") Hp) as H.
  clearbody p. revert H.
  generalize (Split_go (bytes_of "+0000") 0 [] (p ++ bytes_of "+0000" ++ bytes_of " UTC")).
  intros l H. destruct l; cbn [map hd app] in *; subst; reflexivity.
Qed.

Lemma string_of_app (a b : bytes) :
  string_of (a ++ b) = (string_of a ++ string_of b)%string.
Proof. induction a as [|c a IH]; simpl; [reflexivity | rewrite IH; reflexivity]. Qed.

Lemma Time_String_UTC (now : Time) :
  Time_String (UTC now) = (timeNow now ++ "+0000 UTC")%string.
Proof.
  rewrite timeNow_bytes. unfold Time_String, UTC.
  cbn [unix_sec nsec loc zone_offset zone_name UTC_loc].
  rewrite Z.add_0_r.
  change (" "%char :: appendZone 0 ++ " "%char :: bytes_of "UTC")
    with ([" "%char] ++ bytes_of "+0000 UTC").
  rewrite !app_assoc, string_of_app. reflexivity.
Qed.

Lemma timeNow_same_second (now now' : Time) :
  unix_sec now' = unix_sec now ->
  0 <= nsec now < 10 ^ 9 -> 0 <= nsec now' < 10 ^ 9 ->
  (timeNow now' = timeNow now <-> nsec now' = nsec now).
Proof.
  intros Hsec Hn Hn'. rewrite !timeNow_bytes, Hsec. split.
  - intros H. apply string_of_inj, app_inv_head, app_inv_tail in H.
    apply appendNano_inj; assumption.
  - intros ->. reflexivity.
Qed.

(** C4: the insertion of a value that is not empty and that the store
    does not hold puts a new entry at index 0, in front of the entries
    that are kept.  The entry holds that value, and the time of the
    insertion: its recorded text is the date, the time of day and the
    fraction of the second of the clock's reading [now] in UTC followed
    by one space, that is the text of [now.UTC().String()] before the
    zone. *)
Theorem Insert_prepends (data : Data) (text : string) (now : Time) :
  text <> "" -> contains (elems (ClipboardHistory data)) text = false ->
  exists e,
    elems (ClipboardHistory (Insert data text now)) !! 0%nat = Some e /\
    Value e = text /\
    Recorded e =
      string_of (appendDateClock (unix_sec now) ++ appendNano (nsec now) ++
                 [" "%char]) /\
    Time_String (UTC now) = (Recorded e ++ "+0000 UTC")%string /\
    e = mkItem text (timeNow now) /\
    tl (elems (ClipboardHistory (Insert data text now))) =
      (if (50 <=? List.length (elems (ClipboardHistory data)))%nat
       then removelast (elems (ClipboardHistory data))
       else elems (ClipboardHistory data)).
Proof.
  intros Hne Hc. exists (mkItem text (timeNow now)).
  rewrite Insert_new by assumption. cbn [Value Recorded].
  split; [reflexivity|]. split; [reflexivity|].
  split; [apply timeNow_bytes|]. split; [apply Time_String_UTC|].
  split; reflexivity.
Qed.

Lemma Insert_prepends_witness :
  "c" <> "" /\
  contains (elems (ClipboardHistory (Inserts zero_Data (sample_obs 2)))) "c" = false /\
  elems (ClipboardHistory
           (Insert (Inserts zero_Data (sample_obs 2)) "c" sample_time)) !! 0%nat =
    Some (mkItem "c" "2024-03-09 17:43:15.123456789 ").
Proof.
  assert (H1 : "c" <> "") by discriminate.
  assert (H2 : contains (elems (ClipboardHistory (Inserts zero_Data (sample_obs 2))))
                 "c" = false)
    by (vm_compute; reflexivity).
  split; [exact H1|]. split; [exact H2|].
  destruct (Insert_prepends (Inserts zero_Data (sample_obs 2)) "c"
              sample_time H1 H2) as (e & He & Hv & Hr & _).
  rewrite He. destruct e as [v r]. cbn [Value Recorded] in Hv, Hr.
  rewrite Hv, Hr. vm_compute. reflexivity.
Defined.

(** C7, as the code has it: the entry that [Insert] creates records the
    reading of the clock in UTC, as the text of [time.Now().UTC().String()]
    before the zone: the date, the time of day and the fraction of the
    second down to the nanosecond.  Two readings within the same second
    are recorded as the same text only when their nanoseconds agree. *)
Theorem Insert_records_time (data : Data) (text : string) (now : Time) :
  text <> "" -> contains (elems (ClipboardHistory data)) text = false ->
  0 <= nsec now < 10 ^ 9 ->
  exists e, elems (ClipboardHistory (Insert data text now)) !! 0%nat = Some e /\
    Time_String (UTC now) = (Recorded e ++ "+0000 UTC")%string /\
    (forall now', unix_sec now' = unix_sec now -> 0 <= nsec now' < 10 ^ 9 ->
       (timeNow now' = Recorded e <-> nsec now' = nsec now)).
Proof.
  intros Hne Hc Hn. exists (mkItem text (timeNow now)).
  rewrite Insert_new by assumption. split; [reflexivity|].
  cbn [Recorded]. split; [apply Time_String_UTC|].
  intros now' Hsec Hn'. apply timeNow_same_second; assumption.
Qed.

Lemma Insert_records_time_witness :
  exists e, elems (ClipboardHistory (Insert zero_Data "a" sample_time)) !! 0%nat = Some e /\
    Time_String (UTC sample_time) = (Recorded e ++ "+0000 UTC")%string.
Proof.
  assert (H1 : "a" <> "") by discriminate.
  assert (H2 : contains (elems (ClipboardHistory zero_Data)) "a" = false)
    by reflexivity.
  assert (H3 : 0 <= nsec sample_time < 10 ^ 9) by (cbn; lia).
  destruct (Insert_records_time zero_Data "a" sample_time H1 H2 H3)
    as (e & He & Hs & _).
  exists e. split; assumption.
Defined.

(** C7, as it is stated, fails: two readings of the clock within the
    same second are recorded differently, the second one with its
    nanoseconds. *)
Lemma Insert_records_nanoseconds :
  unix_sec (mkTime 1710006195 0 UTC_loc) =
    unix_sec (mkTime 1710006195 123456789 UTC_loc) /\
  elems (ClipboardHistory (Insert zero_Data "a" (mkTime 1710006195 0 UTC_loc))) =
    [mkItem "a" "2024-03-09 17:43:15 "] /\
  elems (ClipboardHistory (Insert zero_Data "a" (mkTime 1710006195 123456789 UTC_loc))) =
    [mkItem "a" "2024-03-09 17:43:15.123456789 "] /\
  timeNow (mkTime 1710006195 0 UTC_loc) <>
    timeNow (mkTime 1710006195 123456789 UTC_loc).
Proof.
  split; [reflexivity|]. split; [vm_compute; reflexivity|].
  split; [vm_compute; reflexivity|]. vm_compute. discriminate.
Qed.

(** * The browser session *)

Section Browser.

Variable fullPath : string.

Lemma entryItems_lookup (entries : list ClipboardEntry) (n : nat) (e : ClipboardEntry) :
  entries !! n = Some e ->
  entryItems entries !! n =
    Some (mkitem (shorten (Value e)) (Value e)
                 ("Copied to clipboard: " ++ Recorded e)%string).
Proof.
  revert n. induction entries as [|x entries IH]; intros [|n] H;
    try discriminate.
  - injection H as ->. reflexivity.
  - apply (IH n H).
Qed.

(** C9: the copy of the selected entry leaves the files, the items of
    the list and the key map as they were, whether the clipboard takes
    the value or not; when it takes it, the clipboard then holds the
    whole value of the entry, also where the title shown is shortened;
    and a sampler that holds the entry and then reads that clipboard
    neither writes the file nor changes its store: the copy puts the
    entry neither in front again nor under a new time. *)
Theorem Copy_frame (w : World) (entries : list ClipboardEntry) (n : nat)
    (e : ClipboardEntry) (ks : delegateKeyMap) (k : string) :
  entries !! n = Some e ->
  key_Matches k (choose ks) = true ->
  let s := mkSession w (mkModel (entryItems entries) n) ks in
  let r := UpdateFunc fullPath (KeyMsg k) s in
  fs_of (world (fst r)) = fs_of w /\
  m_list (fst r) = mkModel (entryItems entries) n /\
  keys (fst r) = ks /\
  (clipboard_fails w = false ->
   clipboard (world (fst r)) = Value e /\
   snd r = Return (Some ("Copied to clipboard: " ++ shorten (Value e))%string) /\
   forall (data : Data) (now : Time),
     contains (elems (ClipboardHistory data)) (Value e) = true ->
     runListener_turn fullPath (fs_of (world (fst r)), data)
       (clipboard (world (fst r)), now) = (fs_of w, data)).
Proof.
  intros He Hk s r. subst r s. unfold UpdateFunc, SelectedItem.
  cbn [m_list Items Index keys world].
  rewrite (entryItems_lookup entries n e He), Hk.
  unfold clipboard_WriteAll. destruct (clipboard_fails w) eqn:Hf;
    cbn [fst snd world fs_of m_list keys clipboard titleFull title].
  - repeat split; discriminate.
  - split; [reflexivity|]. split; [reflexivity|]. split; [reflexivity|].
    intros _. split; [reflexivity|]. split; [reflexivity|].
    intros data now Hheld. unfold runListener_turn. cbn [fst snd].
    rewrite Hheld, andb_false_r. reflexivity.
Qed.

(** C8, as the code has it: when the clipboard refuses the value, the
    delegate panics with the error; no status message is made, the files
    and the list stay as they were, and the session handles none of the
    messages that follow. *)
Theorem Copy_failure_panics (s : Session) (i : item) (k : string) (msgs : list Msg) :
  SelectedItem (m_list s) = Some i ->
  key_Matches k (choose (keys s)) = true ->
  clipboard_fails (world s) = true ->
  UpdateFunc fullPath (KeyMsg k) s = (s, Panic ErrClipboard) /\
  Run fullPath (KeyMsg k :: msgs) s = (s, Panic ErrClipboard).
Proof.
  intros Hi Hk Hf.
  assert (H : UpdateFunc fullPath (KeyMsg k) s = (s, Panic ErrClipboard)).
  { unfold UpdateFunc, clipboard_WriteAll. rewrite Hi, Hk, Hf.
    destruct s; reflexivity. }
  split; [exact H|]. cbn [Run]. rewrite H. reflexivity.
Qed.

End Browser.

Lemma Copy_frame_witness :
  sample_items 3 !! 1%nat = Some (mkItem (sample_value 1) "2024-03-09 17:43:15 ") /\
  key_Matches "enter" (choose newDelegateKeyMap) = true /\
  clipboard_fails (world (sample_session false)) = false /\
  clipboard (world (fst (UpdateFunc "history.json" (KeyMsg "enter")
                           (sample_session false)))) = sample_value 1.
Proof.
  assert (H1 : sample_items 3 !! 1%nat =
               Some (mkItem (sample_value 1) "2024-03-09 17:43:15 ")) by reflexivity.
  assert (H2 : key_Matches "enter" (choose newDelegateKeyMap) = true) by reflexivity.
  assert (H3 : clipboard_fails (world (sample_session false)) = false) by reflexivity.
  split; [exact H1|]. split; [exact H2|]. split; [exact H3|].
  exact (proj1 (proj2 (proj2 (proj2
    (Copy_frame "history.json" (world (sample_session false)) (sample_items 3) 1
       _ newDelegateKeyMap "enter" H1 H2))) H3)).
Defined.

Lemma Copy_failure_panics_witness :
  Run "history.json" [KeyMsg "enter"; KeyMsg "x"] (sample_session true) =
    (sample_session true, Panic ErrClipboard).
Proof.
  apply (Copy_failure_panics "history.json" (sample_session true)
           (mkitem (shorten (sample_value 1)) (sample_value 1)
                   "Copied to clipboard: 2024-03-09 17:43:15 ") "enter").
  - reflexivity.
  - reflexivity.
  - reflexivity.
Defined.

(** C8, as it is stated, fails: with a clipboard that refuses the value,
    the copy ends in a panic and the deletion asked for next is never
    carried out, where a session that went on would have carried it out. *)
Lemma Copy_failure_ends_session :
  snd (UpdateFunc "history.json" (KeyMsg "enter") (sample_session true)) =
    Panic ErrClipboard /\
  Run "history.json" [KeyMsg "enter"; KeyMsg "x"] (sample_session true) =
    (sample_session true, Panic ErrClipboard) /\
  Items (m_list (fst (Run "history.json" [KeyMsg "x"] (sample_session true)))) =
    entryItems [mkItem (sample_value 0) "2024-03-09 17:43:15 ";
                mkItem (sample_value 2) "2024-03-09 17:43:15 "].
Proof. repeat split; vm_compute; reflexivity. Qed.

(** * UTF-8: decoding a rune and encoding it again *)

(** A union of bits that do not meet is a sum. *)
Lemma lor_add (x y k : Z) :
  0 <= k -> 0 <= y < 2 ^ k -> x mod 2 ^ k = 0 -> Z.lor x y = x + y.
Proof.
  intros Hk Hy Hx.
  assert (H : Z.land x y = 0);
    [|rewrite <- Z.lxor_lor, Z.add_nocarry_lxor by exact H; reflexivity].
  apply Z.bits_inj'. intros n Hn. rewrite Z.land_spec, Z.bits_0.
  destruct (Z.lt_ge_cases n k) as [Hlt|Hge].
  - rewrite <- (Z.mod_pow2_bits_low x k n) by lia.
    rewrite Hx, Z.bits_0. reflexivity.
  - rewrite <- (Z.mod_small y (2 ^ k)) by lia.
    rewrite Z.mod_pow2_bits_high by lia. apply andb_false_r.
Qed.

(** Masks and shifts as remainders, products and quotients. *)
Ltac to_arith :=
  unfold byte;
  change 0xFF with (Z.ones 8); change 0x3F with (Z.ones 6);
  change 0x1F with (Z.ones 5); change 0x0F with (Z.ones 4);
  change 0x07 with (Z.ones 3);
  rewrite ?Z.land_ones by lia;
  rewrite ?Z.shiftl_mul_pow2, ?Z.shiftr_div_pow2 by lia;
  change (2 ^ 3) with 8; change (2 ^ 4) with 16; change (2 ^ 5) with 32;
  change (2 ^ 6) with 64; change (2 ^ 8) with 256; change (2 ^ 12) with 4096;
  change (2 ^ 18) with 262144.

Ltac divmod := try lia; try reflexivity; Z.div_mod_to_equations; lia.

Lemma rune2_value (b0 b1 : Z) :
  0xC2 <= b0 <= 0xDF -> 0x80 <= b1 <= 0xBF ->
  rune2 b0 b1 = (b0 - 192) * 64 + (b1 - 128).
Proof.
  intros H0 H1. unfold rune2. to_arith.
  rewrite (lor_add _ _ 6) by divmod. divmod.
Qed.

Lemma rune3_value (b0 b1 b2 : Z) :
  0xE0 <= b0 <= 0xEF -> 0x80 <= b1 <= 0xBF -> 0x80 <= b2 <= 0xBF ->
  rune3 b0 b1 b2 = (b0 - 224) * 4096 + (b1 - 128) * 64 + (b2 - 128).
Proof.
  intros H0 H1 H2. unfold rune3. to_arith.
  rewrite (lor_add (_ * 4096) _ 12) by divmod.
  rewrite (lor_add _ _ 6) by divmod. divmod.
Qed.

Lemma rune4_value (b0 b1 b2 b3 : Z) :
  0xF0 <= b0 <= 0xF4 -> 0x80 <= b1 <= 0xBF -> 0x80 <= b2 <= 0xBF ->
  0x80 <= b3 <= 0xBF ->
  rune4 b0 b1 b2 b3 =
  (b0 - 240) * 262144 + (b1 - 128) * 4096 + (b2 - 128) * 64 + (b3 - 128).
Proof.
  intros H0 H1 H2 H3. unfold rune4. to_arith.
  rewrite (lor_add (_ * 262144) _ 18) by divmod.
  rewrite (lor_add (_ + _ * 4096) _ 12) by divmod.
  rewrite (lor_add _ _ 6) by divmod. divmod.
Qed.

Lemma EncodeRune_rune2 (b0 b1 : Z) :
  0xC2 <= b0 <= 0xDF -> 0x80 <= b1 <= 0xBF ->
  EncodeRune (rune2 b0 b1) = [chr b0; chr b1].
Proof.
  intros H0 H1. rewrite rune2_value by assumption.
  set (r := (b0 - 192) * 64 + (b1 - 128)).
  assert (Hr : 0x80 <= r <= 0x7FF) by (subst r; lia).
  unfold EncodeRune.
  destruct (Z.leb_spec r 0x7F); [lia|]. destruct (Z.leb_spec r 0x7FF); [|lia].
  f_equal; [|f_equal]; f_equal; to_arith.
  - rewrite (lor_add _ _ 6) by (subst r; divmod). subst r; divmod.
  - rewrite (lor_add _ _ 6) by (subst r; divmod). subst r; divmod.
Qed.

Lemma EncodeRune_rune3 (b0 b1 b2 : Z) :
  0xE0 <= b0 <= 0xEF -> accept_lo b0 <= b1 <= accept_hi b0 ->
  0x80 <= b2 <= 0xBF ->
  EncodeRune (rune3 b0 b1 b2) = [chr b0; chr b1; chr b2].
Proof.
  intros H0 H1 H2.
  assert (H1' : 0x80 <= b1 <= 0xBF /\ (b0 = 0xE0 -> 0xA0 <= b1) /\
                (b0 = 0xED -> b1 <= 0x9F)).
  { unfold accept_lo, accept_hi in H1.
    destruct (Z.eqb_spec b0 0xE0), (Z.eqb_spec b0 0xF0), (Z.eqb_spec b0 0xED),
      (Z.eqb_spec b0 0xF4); lia. }
  destruct H1' as (H1a & H1b & H1c).
  rewrite rune3_value by assumption.
  set (r := (b0 - 224) * 4096 + (b1 - 128) * 64 + (b2 - 128)).
  assert (Hr : 0x800 <= r <= 0xFFFF /\ ~ (0xD800 <= r <= 0xDFFF)) by (subst r; lia).
  unfold EncodeRune, MaxRune.
  destruct (Z.leb_spec r 0x7F); [lia|]. destruct (Z.leb_spec r 0x7FF); [lia|].
  destruct (Z.ltb_spec 0x10FFFF r); [lia|].
  destruct (Z.leb_spec 0xD800 r), (Z.leb_spec r 0xDFFF); try lia;
    cbn [orb andb]; (destruct (Z.leb_spec r 0xFFFF); [|lia]);
    (f_equal; [|f_equal; [|f_equal]]; f_equal; to_arith;
     [ rewrite (lor_add _ _ 5) by (subst r; divmod); subst r; divmod
     | rewrite (lor_add _ _ 6) by (subst r; divmod); subst r; divmod
     | rewrite (lor_add _ _ 6) by (subst r; divmod); subst r; divmod ]).
Qed.

Lemma EncodeRune_rune4 (b0 b1 b2 b3 : Z) :
  0xF0 <= b0 <= 0xF4 -> accept_lo b0 <= b1 <= accept_hi b0 ->
  0x80 <= b2 <= 0xBF -> 0x80 <= b3 <= 0xBF ->
  EncodeRune (rune4 b0 b1 b2 b3) = [chr b0; chr b1; chr b2; chr b3].
Proof.
  intros H0 H1 H2 H3.
  assert (H1' : 0x80 <= b1 <= 0xBF /\ (b0 = 0xF0 -> 0x90 <= b1) /\
                (b0 = 0xF4 -> b1 <= 0x8F)).
  { unfold accept_lo, accept_hi in H1.
    destruct (Z.eqb_spec b0 0xE0), (Z.eqb_spec b0 0xF0), (Z.eqb_spec b0 0xED),
      (Z.eqb_spec b0 0xF4); lia. }
  destruct H1' as (H1a & H1b & H1c).
  rewrite rune4_value by assumption.
  set (r := (b0 - 240) * 262144 + (b1 - 128) * 4096 + (b2 - 128) * 64 + (b3 - 128)).
  assert (Hr : 0xFFFF < r <= 0x10FFFF) by (subst r; lia).
  unfold EncodeRune, MaxRune.
  destruct (Z.leb_spec r 0x7F); [lia|]. destruct (Z.leb_spec r 0x7FF); [lia|].
  destruct (Z.ltb_spec 0x10FFFF r); [lia|].
  destruct (Z.leb_spec 0xD800 r), (Z.leb_spec r 0xDFFF); try lia;
    cbn [orb andb]; (destruct (Z.leb_spec r 0xFFFF); [lia|]);
    (f_equal; [|f_equal; [|f_equal; [|f_equal]]]; f_equal; to_arith;
     [ rewrite (lor_add _ _ 4) by (subst r; divmod); subst r; divmod
     | rewrite (lor_add _ _ 6) by (subst r; divmod); subst r; divmod
     | rewrite (lor_add _ _ 6) by (subst r; divmod); subst r; divmod
     | rewrite (lor_add _ _ 6) by (subst r; divmod); subst r; divmod ]).
Qed.

Lemma lead_size_cases (b0 : Z) :
  (lead_size b0 = 0%nat /\ (b0 < 0xC2 \/ 0xF4 < b0)) \/
  (lead_size b0 = 2%nat /\ 0xC2 <= b0 <= 0xDF) \/
  (lead_size b0 = 3%nat /\ 0xE0 <= b0 <= 0xEF) \/
  (lead_size b0 = 4%nat /\ 0xF0 <= b0 <= 0xF4).
Proof.
  unfold lead_size.
  destruct (Z.ltb_spec b0 0xC2), (Z.ltb_spec 0xF4 b0), (Z.ltb_spec b0 0xE0),
    (Z.ltb_spec b0 0xF0); cbn [orb]; lia.
Qed.

Lemma in_range_test (lo hi b : Z) :
  (b <? lo) || (hi <? b) = false <-> lo <= b <= hi.
Proof. destruct (Z.ltb_spec b lo), (Z.ltb_spec hi b); cbn [orb]; split; (lia || congruence). Qed.

(** What [DecodeRune] gives from the two, three or four bytes of a
    well-formed sequence, whatever follows them. *)
Lemma DecodeRune_two (p0 p1 : ascii) (q : bytes) :
  0xC2 <= code p0 <= 0xDF -> 0x80 <= code p1 <= 0xBF ->
  DecodeRune (p0 :: p1 :: q) = (rune2 (code p0) (code p1), 2%nat).
Proof.
  intros H0 H1. unfold DecodeRune.
  destruct (Z.ltb_spec (code p0) 0x80); [lia|].
  destruct (lead_size_cases (code p0)) as [[E ?]|[[E ?]|[[E ?]|[E ?]]]];
    try lia.
  rewrite E. cbn [Nat.eqb orb List.length Nat.ltb Nat.leb nth].
  replace (accept_lo (code p0)) with 0x80
    by (unfold accept_lo; destruct (Z.eqb_spec (code p0) 0xE0),
          (Z.eqb_spec (code p0) 0xF0); lia).
  replace (accept_hi (code p0)) with 0xBF
    by (unfold accept_hi; destruct (Z.eqb_spec (code p0) 0xED),
          (Z.eqb_spec (code p0) 0xF4); lia).
  rewrite (proj2 (in_range_test _ _ _)) by assumption. reflexivity.
Qed.

Lemma DecodeRune_three (p0 p1 p2 : ascii) (q : bytes) :
  0xE0 <= code p0 <= 0xEF ->
  accept_lo (code p0) <= code p1 <= accept_hi (code p0) ->
  0x80 <= code p2 <= 0xBF ->
  DecodeRune (p0 :: p1 :: p2 :: q) =
    (rune3 (code p0) (code p1) (code p2), 3%nat).
Proof.
  intros H0 H1 H2. unfold DecodeRune.
  destruct (Z.ltb_spec (code p0) 0x80); [lia|].
  destruct (lead_size_cases (code p0)) as [[E ?]|[[E ?]|[[E ?]|[E ?]]]];
    try lia.
  rewrite E. cbn [Nat.eqb orb List.length Nat.ltb Nat.leb nth].
  rewrite (proj2 (in_range_test _ _ (code p1))) by assumption.
  rewrite (proj2 (in_range_test _ _ (code p2))) by assumption. reflexivity.
Qed.

Lemma DecodeRune_four (p0 p1 p2 p3 : ascii) (q : bytes) :
  0xF0 <= code p0 <= 0xF4 ->
  accept_lo (code p0) <= code p1 <= accept_hi (code p0) ->
  0x80 <= code p2 <= 0xBF -> 0x80 <= code p3 <= 0xBF ->
  DecodeRune (p0 :: p1 :: p2 :: p3 :: q) =
    (rune4 (code p0) (code p1) (code p2) (code p3), 4%nat).
Proof.
  intros H0 H1 H2 H3. unfold DecodeRune.
  destruct (Z.ltb_spec (code p0) 0x80); [lia|].
  destruct (lead_size_cases (code p0)) as [[E ?]|[[E ?]|[[E ?]|[E ?]]]];
    try lia.
  rewrite E. cbn [Nat.eqb orb List.length Nat.ltb Nat.leb nth].
  rewrite (proj2 (in_range_test _ _ (code p1))) by assumption.
  rewrite (proj2 (in_range_test _ _ (code p2))) by assumption.
  rewrite (proj2 (in_range_test _ _ (code p3))) by assumption. reflexivity.
Qed.

(** What a rune of more than one byte was decoded from. *)
Lemma DecodeRune_multi (c : ascii) (t : bytes) (r : Z) (n : nat) :
  0x80 <= code c ->
  DecodeRune (c :: t) = (r, n) ->
  (r =? RuneError) && (n =? 1)%nat = false ->
  (exists p1 q, t = p1 :: q /\ n = 2%nat /\ r = rune2 (code c) (code p1) /\
     0xC2 <= code c <= 0xDF /\ 0x80 <= code p1 <= 0xBF) \/
  (exists p1 p2 q, t = p1 :: p2 :: q /\ n = 3%nat /\
     r = rune3 (code c) (code p1) (code p2) /\
     0xE0 <= code c <= 0xEF /\
     accept_lo (code c) <= code p1 <= accept_hi (code c) /\
     0x80 <= code p2 <= 0xBF) \/
  (exists p1 p2 p3 q, t = p1 :: p2 :: p3 :: q /\ n = 4%nat /\
     r = rune4 (code c) (code p1) (code p2) (code p3) /\
     0xF0 <= code c <= 0xF4 /\
     accept_lo (code c) <= code p1 <= accept_hi (code c) /\
     0x80 <= code p2 <= 0xBF /\ 0x80 <= code p3 <= 0xBF).
Proof.
  intros Hc H Hne. unfold DecodeRune in H.
  destruct (Z.ltb_spec (code c) 0x80); [lia|].
  assert (Herr : (RuneError, 1%nat) = (r, n) -> False).
  { intros E. injection E as <- <-. discriminate Hne. }
  destruct (lead_size_cases (code c)) as [[E ?]|[[E ?]|[[E ?]|[E ?]]]];
    rewrite E in H; cbn [Nat.eqb orb] in H.
  - destruct (Herr H).
  - destruct t as [|p1 q]; cbn [List.length Nat.ltb Nat.leb nth] in H;
      [destruct (Herr H)|].
    destruct ((code p1 <? _) || _) eqn:R1 in H; [destruct (Herr H)|].
    apply in_range_test in R1. injection H as <- <-. left.
    exists p1, q. repeat split; try lia.
    + unfold accept_lo in R1.
      destruct (Z.eqb_spec (code c) 0xE0), (Z.eqb_spec (code c) 0xF0); lia.
    + unfold accept_hi in R1.
      destruct (Z.eqb_spec (code c) 0xED), (Z.eqb_spec (code c) 0xF4); lia.
  - destruct t as [|p1 [|p2 q]]; cbn [List.length Nat.ltb Nat.leb nth] in H;
      try destruct (Herr H).
    destruct ((code p1 <? _) || _) eqn:R1 in H; [destruct (Herr H)|].
    destruct ((code p2 <? _) || _) eqn:R2 in H; [destruct (Herr H)|].
    apply in_range_test in R1, R2. injection H as <- <-. right. left.
    exists p1, p2, q. repeat split; lia.
  - destruct t as [|p1 [|p2 [|p3 q]]]; cbn [List.length Nat.ltb Nat.leb nth] in H;
      try destruct (Herr H).
    destruct ((code p1 <? _) || _) eqn:R1 in H; [destruct (Herr H)|].
    destruct ((code p2 <? _) || _) eqn:R2 in H; [destruct (Herr H)|].
    destruct ((code p3 <? _) || _) eqn:R3 in H; [destruct (Herr H)|].
    apply in_range_test in R1, R2, R3. injection H as <- <-. right. right.
    exists p1, p2, p3, q. repeat split; lia.
Qed.

(** The encoder decodes from the four bytes at the head, to the same
    result. *)
Lemma DecodeRune_firstn (p : bytes) : DecodeRune (firstn 4 p) = DecodeRune p.
Proof.
  destruct p as [|p0 [|p1 [|p2 [|p3 q]]]]; try reflexivity.
  cbn [firstn]. unfold DecodeRune.
  destruct (code p0 <? 0x80); [reflexivity|].
  destruct (lead_size_cases (code p0)) as [[E ?]|[[E ?]|[[E ?]|[E ?]]]];
    rewrite E; reflexivity.
Qed.

(** * JSON strings: reading back what was written *)

Lemma unquote_unfold (f : nat) (c : ascii) (s' : bytes) :
  unquote (S f) (c :: s') =
  let s := c :: s' in
  let b := code c in
  if b =? 34 then Some ([], s')
  else if b =? 92 then
    match s' with
    | [] => None
    | e :: s'' =>
      let simple (x : ascii) :=
        match unquote f s'' with
        | Some (t, rest) => Some (x :: t, rest)
        | None => None
        end in
      let eb := code e in
      if (eb =? 34) || (eb =? 92) || (eb =? 47) then simple e
      else if eb =? 98 then simple (chr 8)
      else if eb =? 102 then simple (chr 12)
      else if eb =? 110 then simple (chr 10)
      else if eb =? 114 then simple (chr 13)
      else if eb =? 116 then simple (chr 9)
      else if eb =? 117 then
        let rr := getu4 s in
        if rr <? 0 then None
        else
          let s1 := skipn 6 s in
          let rr1 := getu4 s1 in
          let dec := utf16_DecodeRune rr rr1 in
          let surrogate := (0xD800 <=? rr) && (rr <? 0xE000) in
          let '(out, next) :=
            if surrogate && negb (dec =? RuneError)
            then (EncodeRune dec, skipn 6 s1)
            else if surrogate then (EncodeRune RuneError, s1)
            else (EncodeRune rr, s1) in
          match unquote f next with
          | Some (t, rest) => Some (out ++ t, rest)
          | None => None
          end
      else None
    end
  else if b <? 0x20 then None
  else if b <? 0x80 then
    match unquote f s' with
    | Some (t, rest) => Some (c :: t, rest)
    | None => None
    end
  else
    let '(rr, size) := DecodeRune s in
    match unquote f (skipn size s) with
    | Some (t, rest) => Some (EncodeRune rr ++ t, rest)
    | None => None
    end.
Proof. reflexivity. Qed.

Lemma hexval_hex (d : Z) : 0 <= d < 16 -> hexval (hex d) = d.
Proof.
  intros Hd. unfold hexval, hex. destruct (Z.ltb_spec d 10).
  - rewrite code_chr by lia.
    destruct (Z.leb_spec 48 (48 + d)), (Z.leb_spec (48 + d) 57); cbn [andb]; lia.
  - rewrite code_chr by lia.
    destruct (Z.leb_spec 48 (87 + d)), (Z.leb_spec (87 + d) 57),
      (Z.leb_spec 97 (87 + d)), (Z.leb_spec (87 + d) 102); cbn [andb]; lia.
Qed.

(** The escape [\u00XY] reads back as the byte it was written for. *)
Lemma getu4_escape (b : Z) (s : bytes) :
  0 <= b < 256 ->
  getu4 (backslash :: "u"%char :: "0"%char :: "0"%char ::
         hex (Z.shiftr b 4) :: hex (Z.land b 0xF) :: s) = b.
Proof.
  intros Hb. unfold getu4. cbn [Ascii.eqb Bool.eqb backslash andb fold_left].
  assert (H1 : 0 <= Z.shiftr b 4 < 16)
    by (rewrite Z.shiftr_div_pow2 by lia; change (2 ^ 4) with 16; divmod).
  assert (H2 : 0 <= Z.land b 0xF < 16)
    by (change 0xF with (Z.ones 4); rewrite Z.land_ones by lia;
        change (2 ^ 4) with 16; divmod).
  change (hexstep (hexstep 0 "0") "0") with 0.
  assert (Hstep : forall r d, 0 <= r -> 0 <= d < 16 -> hexstep r (hex d) = r * 16 + d).
  { intros r d Hr Hd. unfold hexstep. rewrite hexval_hex by assumption.
    destruct (Z.ltb_spec r 0), (Z.ltb_spec d 0); cbn [orb]; lia. }
  rewrite (Hstep 0) by lia. rewrite Hstep by lia.
  rewrite Z.shiftr_div_pow2 by lia. change 0xF with (Z.ones 4).
  rewrite Z.land_ones by lia. change (2 ^ 4) with 16. divmod.
Qed.

(** Tests on integers that the context decides. *)
Ltac ztest :=
  repeat match goal with
  | |- context [Z.eqb ?a ?b] =>
    first [ replace (Z.eqb a b) with true by (symmetry; apply Z.eqb_eq; lia)
          | replace (Z.eqb a b) with false by (symmetry; apply Z.eqb_neq; lia) ]
  | |- context [Z.ltb ?a ?b] =>
    first [ replace (Z.ltb a b) with true by (symmetry; apply Z.ltb_lt; lia)
          | replace (Z.ltb a b) with false by (symmetry; apply Z.ltb_ge; lia) ]
  | |- context [Z.leb ?a ?b] =>
    first [ replace (Z.leb a b) with true by (symmetry; apply Z.leb_le; lia)
          | replace (Z.leb a b) with false by (symmetry; apply Z.leb_gt; lia) ]
  end; cbn [orb andb negb].

Ltac codes :=
  change (code backslash) with 92 in *; change (code quote) with 34 in *;
  change (code "u"%char) with 117 in *; change (code "b"%char) with 98 in *;
  change (code "f"%char) with 102 in *; change (code "n"%char) with 110 in *;
  change (code "r"%char) with 114 in *; change (code "t"%char) with 116 in *.

Lemma EncodeRune_ascii (c : ascii) : code c <= 0x7F -> EncodeRune (code c) = [c].
Proof.
  intros Hc. pose proof (code_range c). unfold EncodeRune. ztest.
  unfold byte. change 0xFF with (Z.ones 8). rewrite Z.land_ones by lia.
  rewrite Z.mod_small by (change (2 ^ 8) with 256; lia).
  rewrite chr_code. reflexivity.
Qed.

(** What is written for a byte below [0x80] reads back as that byte. *)
Lemma unquote_appendEscape (f : nat) (c : ascii) (body t rest : bytes) :
  code c < 0x80 ->
  unquote f body = Some (t, rest) ->
  unquote (S f) (appendEscape c ++ body) = Some (c :: t, rest).
Proof.
  intros Hc H. pose proof (code_range c) as Hr.
  assert (Hchr : forall z, code c = z -> chr z = c)
    by (intros z <-; apply chr_code).
  unfold appendEscape, htmlSafeSet.
  destruct (Z.leb_spec 0x20 (code c)), (Z.eqb_spec (code c) 34),
    (Z.eqb_spec (code c) 92), (Z.eqb_spec (code c) 60),
    (Z.eqb_spec (code c) 62), (Z.eqb_spec (code c) 38); cbn [orb andb negb];
    try lia;
    try (cbn [app]; rewrite unquote_unfold; cbv zeta; codes; ztest;
         rewrite H; reflexivity).
  all: destruct (Z.eqb_spec (code c) 8), (Z.eqb_spec (code c) 12),
    (Z.eqb_spec (code c) 10), (Z.eqb_spec (code c) 13),
    (Z.eqb_spec (code c) 9); try lia;
    try (cbn [app]; rewrite unquote_unfold; cbv zeta; codes; ztest;
         rewrite H; f_equal; f_equal; f_equal; apply Hchr; assumption).
  all: cbn [app]; rewrite unquote_unfold; cbv zeta; codes;
    rewrite getu4_escape by lia; ztest; cbn [skipn];
    change (skipn 0 body) with body;
    rewrite H, EncodeRune_ascii by lia; reflexivity.
Qed.

(** A well-formed sequence of several bytes, copied as it is, reads back
    as itself. *)
Lemma unquote_rune_copy (f : nat) (c : ascii) (t0 : bytes) (r : Z) (n : nat)
    (body t rest : bytes) :
  0x80 <= code c ->
  DecodeRune (c :: t0) = (r, n) ->
  (r =? RuneError) && (n =? 1)%nat = false ->
  unquote f body = Some (t, rest) ->
  unquote (S f) (firstn n (c :: t0) ++ body) = Some (firstn n (c :: t0) ++ t, rest).
Proof.
  intros Hc HD Hne H. pose proof (code_range c) as Hr.
  destruct (DecodeRune_multi c t0 r n Hc HD Hne)
    as [(p1 & q & -> & -> & -> & R0 & R1)
       |[(p1 & p2 & q & -> & -> & -> & R0 & R1 & R2)
        |(p1 & p2 & p3 & q & -> & -> & -> & R0 & R1 & R2 & R3)]];
    cbn [firstn app]; rewrite take_0; cbn [app];
    rewrite unquote_unfold; cbv zeta; ztest.
  - rewrite DecodeRune_two by assumption. cbv beta iota. cbn [skipn].
    rewrite drop_0.
    rewrite H, EncodeRune_rune2, !chr_code by assumption. reflexivity.
  - rewrite DecodeRune_three by assumption. cbv beta iota. cbn [skipn].
    rewrite drop_0.
    rewrite H, EncodeRune_rune3, !chr_code by assumption. reflexivity.
  - rewrite DecodeRune_four by assumption. cbv beta iota. cbn [skipn].
    rewrite drop_0.
    rewrite H, EncodeRune_rune4, !chr_code by assumption. reflexivity.
Qed.

(** The separators U+2028 and U+2029, written as escapes, read back as
    the three bytes they were decoded from. *)
Lemma unquote_rune_escape (f : nat) (c : ascii) (t0 : bytes) (r : Z) (n : nat)
    (body t rest : bytes) :
  0x80 <= code c ->
  DecodeRune (c :: t0) = (r, n) ->
  r = 0x2028 \/ r = 0x2029 ->
  unquote f body = Some (t, rest) ->
  unquote (S f) (backslash :: bytes_of "u202" ++ hex (Z.land r 0xF) :: body) =
    Some (firstn n (c :: t0) ++ t, rest).
Proof.
  intros Hc HD Hsep H. pose proof (code_range c) as Hr.
  assert (Hne : (r =? RuneError) && (n =? 1)%nat = false)
    by (destruct Hsep as [-> | ->]; reflexivity).
  destruct (DecodeRune_multi c t0 r n Hc HD Hne)
    as [(p1 & q & -> & -> & E & R0 & R1)
       |[(p1 & p2 & q & -> & -> & E & R0 & R1 & R2)
        |(p1 & p2 & p3 & q & -> & -> & E & R0 & R1 & R2 & R3)]].
  - rewrite rune2_value in E by assumption. lia.
  - assert (Henc : EncodeRune r = [c; p1; p2])
      by (rewrite E, EncodeRune_rune3, !chr_code by assumption; reflexivity).
    cbn [firstn app]. rewrite take_0. cbn [app].
    change (c :: p1 :: p2 :: t) with ([c; p1; p2] ++ t). rewrite <- Henc.
    destruct Hsep as [-> | ->];
      cbn [bytes_of list_ascii_of_string app]; rewrite unquote_unfold;
      cbv zeta; codes; ztest;
      [ change (getu4 (backslash :: "u"%char :: _)) with 0x2028
      | change (getu4 (backslash :: "u"%char :: _)) with 0x2029 ];
      ztest; cbv beta iota; cbn [skipn]; rewrite drop_0, H; reflexivity.
  - assert (R1' : 0x80 <= code p1 <= 0xBF).
    { unfold accept_lo, accept_hi in R1.
      destruct (Z.eqb_spec (code c) 0xE0), (Z.eqb_spec (code c) 0xF0),
        (Z.eqb_spec (code c) 0xED), (Z.eqb_spec (code c) 0xF4); lia. }
    assert (R1'' : code c = 0xF0 -> 0x90 <= code p1).
    { intros E0. unfold accept_lo in R1. rewrite E0 in R1. cbn in R1. lia. }
    rewrite rune4_value in E by assumption. lia.
Qed.

Lemma appendEscape_length (c : ascii) : (1 <= List.length (appendEscape c))%nat.
Proof.
  unfold appendEscape.
  repeat match goal with
  | |- context [if ?b then _ else _] => destruct b
  end; cbn [List.length]; lia.
Qed.

Lemma unquote_quote (f : nat) (rest : bytes) :
  unquote (S f) (quote :: rest) = Some ([], rest).
Proof. reflexivity. Qed.

(** The body of a string literal, followed by its closing quote, reads
    back as the string it was written for, when that string is valid
    UTF-8. *)
Lemma unquote_appendString_go (fuel : nat) :
  forall (s : bytes) (f : nat) (rest : bytes),
  Valid_go fuel s = true ->
  (List.length (appendString_go fuel s) < f)%nat ->
  unquote f (appendString_go fuel s ++ quote :: rest) = Some (s, rest).
Proof.
  induction fuel as [|fuel IH]; intros s f rest Hv Hf.
  - destruct s; [|discriminate]. destruct f; [cbn in Hf; lia|]. reflexivity.
  - destruct s as [|c s'].
    { destruct f; [cbn in Hf; lia|]. reflexivity. }
    pose proof (code_range c) as Hr.
    cbn [appendString_go Valid_go] in *.
    destruct (Z.ltb_spec (code c) 0x80) as [Hc|Hc].
    + assert (HD : DecodeRune (c :: s') = (code c, 1%nat)).
      { unfold DecodeRune. destruct (Z.ltb_spec (code c) 0x80); [reflexivity|lia]. }
      rewrite HD in Hv.
      replace (code c =? RuneError) with false in Hv
        by (symmetry; apply Z.eqb_neq; unfold RuneError; lia).
      cbn [andb skipn] in Hv. rewrite drop_0 in Hv.
      rewrite length_app in Hf. pose proof (appendEscape_length c).
      destruct f as [|f]; [lia|]. rewrite <- app_assoc.
      apply unquote_appendEscape; [lia|]. apply IH; [exact Hv | lia].
    + rewrite DecodeRune_firstn in *.
      destruct (DecodeRune (c :: s')) as [r n] eqn:HD.
      destruct ((r =? RuneError) && (n =? 1)%nat) eqn:Hne; [discriminate|].
      assert (Hn : (1 <= List.length (firstn n (c :: s')))%nat).
      { destruct (DecodeRune_multi c s' r n ltac:(lia) HD Hne)
          as [(p1 & q & -> & -> & _)
             |[(p1 & p2 & q & -> & -> & _)
              |(p1 & p2 & p3 & q & -> & -> & _)]];
          cbn [firstn List.length]; lia. }
      destruct ((r =? 0x2028) || (r =? 0x2029)) eqn:Hsep.
      * cbn [List.length bytes_of list_ascii_of_string app] in Hf.
        destruct f as [|f]; [lia|].
        assert (HIH : unquote f (appendString_go fuel (skipn n (c :: s')) ++
                                 quote :: rest) = Some (skipn n (c :: s'), rest))
          by (apply IH; [exact Hv | lia]).
        assert (Hsep' : r = 0x2028 \/ r = 0x2029)
          by (apply orb_true_iff in Hsep as [E|E]; apply Z.eqb_eq in E; auto).
        pose proof (unquote_rune_escape f c s' r n _ _ _ ltac:(lia) HD Hsep' HIH)
          as Hu.
        rewrite firstn_skipn in Hu. exact Hu.
      * rewrite length_app in Hf.
        destruct f as [|f]; [lia|]. rewrite <- app_assoc.
        assert (HIH : unquote f (appendString_go fuel (skipn n (c :: s')) ++
                                 quote :: rest) = Some (skipn n (c :: s'), rest))
          by (apply IH; [exact Hv | lia]).
        pose proof (unquote_rune_copy f c s' r n _ _ _ ltac:(lia) HD Hne HIH)
          as Hu.
        rewrite firstn_skipn in Hu. exact Hu.
Qed.

(** A string of valid UTF-8 is read back from its literal. *)
Lemma unquote_appendString (s : string) (rest : bytes) :
  ValidString s = true ->
  exists body, appendString s ++ rest = quote :: body /\
    unquote (List.length body) body = Some (bytes_of s, rest).
Proof.
  intros Hv. unfold appendString.
  exists ((appendString_go (String.length s) (bytes_of s) ++ [quote]) ++ rest).
  split; [reflexivity|].
  rewrite <- app_assoc. cbn [app].
  apply unquote_appendString_go; [exact Hv|].
  rewrite length_app. cbn [List.length]. lia.
Qed.

(** * JSON values: reading back the encoding of the store *)

Lemma parse_value_unfold (f : nat) (s : bytes) :
  parse_value (S f) s =
  match skip_ws s with
  | [] => None
  | c :: t =>
    if Ascii.eqb c quote then
      match unquote (List.length t) t with
      | Some (str, r) => Some (JString str, r)
      | None => None
      end
    else if Ascii.eqb c "[" then
      match skip_ws t with
      | d :: r => if Ascii.eqb d "]" then Some (JArray [], r)
                  else match parse_elems f t with
                       | Some (l, r') => Some (JArray l, r')
                       | None => None
                       end
      | [] => None
      end
    else if Ascii.eqb c "{" then
      match skip_ws t with
      | d :: r => if Ascii.eqb d "}" then Some (JObject [], r)
                  else match parse_members f t with
                       | Some (l, r') => Some (JObject l, r')
                       | None => None
                       end
      | [] => None
      end
    else if HasPrefix (c :: t) (bytes_of "null") then Some (JNull, skipn 3 t)
    else if HasPrefix (c :: t) (bytes_of "true") then Some (JBool true, skipn 3 t)
    else if HasPrefix (c :: t) (bytes_of "false") then Some (JBool false, skipn 4 t)
    else match scan_number (c :: t) with
         | Some (lit, r) => Some (JNumber lit, r)
         | None => None
         end
  end.
Proof. reflexivity. Qed.

Lemma parse_members_unfold (f : nat) (s : bytes) :
  parse_members (S f) s =
  match skip_ws s with
  | q :: t =>
    if Ascii.eqb q quote then
      match unquote (List.length t) t with
      | Some (k, r) =>
        match skip_ws r with
        | d :: r1 =>
          if Ascii.eqb d ":" then
            match parse_value f r1 with
            | Some (v, r2) =>
              match skip_ws r2 with
              | e :: r3 =>
                if Ascii.eqb e "," then
                  match parse_members f r3 with
                  | Some (l, r4) => Some ((k, v) :: l, r4)
                  | None => None
                  end
                else if Ascii.eqb e "}" then Some ([(k, v)], r3)
                else None
              | [] => None
              end
            | None => None
            end
          else None
        | [] => None
        end
      | None => None
      end
    else None
  | [] => None
  end.
Proof. reflexivity. Qed.

Lemma parse_elems_unfold (f : nat) (s : bytes) :
  parse_elems (S f) s =
  match parse_value f s with
  | Some (v, r) =>
    match skip_ws r with
    | d :: r' =>
      if Ascii.eqb d "," then
        match parse_elems f r' with
        | Some (l, r'') => Some (v :: l, r'')
        | None => None
        end
      else if Ascii.eqb d "]" then Some ([v], r')
      else None
    | [] => None
    end
  | None => None
  end.
Proof. reflexivity. Qed.

(** A string literal is read as the string it was written for. *)
Lemma parse_value_string (f : nat) (v : string) (rest : bytes) :
  ValidString v = true ->
  parse_value (S f) (appendString v ++ rest) = Some (JString (bytes_of v), rest).
Proof.
  intros Hv. destruct (unquote_appendString v rest Hv) as (body & E & U).
  rewrite parse_value_unfold, E.
  change (skip_ws (quote :: body)) with (quote :: body).
  change (Ascii.eqb quote quote) with true. cbv iota. rewrite U. reflexivity.
Qed.

(** A member [k : v] whose key is a plain name. *)
Lemma parse_member (f : nat) (name v : string) (rest : bytes) :
  ValidString name = true -> appendString name = quote :: bytes_of name ++ [quote] ->
  ValidString v = true ->
  exists t, encode_key name ++ appendString v ++ rest = quote :: t /\
    unquote (List.length t) t =
      Some (bytes_of name, ":"%char :: appendString v ++ rest) /\
    parse_value (S f) (appendString v ++ rest) = Some (JString (bytes_of v), rest).
Proof.
  intros Hn Hplain Hv.
  destruct (unquote_appendString name (":"%char :: appendString v ++ rest) Hn)
    as (body & E & U).
  exists body. split; [|split; [exact U | apply parse_value_string, Hv]].
  rewrite <- E, Hplain. unfold encode_key. cbn [app].
  rewrite <- !app_assoc. reflexivity.
Qed.

Lemma skip_ws_cons (c : ascii) (t : bytes) :
  is_space c = false -> skip_ws (c :: t) = c :: t.
Proof. intros H. cbn [skip_ws]. rewrite H. reflexivity. Qed.

Ltac chars :=
  rewrite ?skip_ws_cons by reflexivity;
  cbn [Ascii.eqb Bool.eqb quote andb]; cbv iota.

(** The object written for an entry is read as that object. *)
Lemma parse_value_item (f : nat) (it : ClipboardItem) (rest : bytes) :
  valid_item it ->
  parse_value (S (S (S (S f)))) (encode_item it ++ rest) =
    Some (json_of_item it, rest).
Proof.
  intros [Hv Hr]. unfold encode_item, json_of_item.
  destruct (parse_member f "recorded" (Recorded it) ("}"%char :: rest)
              eq_refl eq_refl Hr) as (t2 & E2 & U2 & P2).
  destruct (parse_member (S f) "value" (Value it)
              (","%char :: quote :: t2) eq_refl eq_refl Hv) as (t1 & E1 & U1 & P1).
  replace (("{"%char :: encode_key "value" ++ appendString (Value it) ++
            ","%char :: encode_key "recorded" ++ appendString (Recorded it) ++
            ["}"%char]) ++ rest)
    with ("{"%char :: quote :: t1).
  2:{ rewrite <- E1, <- E2.
      repeat (progress (rewrite <- ?app_assoc; cbn [app])). reflexivity. }
  rewrite parse_value_unfold. chars.
  rewrite parse_members_unfold. chars. rewrite U1. chars. rewrite P1. chars.
  rewrite parse_members_unfold. chars. rewrite U2. chars. rewrite P2. chars.
  reflexivity.
Qed.

Lemma parse_elems_items (l : list ClipboardItem) :
  forall (f : nat) (rest : bytes),
  l <> [] -> Forall valid_item l -> (List.length l + 4 <= f)%nat ->
  parse_elems f (encode_items l ++ "]"%char :: rest) =
    Some (map json_of_item l, rest).
Proof.
  induction l as [|it l IH]; intros f rest Hne Hv Hf; [contradiction|].
  apply Forall_cons in Hv as [Hit Hv].
  destruct f as [|[|[|[|[|f]]]]]; cbn [List.length] in Hf; try lia.
  rewrite parse_elems_unfold. destruct l as [|it2 l].
  - cbn [encode_items]. rewrite parse_value_item by assumption. chars.
    reflexivity.
  - change (encode_items (it :: it2 :: l))
      with (encode_item it ++ ","%char :: encode_items (it2 :: l)).
    rewrite <- app_assoc. cbn [app]. rewrite parse_value_item by assumption.
    chars. rewrite IH; [reflexivity | discriminate | assumption |].
    cbn [List.length] in *. lia.
Qed.

Lemma encode_items_head (it : ClipboardItem) (l : list ClipboardItem) (rest : bytes) :
  exists t, encode_items (it :: l) ++ rest = "{"%char :: t.
Proof. destruct l; cbn [encode_items encode_item app]; eexists; reflexivity. Qed.

Lemma parse_value_slice (s : slice ClipboardItem) (f : nat) (rest : bytes) :
  Forall valid_item (elems s) -> (List.length (elems s) + 5 <= f)%nat ->
  parse_value f (encode_slice s ++ rest) = Some (json_of_slice s, rest).
Proof.
  intros Hv Hf. destruct f as [|f]; [lia|].
  rewrite parse_value_unfold. destruct s as [[|it l]|]; cbn [encode_slice app].
  - chars. reflexivity.
  - chars. rewrite <- app_assoc. cbn [app].
    destruct (encode_items_head it l ("]"%char :: rest)) as (t & E).
    rewrite E at 1. chars. cbn [json_of_slice].
    rewrite parse_elems_items; [reflexivity | discriminate | exact Hv |].
    cbn [elems] in Hf. lia.
  - cbn [bytes_of list_ascii_of_string app]. chars. reflexivity.
Qed.

Lemma unquote_key (name : string) (rest : bytes) :
  ValidString name = true ->
  appendString name = quote :: bytes_of name ++ [quote] ->
  exists t, encode_key name ++ rest = quote :: t /\
    unquote (List.length t) t = Some (bytes_of name, ":"%char :: rest).
Proof.
  intros Hn Hplain.
  destruct (unquote_appendString name (":"%char :: rest) Hn) as (body & E & U).
  exists body. split; [|exact U].
  rewrite <- E, Hplain. unfold encode_key. cbn [app].
  rewrite <- !app_assoc. reflexivity.
Qed.

Lemma parse_value_Data (data : Data) (f : nat) (rest : bytes) :
  Forall valid_item (elems (ClipboardHistory data)) ->
  (List.length (elems (ClipboardHistory data)) + 7 <= f)%nat ->
  parse_value f (Marshal data ++ rest) = Some (json_of_Data data, rest).
Proof.
  intros Hv Hf. destruct f as [|[|f]]; try lia. unfold Marshal.
  destruct (unquote_key "clipboardHistory"
              (encode_slice (ClipboardHistory data) ++ "}"%char :: rest)
              eq_refl eq_refl) as (t & E & U).
  replace (("{"%char :: encode_key "clipboardHistory" ++
            encode_slice (ClipboardHistory data) ++ ["}"%char]) ++ rest)
    with ("{"%char :: quote :: t).
  2:{ rewrite <- E. repeat (progress (rewrite <- ?app_assoc; cbn [app])).
      reflexivity. }
  rewrite parse_value_unfold. chars.
  rewrite parse_members_unfold. chars. rewrite U. chars.
  rewrite parse_value_slice by (assumption || lia). chars. reflexivity.
Qed.

(** * Decoding the values read *)

Lemma decode_item_json (cur it : ClipboardItem) :
  decode_item cur (json_of_item it) = (it, true).
Proof.
  unfold decode_item, json_of_item. cbn [fold_left fst snd].
  change (field_is (bytes_of "value") "value") with true.
  change (field_is (bytes_of "recorded") "value") with false.
  change (field_is (bytes_of "recorded") "recorded") with true.
  cbn [decode_string Value Recorded andb]. rewrite !string_of_bytes_of.
  destruct it; reflexivity.
Qed.

Lemma decode_elems_json (cur l : list ClipboardItem) :
  decode_elems cur (map json_of_item l) = (l, true).
Proof.
  revert cur. induction l as [|it l IH]; intros cur; [reflexivity|].
  cbn [map decode_elems]. rewrite decode_item_json, IH. reflexivity.
Qed.

Lemma decode_Data_json (cur data : Data) :
  decode_Data cur (json_of_Data data) = (data, true).
Proof.
  unfold decode_Data, json_of_Data. cbn [fold_left fst snd].
  change (field_is (bytes_of "clipboardHistory") "clipboardHistory") with true.
  cbv iota. destruct data as [[l|]]; cbn [json_of_slice decode_slice ClipboardHistory].
  - rewrite decode_elems_json. reflexivity.
  - reflexivity.
Qed.

Lemma encode_items_length (l : list ClipboardItem) :
  (List.length l <= List.length (encode_items l))%nat.
Proof.
  induction l as [|it [|it2 l] IH]; [cbn; lia | cbn; lia |].
  change (encode_items (it :: it2 :: l))
    with (encode_item it ++ ","%char :: encode_items (it2 :: l)).
  rewrite length_app. cbn [List.length] in *. lia.
Qed.

Lemma Marshal_length (data : Data) :
  (List.length (elems (ClipboardHistory data)) + 3 <= List.length (Marshal data))%nat.
Proof.
  unfold Marshal, encode_key.
  destruct (ClipboardHistory data) as [l|]; cbn [encode_slice elems];
    repeat (progress (rewrite ?length_app;
                      cbn [List.length bytes_of list_ascii_of_string app])).
  - pose proof (encode_items_length l). lia.
  - lia.
Qed.

Lemma Marshal_head (data : Data) : exists t, Marshal data = "{"%char :: t.
Proof. eexists. reflexivity. Qed.

(** What [Encode] wrote is decoded to the value it was written for,
    whatever the target held. *)
Lemma Decode_Encode (data cur : Data) :
  Forall valid_item (elems (ClipboardHistory data)) ->
  Decode (Encode data) cur = (data, None).
Proof.
  intros Hv. unfold Decode, Encode.
  destruct (Marshal_head data) as (t & E). rewrite E at 1.
  cbn [app]. rewrite skip_ws_cons by reflexivity.
  rewrite parse_value_Data.
  - rewrite decode_Data_json. reflexivity.
  - exact Hv.
  - pose proof (Marshal_length data). rewrite length_app. lia.
Qed.

Lemma Unmarshal_Marshal (data cur : Data) :
  Forall valid_item (elems (ClipboardHistory data)) ->
  Unmarshal (Marshal data) cur = (data, None).
Proof.
  intros Hv. unfold Unmarshal.
  rewrite <- (app_nil_r (Marshal data)) at 2.
  rewrite parse_value_Data.
  - cbn [skip_ws]. rewrite decode_Data_json. reflexivity.
  - exact Hv.
  - pose proof (Marshal_length data). lia.
Qed.

(** C3, as the code has it: a store whose values and recorded times are
    valid UTF-8, saved to a file system that takes the write, is loaded
    back as it was saved, whatever the target of the load held. *)
Theorem Load_Save (fs : FS) (fullPath : string) (data cur : Data) :
  read_only fs = false ->
  Forall (fun it => ValidString (Value it) = true /\
                    ValidString (Recorded it) = true)
         (elems (ClipboardHistory data)) ->
  snd (saveDataToFile fs fullPath data) = None /\
  loadDataFromFile (fst (saveDataToFile fs fullPath data)) fullPath cur =
    (data, None).
Proof.
  intros Hrw Hv. unfold saveDataToFile. rewrite Hrw. cbn [fst snd].
  split; [reflexivity|].
  unfold loadDataFromFile, os_ReadFile, os_WriteFile. cbn [files].
  rewrite lookup_insert_eq. apply Decode_Encode, Hv.
Qed.

Lemma Load_Save_witness :
  read_only (mkFS ∅ false) = false /\
  loadDataFromFile
    (fst (saveDataToFile (mkFS ∅ false) "history.json"
            (Inserts zero_Data [("a < b & c", sample_time); ("déjà vu", sample_time)])))
    "history.json" zero_Data =
  (Inserts zero_Data [("a < b & c", sample_time); ("déjà vu", sample_time)], None).
Proof.
  split; [reflexivity|].
  apply (Load_Save (mkFS ∅ false) "history.json").
  - reflexivity.
  - repeat constructor; vm_compute; reflexivity.
Defined.

(** C3, as it is stated, fails: a store of one entry, which meets both
    invariants, whose value is the single byte 255 (not valid UTF-8, and
    what the sampler records when the clipboard holds that byte) is saved
    without an error and is loaded back with the three bytes of U+FFFD
    as its value, so not as it was. *)
Lemma Load_Save_invalid_utf8 :
  let data := Insert zero_Data (string_of [chr 255]) (mkTime 1710006195 0 UTC_loc) in
  elems (ClipboardHistory data) =
    [mkItem (string_of [chr 255]) "2024-03-09 17:43:15 "] /\
  NoDup (map Value (elems (ClipboardHistory data))) /\
  (List.length (elems (ClipboardHistory data)) <= 50)%nat /\
  loadDataFromFile (fst (saveDataToFile (mkFS ∅ false) "history.json" data))
    "history.json" zero_Data =
    (mkData (Some [mkItem (string_of [chr 239; chr 191; chr 189])
                          "2024-03-09 17:43:15 "]), None) /\
  fst (loadDataFromFile (fst (saveDataToFile (mkFS ∅ false) "history.json" data))
         "history.json" zero_Data) <> data.
Proof.
  cbv zeta. split; [vm_compute; reflexivity|].
  split; [apply NoDup_singleton|].
  split; [vm_compute; lia|].
  split; [vm_compute; reflexivity|]. vm_compute. discriminate.
Qed.

(** * The stores that the sampler builds *)

Lemma Valid_go_ascii (s : bytes) :
  Forall (fun c => code c < 0x80) s -> Valid_go (List.length s) s = true.
Proof.
  induction 1 as [|c s Hc Hs IH]; [reflexivity|].
  cbn [List.length Valid_go]. unfold DecodeRune.
  destruct (Z.ltb_spec (code c) 0x80); [|lia].
  replace (code c =? RuneError) with false
    by (symmetry; apply Z.eqb_neq; unfold RuneError; lia).
  cbn [andb skipn]. rewrite drop_0. exact IH.
Qed.

Lemma length_string_of (b : bytes) : String.length (string_of b) = List.length b.
Proof. rewrite <- length_bytes_of, bytes_of_string_of. reflexivity. Qed.

(** The recorded time is valid UTF-8: all its bytes are below [0x80]. *)
Lemma timeNow_valid (now : Time) : ValidString (timeNow now) = true.
Proof.
  rewrite timeNow_bytes. unfold ValidString.
  rewrite length_string_of, bytes_of_string_of. apply Valid_go_ascii.
  assert (H : no_plus (appendDateClock (unix_sec now) ++ appendNano (nsec now) ++
                       [" "%char])).
  { apply Forall_app_2; [apply appendDateClock_no_plus|].
    apply Forall_app_2; [apply appendNano_no_plus|].
    repeat constructor; apply plain_char; reflexivity. }
  eapply Forall_impl; [exact H|]. intros c [_ Hc]. exact Hc.
Qed.

Lemma Insert_valid (data : Data) (text : string) (now : Time) :
  Forall valid_item (elems (ClipboardHistory data)) ->
  ValidString text = true ->
  Forall valid_item (elems (ClipboardHistory (Insert data text now))).
Proof.
  intros Hd Ht.
  destruct (Insert_cases data text now) as [[Hne Hc]|Hold].
  - rewrite Insert_new by assumption. apply Forall_cons. split.
    + split; [exact Ht | apply timeNow_valid].
    + destruct (50 <=? _)%nat; [|exact Hd].
      rewrite removelast_firstn_len. apply Forall_take, Hd.
  - rewrite Insert_old by assumption. exact Hd.
Qed.

(** What the sampler saves after any run of observations of valid UTF-8
    is loaded back as the store that it holds in memory. *)
Lemma Inserts_Load_Save (fs : FS) (fullPath : string) (cur : Data)
    (obs : list (string * Time)) :
  read_only fs = false ->
  Forall (fun o => ValidString (fst o) = true) obs ->
  loadDataFromFile (fst (saveDataToFile fs fullPath (Inserts zero_Data obs)))
    fullPath cur = (Inserts zero_Data obs, None).
Proof.
  intros Hrw Hobs. unfold saveDataToFile, loadDataFromFile, os_ReadFile, os_WriteFile.
  rewrite Hrw. cbn [fst files]. rewrite lookup_insert_eq. apply Decode_Encode.
  induction obs as [|o obs IH] using rev_ind; [constructor|].
  apply Forall_app in Hobs as [Hobs Ho]. rewrite Inserts_snoc.
  apply Insert_valid; [apply IH, Hobs|].
  apply Forall_cons in Ho as [Ho _]. exact Ho.
Qed.

(** * More on the store: what insertion and deletion keep *)

Section StoreMore.

Implicit Types (data : Data) (text : string) (now : Time).

Abbreviation entries_of data := (elems (ClipboardHistory data)).

Lemma contains_head (it : ClipboardItem) (l : list ClipboardItem) :
  contains (it :: l) (Value it) = true.
Proof. cbn [contains]. rewrite String.eqb_refl. reflexivity. Qed.

Lemma contains_sublist (l1 l2 : list ClipboardItem) (str : string) :
  l1 `sublist_of` l2 -> contains l1 str = true -> contains l2 str = true.
Proof.
  intros Hs. rewrite !contains_In. rewrite <- !list_elem_of_In.
  intros Hin. eapply elem_of_sublist; [exact Hin|]. apply map_sublist, Hs.
Qed.

(** X1: After the insertion of a text that is not empty the store holds it,
    whether it was new or not; and a value other than the text that the
    store holds afterwards is one it held before. *)
Theorem Insert_holds data text now (other : string) :
  text <> "" ->
  contains (entries_of (Insert data text now)) text = true /\
  (other <> text -> contains (entries_of (Insert data text now)) other = true ->
   contains (entries_of data) other = true).
Proof.
  intros Hne. destruct (Insert_cases data text now) as [[_ Hc]|[Hempty|Hheld]].
  - rewrite Insert_new by assumption. split; [apply (contains_head (mkItem _ _))|].
    intros Hother. cbn [contains Value].
    destruct (String.eqb_spec text other) as [E|_]; [congruence|].
    destruct (50 <=? _)%nat; [|tauto].
    apply contains_sublist, removelast_sublist.
  - contradiction.
  - rewrite Insert_old by (right; exact Hheld). split; [exact Hheld | tauto].
Qed.

Lemma Insert_holds_witness :
  "b" <> "" /\
  contains (entries_of (Insert (mkData (Some (sample_items 3))) "b" sample_time)) "b" = true.
Proof.
  assert (H : "b" <> "") by discriminate.
  split; [exact H|].
  exact (proj1 (Insert_holds (mkData (Some (sample_items 3))) "b" sample_time "c" H)).
Defined.

Lemma Insert_length_both data text now :
  (List.length (entries_of data) <= List.length (entries_of (Insert data text now)) /\
   List.length (entries_of (Insert data text now)) <=
     Nat.max 50 (List.length (entries_of data)))%nat.
Proof.
  destruct (Insert_cases data text now) as [[Hne Hc]|Hold].
  - rewrite Insert_new by assumption. cbn [List.length].
    destruct (Nat.leb_spec 50 (List.length (entries_of data))).
    + rewrite removelast_firstn_len, length_take. lia.
    + lia.
  - rewrite Insert_old by assumption. lia.
Qed.

(** X2: From any store, one loaded from a file as well as an empty one, a
    run of insertions never makes the store shorter, and never longer
    than 50 entries or than it was at the start, whichever is more: a
    store that starts above 50 entries keeps its length for ever. *)
Theorem Inserts_length_bounds data (obs : list (string * Time)) :
  (List.length (entries_of data) <= List.length (entries_of (Inserts data obs)) /\
   List.length (entries_of (Inserts data obs)) <=
     Nat.max 50 (List.length (entries_of data)))%nat.
Proof.
  induction obs as [|o obs IH] using rev_ind; [cbn; lia|].
  rewrite Inserts_snoc.
  pose proof (Insert_length_both (Inserts data obs) (fst o) (snd o)). lia.
Qed.

(** X3: From a store whose values are pairwise distinct, however it came
    about, a run of insertions keeps them pairwise distinct. *)
Theorem Inserts_keep_unique data (obs : list (string * Time)) :
  NoDup (map Value (entries_of data)) ->
  NoDup (map Value (entries_of (Inserts data obs))).
Proof.
  intros Hnd. induction obs as [|o obs IH] using rev_ind; [exact Hnd|].
  rewrite Inserts_snoc. apply Insert_NoDup, IH.
Qed.

Lemma Inserts_keep_unique_witness :
  NoDup (map Value (entries_of (mkData (Some (sample_items 3))))) /\
  NoDup (map Value (entries_of (Inserts (mkData (Some (sample_items 3)))
                                  [("b", sample_time); (sample_value 1, sample_time)]))).
Proof.
  assert (H : NoDup (map Value (entries_of (mkData (Some (sample_items 3)))))).
  { apply (bool_decide_unpack _). vm_compute. exact I. }
  split; [exact H|].
  exact (Inserts_keep_unique (mkData (Some (sample_items 3)))
           [("b", sample_time); (sample_value 1, sample_time)] H).
Defined.

Lemma removelast_app_take {A} (P : A -> Prop) (new old : list A) (k : nat) :
  Forall P new ->
  exists new' k', removelast (new ++ firstn k old) = new' ++ firstn k' old /\
    Forall P new'.
Proof.
  intros HP. destruct (firstn k old) as [|x l] eqn:E.
  - exists (removelast new), 0%nat. rewrite app_nil_r, take_0, app_nil_r.
    split; [reflexivity|]. rewrite removelast_firstn_len. apply Forall_take, HP.
  - exists new, (Nat.min (List.length l) k). split; [|exact HP].
    rewrite removelast_app by discriminate. f_equal.
    rewrite removelast_firstn_len. cbn [List.length Nat.pred].
    rewrite <- E, take_take. reflexivity.
Qed.

(** X4: A run of insertions never reorders or rewrites the entries it found:
    the store afterwards is made of new entries, whose values were all
    observed during the run, followed by the entries of the start, as they
    were and in their order, cut after some of them: only the oldest are
    ever dropped. *)
Theorem Inserts_keep_order data (obs : list (string * Time)) :
  exists (new : list ClipboardItem) (k : nat),
    entries_of (Inserts data obs) = new ++ firstn k (entries_of data) /\
    Forall (fun e => In (Value e) (map fst obs)) new.
Proof.
  induction obs as [|o obs IH] using rev_ind.
  - exists [], (List.length (entries_of data)). split; [|constructor].
    cbn [Inserts fold_left app]. rewrite firstn_all. reflexivity.
  - destruct IH as (new & k & E & Hnew). rewrite Inserts_snoc.
    assert (Hobs : Forall (fun e => In (Value e) (map fst (obs ++ [o]))) new).
    { eapply Forall_impl; [exact Hnew|]. intros e He. rewrite map_app.
      apply in_or_app. left. exact He. }
    destruct (Insert_cases (Inserts data obs) (fst o) (snd o)) as [[Hne Hc]|Hold].
    + rewrite Insert_new by assumption.
      assert (Hitem : In (Value (mkItem (fst o) (timeNow (snd o))))
                         (map fst (obs ++ [o]))).
      { rewrite map_app. apply in_or_app. right. left. reflexivity. }
      destruct (50 <=? _)%nat.
      * rewrite E.
        destruct (removelast_app_take _ new (entries_of data) k Hobs)
          as (new' & k' & E' & Hnew').
        exists (mkItem (fst o) (timeNow (snd o)) :: new'), k'.
        rewrite E'. split; [reflexivity|]. apply Forall_cons. split; assumption.
      * exists (mkItem (fst o) (timeNow (snd o)) :: new), k. rewrite E.
        split; [reflexivity|]. apply Forall_cons. split; assumption.
    + rewrite Insert_old by assumption. exists new, k. split; assumption.
Qed.

Implicit Types (item : string).

Abbreviation kept item := (fun e : ClipboardEntry => negb (String.eqb (Value e) item)).

Lemma Remove_entries data item :
  entries_of (Remove data item) = List.filter (kept item) (entries_of data).
Proof. unfold Remove. cbn [ClipboardHistory]. apply Remove_loop_filter. Qed.

(** The slice that the loop leaves is nil exactly when it kept nothing. *)
Lemma Remove_loop_nil (entries : list ClipboardEntry) item :
  Remove_loop None entries item =
  match List.filter (kept item) entries with
  | [] => None
  | l => Some l
  end.
Proof.
  induction entries as [|e l IH]; [reflexivity|].
  cbn [Remove_loop List.filter]. destruct (kept item e); [|exact IH].
  pose proof (Remove_loop_filter (append None e) l item) as H.
  destruct (Remove_loop (append None e) l item) as [r|] eqn:E.
  - cbn [elems append app] in H. rewrite H. reflexivity.
  - cbn [elems append app] in H. discriminate.
Qed.

Lemma contains_filter (l : list ClipboardEntry) item (other : string) :
  other <> item ->
  contains (List.filter (kept item) l) other = contains l other.
Proof.
  intros Hne. induction l as [|e l IH]; [reflexivity|].
  cbn [List.filter contains].
  destruct (String.eqb_spec (Value e) item) as [E|_]; cbn [negb contains].
  - destruct (String.eqb_spec (Value e) other); [congruence | exact IH].
  - rewrite IH. reflexivity.
Qed.

Lemma filter_filter_comm (l : list ClipboardEntry) (v w : string) :
  List.filter (kept w) (List.filter (kept v) l) =
  List.filter (kept v) (List.filter (kept w) l).
Proof.
  induction l as [|e l IH]; [reflexivity|]. cbn [List.filter].
  destruct (kept v e) eqn:Ev, (kept w e) eqn:Ew; cbn [List.filter];
    rewrite ?Ev, ?Ew, IH; reflexivity.
Qed.

Lemma filter_filter_same (l : list ClipboardEntry) (v : string) :
  List.filter (kept v) (List.filter (kept v) l) = List.filter (kept v) l.
Proof.
  induction l as [|e l IH]; [reflexivity|]. cbn [List.filter].
  destruct (kept v e) eqn:Ev; cbn [List.filter]; rewrite ?Ev, IH; reflexivity.
Qed.

(** X5: Deletions compose: two deletions give the same store in either
    order, a deletion done twice is the deletion done once, and a
    deletion changes for no other value whether the store holds it. *)
Theorem Remove_compose data (v w : string) :
  Remove (Remove data v) w = Remove (Remove data w) v /\
  Remove (Remove data v) v = Remove data v /\
  (w <> v -> contains (entries_of (Remove data v)) w = contains (entries_of data) w).
Proof.
  split; [|split].
  - unfold Remove at 1 3. rewrite !Remove_loop_nil, !Remove_entries.
    rewrite filter_filter_comm. reflexivity.
  - unfold Remove at 1 3. rewrite !Remove_loop_nil, Remove_entries.
    rewrite filter_filter_same. reflexivity.
  - intros Hne. rewrite Remove_entries. apply contains_filter, Hne.
Qed.

Lemma Remove_compose_witness :
  "aa" <> "a" /\
  contains (elems (ClipboardHistory (Remove (mkData (Some (sample_items 3))) "a"))) "aa" =
  contains (elems (ClipboardHistory (mkData (Some (sample_items 3))))) "aa".
Proof.
  assert (H : "aa" <> "a") by discriminate.
  split; [exact H|].
  exact (proj2 (proj2 (Remove_compose (mkData (Some (sample_items 3))) "a" "aa")) H).
Defined.

Lemma filter_unique (l : list ClipboardEntry) (n : nat) (e : ClipboardEntry) :
  NoDup (map Value l) -> l !! n = Some e ->
  List.filter (kept (Value e)) l = delete n l.
Proof.
  revert n. induction l as [|x l IH]; intros n Hnd Hn; [discriminate|].
  apply NoDup_cons in Hnd as [Hx Hnd]. destruct n as [|n].
  - injection Hn as ->. cbn [List.filter]. rewrite String.eqb_refl.
    cbn [negb delete list_delete]. apply filter_absent.
    apply contains_false_In. rewrite <- list_elem_of_In. exact Hx.
  - cbn [List.filter delete list_delete].
    destruct (String.eqb_spec (Value x) (Value e)) as [E|_]; cbn [negb].
    + exfalso. apply Hx. rewrite E. apply list_elem_of_In, in_map.
      apply list_elem_of_In. eapply list_elem_of_lookup_2. exact Hn.
    + f_equal. apply IH; assumption.
Qed.

(** X6: In a store whose values are pairwise distinct the deletion of the
    value of the entry at an index removes that entry and no other, so
    the store is one entry shorter; and its values stay pairwise
    distinct. *)
Theorem Remove_unique data (n : nat) (e : ClipboardEntry) :
  NoDup (map Value (entries_of data)) ->
  entries_of data !! n = Some e ->
  entries_of (Remove data (Value e)) = delete n (entries_of data) /\
  S (List.length (entries_of (Remove data (Value e)))) =
    List.length (entries_of data) /\
  NoDup (map Value (entries_of (Remove data (Value e)))).
Proof.
  intros Hnd Hn. rewrite Remove_entries, (filter_unique _ n e Hnd Hn).
  split; [reflexivity|]. split.
  - rewrite length_delete by (rewrite Hn; eauto).
    apply lookup_lt_Some in Hn. lia.
  - apply (sublist_NoDup _ (map Value (entries_of data))); [exact Hnd|].
    apply map_sublist, sublist_delete.
Qed.

Lemma Remove_unique_witness :
  NoDup (map Value (entries_of (mkData (Some (sample_items 3))))) /\
  entries_of (mkData (Some (sample_items 3))) !! 1%nat =
    Some (mkItem (sample_value 1) "2024-03-09 17:43:15 ") /\
  entries_of (Remove (mkData (Some (sample_items 3))) (sample_value 1)) =
    delete 1%nat (entries_of (mkData (Some (sample_items 3)))).
Proof.
  assert (H1 : NoDup (map Value (entries_of (mkData (Some (sample_items 3))))))
    by (apply (bool_decide_unpack _); vm_compute; exact I).
  assert (H2 : entries_of (mkData (Some (sample_items 3))) !! 1%nat =
               Some (mkItem (sample_value 1) "2024-03-09 17:43:15 "))
    by reflexivity.
  split; [exact H1|]. split; [exact H2|].
  exact (proj1 (Remove_unique (mkData (Some (sample_items 3))) 1 _ H1 H2)).
Defined.

(** X7: The deletion of a value right after its insertion as a new value
    gives back the entries that the store had, all of them when it held
    fewer than 50, and all but the oldest when it held 50 or more: what
    the insertion dropped stays dropped. *)
Theorem Remove_Insert data (text : string) (now : Time) :
  text <> "" -> contains (entries_of data) text = false ->
  entries_of (Remove (Insert data text now) text) =
    (if (50 <=? List.length (entries_of data))%nat
     then removelast (entries_of data) else entries_of data).
Proof.
  intros Hne Hc. rewrite Remove_entries, Insert_new by assumption.
  cbn [List.filter Value]. rewrite String.eqb_refl. cbn [negb].
  apply filter_absent. destruct (50 <=? _)%nat; [|exact Hc].
  destruct (contains (removelast (entries_of data)) text) eqn:E; [|reflexivity].
  rewrite <- Hc. symmetry.
  apply (contains_sublist _ _ _ (removelast_sublist _) E).
Qed.

Lemma Remove_Insert_witness :
  "b" <> "" /\
  contains (entries_of (mkData (Some (sample_items 3)))) "b" = false /\
  entries_of (Remove (Insert (mkData (Some (sample_items 3))) "b" sample_time) "b") =
    sample_items 3.
Proof.
  assert (H1 : "b" <> "") by discriminate.
  assert (H2 : contains (entries_of (mkData (Some (sample_items 3)))) "b" = false)
    by (vm_compute; reflexivity).
  split; [exact H1|]. split; [exact H2|].
  exact (Remove_Insert (mkData (Some (sample_items 3))) "b" sample_time H1 H2).
Defined.

End StoreMore.

(** * Strings of any bytes through the encoder and the decoder *)

(** An invalid byte is written as the escape of U+FFFD and read back as
    the three bytes of that rune. *)
Lemma unquote_replacement (f : nat) (body t rest : bytes) :
  unquote f body = Some (t, rest) ->
  unquote (S f) (backslash :: bytes_of "ufffd" ++ body) =
    Some (EncodeRune RuneError ++ t, rest).
Proof.
  intros H. cbn [bytes_of list_ascii_of_string app]. rewrite unquote_unfold.
  cbv zeta. codes. ztest.
  change (getu4 (backslash :: "u"%char :: _)) with 0xFFFD.
  ztest. cbv beta iota. cbn [skipn]. rewrite drop_0, H. reflexivity.
Qed.

Lemma DecodeRune_ascii (c : ascii) (t : bytes) :
  code c < 0x80 -> DecodeRune (c :: t) = (code c, 1%nat).
Proof.
  intros Hc. unfold DecodeRune.
  destruct (Z.ltb_spec (code c) 0x80); [reflexivity | lia].
Qed.

Lemma DecodeRune_size (c : ascii) (t : bytes) (r : Z) (n : nat) :
  DecodeRune (c :: t) = (r, n) -> (1 <= n <= List.length (c :: t))%nat.
Proof.
  intros HD. pose proof (code_range c).
  destruct (Z.ltb_spec (code c) 0x80) as [Hc|Hc].
  - rewrite DecodeRune_ascii in HD by assumption. injection HD as <- <-.
    cbn [List.length]. lia.
  - destruct ((r =? RuneError) && (n =? 1)%nat) eqn:Hne.
    + apply andb_true_iff in Hne as [_ Hn]. apply Nat.eqb_eq in Hn. subst n.
      cbn [List.length]. lia.
    + destruct (DecodeRune_multi c t r n Hc HD Hne)
        as [(p1 & q & -> & -> & _)
           |[(p1 & p2 & q & -> & -> & _)
            |(p1 & p2 & p3 & q & -> & -> & _)]]; cbn [List.length]; lia.
Qed.

(** The body of a string literal reads back as the coerced string. *)
Lemma unquote_appendString_go_any (fuel : nat) :
  forall (s : bytes) (f : nat) (rest : bytes),
  (List.length s <= fuel)%nat ->
  (List.length (appendString_go fuel s) < f)%nat ->
  unquote f (appendString_go fuel s ++ quote :: rest) =
    Some (coerce_go fuel s, rest).
Proof.
  induction fuel as [|fuel IH]; intros s f rest Hs Hf.
  - destruct s; [|cbn in Hs; lia]. destruct f; [cbn in Hf; lia|]. reflexivity.
  - destruct s as [|c s'].
    { destruct f; [cbn in Hf; lia|]. reflexivity. }
    pose proof (code_range c) as Hr. cbn [List.length] in Hs.
    cbn [appendString_go coerce_go] in *.
    rewrite DecodeRune_firstn in *.
    destruct (DecodeRune (c :: s')) as [r n] eqn:HD.
    pose proof (DecodeRune_size c s' r n HD) as Hn. cbn [List.length] in Hn.
    assert (Hskip : (List.length (skipn n (c :: s')) <= fuel)%nat)
      by (rewrite length_drop; cbn [List.length]; lia).
    destruct (Z.ltb_spec (code c) 0x80) as [Hc|Hc].
    + rewrite DecodeRune_ascii in HD by assumption. injection HD as <- <-.
      replace (code c =? RuneError) with false
        by (symmetry; apply Z.eqb_neq; unfold RuneError; lia).
      cbn [andb firstn skipn app]. rewrite take_0, drop_0.
      rewrite length_app in Hf. pose proof (appendEscape_length c).
      destruct f as [|f]; [lia|]. rewrite <- app_assoc.
      apply unquote_appendEscape; [lia|]. apply IH; lia.
    + destruct ((r =? RuneError) && (n =? 1)%nat) eqn:Hne.
      * cbn [List.length bytes_of list_ascii_of_string app] in Hf.
        destruct f as [|f]; [lia|].
        change ((backslash :: bytes_of "ufffd" ++ appendString_go fuel s') ++
                quote :: rest)
          with (backslash :: bytes_of "ufffd" ++
                (appendString_go fuel s' ++ quote :: rest)).
        apply unquote_replacement. apply IH; lia.
      * assert (Hfirst : (1 <= List.length (firstn n (c :: s')))%nat)
          by (rewrite length_take; cbn [List.length]; lia).
        destruct ((r =? 0x2028) || (r =? 0x2029)) eqn:Hsep.
        -- cbn [List.length bytes_of list_ascii_of_string app] in Hf.
           destruct f as [|f]; [lia|].
           assert (HIH : unquote f (appendString_go fuel (skipn n (c :: s')) ++
                                    quote :: rest) =
                         Some (coerce_go fuel (skipn n (c :: s')), rest))
             by (apply IH; lia).
           assert (Hsep' : r = 0x2028 \/ r = 0x2029)
             by (apply orb_true_iff in Hsep as [E|E]; apply Z.eqb_eq in E; auto).
           exact (unquote_rune_escape f c s' r n _ _ _ ltac:(lia) HD Hsep' HIH).
        -- rewrite length_app in Hf.
           destruct f as [|f]; [lia|]. rewrite <- app_assoc.
           assert (HIH : unquote f (appendString_go fuel (skipn n (c :: s')) ++
                                    quote :: rest) =
                         Some (coerce_go fuel (skipn n (c :: s')), rest))
             by (apply IH; lia).
           exact (unquote_rune_copy f c s' r n _ _ _ ltac:(lia) HD Hne HIH).
Qed.

Lemma unquote_appendString_any (s : string) (rest : bytes) :
  exists body, appendString s ++ rest = quote :: body /\
    unquote (List.length body) body = Some (bytes_of (coerce s), rest).
Proof.
  unfold appendString, coerce. rewrite bytes_of_string_of.
  exists ((appendString_go (String.length s) (bytes_of s) ++ [quote]) ++ rest).
  split; [reflexivity|].
  rewrite <- app_assoc. cbn [app].
  apply unquote_appendString_go_any.
  - rewrite length_bytes_of. lia.
  - rewrite length_app. cbn [List.length]. lia.
Qed.

Lemma parse_value_string_any (f : nat) (v : string) (rest : bytes) :
  parse_value (S f) (appendString v ++ rest) =
    Some (JString (bytes_of (coerce v)), rest).
Proof.
  destruct (unquote_appendString_any v rest) as (body & E & U).
  rewrite parse_value_unfold, E.
  change (skip_ws (quote :: body)) with (quote :: body).
  change (Ascii.eqb quote quote) with true. cbv iota. rewrite U. reflexivity.
Qed.

Lemma parse_value_item_any (f : nat) (it : ClipboardItem) (rest : bytes) :
  parse_value (S (S (S (S f)))) (encode_item it ++ rest) =
    Some (json_of_item (coerce_item it), rest).
Proof.
  unfold encode_item, json_of_item, coerce_item. cbn [Value Recorded].
  destruct (unquote_key "recorded" (appendString (Recorded it) ++ "}"%char :: rest)
              eq_refl eq_refl) as (t2 & E2 & U2).
  destruct (unquote_key "value"
              (appendString (Value it) ++ ","%char :: quote :: t2)
              eq_refl eq_refl) as (t1 & E1 & U1).
  replace (("{"%char :: encode_key "value" ++ appendString (Value it) ++
            ","%char :: encode_key "recorded" ++ appendString (Recorded it) ++
            ["}"%char]) ++ rest)
    with ("{"%char :: quote :: t1).
  2:{ rewrite <- E1, <- E2.
      repeat (progress (rewrite <- ?app_assoc; cbn [app])). reflexivity. }
  rewrite parse_value_unfold. chars.
  rewrite parse_members_unfold. chars. rewrite U1. chars.
  rewrite parse_value_string_any. chars.
  rewrite parse_members_unfold. chars. rewrite U2. chars.
  rewrite parse_value_string_any. chars. reflexivity.
Qed.

Lemma parse_elems_items_any (l : list ClipboardItem) :
  forall (f : nat) (rest : bytes),
  l <> [] -> (List.length l + 4 <= f)%nat ->
  parse_elems f (encode_items l ++ "]"%char :: rest) =
    Some (map json_of_item (map coerce_item l), rest).
Proof.
  induction l as [|it l IH]; intros f rest Hne Hf; [contradiction|].
  destruct f as [|[|[|[|[|f]]]]]; cbn [List.length] in Hf; try lia.
  rewrite parse_elems_unfold. destruct l as [|it2 l].
  - cbn [encode_items]. rewrite parse_value_item_any. chars. reflexivity.
  - change (encode_items (it :: it2 :: l))
      with (encode_item it ++ ","%char :: encode_items (it2 :: l)).
    rewrite <- app_assoc. cbn [app]. rewrite parse_value_item_any.
    chars. rewrite IH; [reflexivity | discriminate |].
    cbn [List.length] in *. lia.
Qed.

Lemma parse_value_Data_any (data : Data) (f : nat) (rest : bytes) :
  (List.length (elems (ClipboardHistory data)) + 7 <= f)%nat ->
  parse_value f (Marshal data ++ rest) = Some (json_of_Data (coerce_Data data), rest).
Proof.
  intros Hf. destruct f as [|[|[|f]]]; try lia. unfold Marshal.
  destruct (unquote_key "clipboardHistory"
              (encode_slice (ClipboardHistory data) ++ "}"%char :: rest)
              eq_refl eq_refl) as (t & E & U).
  replace (("{"%char :: encode_key "clipboardHistory" ++
            encode_slice (ClipboardHistory data) ++ ["}"%char]) ++ rest)
    with ("{"%char :: quote :: t).
  2:{ rewrite <- E. repeat (progress (rewrite <- ?app_assoc; cbn [app])).
      reflexivity. }
  rewrite parse_value_unfold. chars.
  rewrite parse_members_unfold. chars. rewrite U. chars.
  rewrite parse_value_unfold. unfold json_of_Data, coerce_Data.
  destruct (ClipboardHistory data) as [[|it l]|];
    cbn [encode_slice app ClipboardHistory json_of_slice map].
  - chars. reflexivity.
  - chars. rewrite <- app_assoc. cbn [app].
    destruct (encode_items_head it l ("]"%char :: "}"%char :: rest)) as (t' & E').
    rewrite E' at 1. chars.
    rewrite parse_elems_items_any; [chars; reflexivity | discriminate |].
    cbn [elems] in Hf. lia.
  - cbn [bytes_of list_ascii_of_string app]. chars. reflexivity.
Qed.

(** Anything that [Encode] or [Marshal] wrote is decoded without an
    error, to the coerced value, whatever the target held. *)
Lemma Decode_Encode_any (data cur : Data) :
  Decode (Encode data) cur = (coerce_Data data, None).
Proof.
  unfold Decode, Encode.
  destruct (Marshal_head data) as (t & E). rewrite E at 1.
  cbn [app]. rewrite skip_ws_cons by reflexivity.
  rewrite parse_value_Data_any.
  - rewrite decode_Data_json. reflexivity.
  - pose proof (Marshal_length data). rewrite length_app. lia.
Qed.

Lemma Decode_Marshal_any (data cur : Data) :
  Decode (Marshal data) cur = (coerce_Data data, None).
Proof.
  unfold Decode.
  destruct (Marshal_head data) as (t & E). rewrite E at 1.
  rewrite skip_ws_cons by reflexivity.
  rewrite <- (app_nil_r (Marshal data)) at 2.
  rewrite parse_value_Data_any.
  - rewrite decode_Data_json. reflexivity.
  - pose proof (Marshal_length data). lia.
Qed.

Lemma Unmarshal_Encode_any (data cur : Data) :
  Unmarshal (Encode data) cur = (coerce_Data data, None).
Proof.
  unfold Unmarshal, Encode. rewrite parse_value_Data_any.
  - change (skip_ws [chr 10]) with (@nil ascii). rewrite decode_Data_json.
    reflexivity.
  - pose proof (Marshal_length data). rewrite length_app. lia.
Qed.

Lemma Unmarshal_Marshal_any (data cur : Data) :
  Unmarshal (Marshal data) cur = (coerce_Data data, None).
Proof.
  unfold Unmarshal. rewrite <- (app_nil_r (Marshal data)) at 2.
  rewrite parse_value_Data_any.
  - cbn [skip_ws]. rewrite decode_Data_json. reflexivity.
  - pose proof (Marshal_length data). lia.
Qed.

(** * The coerced string *)

Lemma coerce_go_valid (fuel : nat) :
  forall s : bytes, Valid_go fuel s = true -> coerce_go fuel s = s.
Proof.
  induction fuel as [|fuel IH]; intros s Hv.
  - destruct s; [reflexivity | discriminate].
  - destruct s as [|c s']; [reflexivity|]. cbn [Valid_go coerce_go] in *.
    destruct (DecodeRune (c :: s')) as [r n].
    destruct ((r =? RuneError) && (n =? 1)%nat); [discriminate|].
    rewrite IH by exact Hv. apply firstn_skipn.
Qed.

Lemma Valid_go_mono (f : nat) :
  forall p : bytes, Valid_go f p = true -> Valid_go (S f) p = true.
Proof.
  induction f as [|f IH]; intros p Hv.
  - destruct p; [reflexivity | discriminate].
  - destruct p as [|c p']; [reflexivity|].
    change (Valid_go (S (S f)) (c :: p'))
      with (let '(r, size) := DecodeRune (c :: p') in
            if (r =? RuneError) && (size =? 1)%nat then false
            else Valid_go (S f) (skipn size (c :: p'))).
    cbn [Valid_go] in Hv. destruct (DecodeRune (c :: p')) as [r n].
    destruct ((r =? RuneError) && (n =? 1)%nat); [discriminate|].
    apply IH, Hv.
Qed.

Lemma Valid_go_le (f f' : nat) (p : bytes) :
  (f <= f')%nat -> Valid_go f p = true -> Valid_go f' p = true.
Proof.
  induction 1 as [|f' Hle IH]; [tauto|]. intros Hv. apply Valid_go_mono, IH, Hv.
Qed.

(** A well-formed sequence in front of a valid string. *)
Lemma Valid_go_app (f : nat) (pre rest : bytes) (r : Z) :
  pre <> [] ->
  DecodeRune (pre ++ rest) = (r, List.length pre) ->
  (r =? RuneError) && (List.length pre =? 1)%nat = false ->
  Valid_go f rest = true ->
  Valid_go (List.length pre + f) (pre ++ rest) = true.
Proof.
  intros Hpre HD Hne Hv. destruct pre as [|c pre]; [contradiction|].
  change (Valid_go (List.length (c :: pre) + f) ((c :: pre) ++ rest))
    with (let '(r, size) := DecodeRune ((c :: pre) ++ rest) in
          if (r =? RuneError) && (size =? 1)%nat then false
          else Valid_go (List.length pre + f) (skipn size ((c :: pre) ++ rest))).
  rewrite HD. cbv beta iota. rewrite Hne.
  rewrite drop_app_length. apply (Valid_go_le f); [lia | exact Hv].
Qed.

Lemma EncodeRune_RuneError :
  EncodeRune RuneError = ["239"%char; "191"%char; "189"%char].
Proof. reflexivity. Qed.

Lemma coerce_go_Valid (fuel : nat) :
  forall s : bytes,
  Valid_go (List.length (coerce_go fuel s)) (coerce_go fuel s) = true.
Proof.
  induction fuel as [|fuel IH]; intros s; [reflexivity|].
  destruct s as [|c s']; [reflexivity|]. cbn [coerce_go].
  destruct (DecodeRune (c :: s')) as [r n] eqn:HD.
  pose proof (code_range c) as Hr.
  destruct ((r =? RuneError) && (n =? 1)%nat) eqn:Hne.
  - rewrite EncodeRune_RuneError, length_app.
    apply (Valid_go_app _ _ _ (rune3 239 191 189)); [discriminate | | reflexivity | apply IH].
    apply (DecodeRune_three "239" "191" "189"); vm_compute; split; discriminate.
  - rewrite length_app.
    destruct (Z.ltb_spec (code c) 0x80) as [Hc|Hc].
    + rewrite DecodeRune_ascii in HD by assumption. injection HD as <- <-.
      cbn [firstn]. rewrite take_0.
      apply (Valid_go_app _ [c] _ (code c)); [discriminate | | exact Hne | apply IH].
      apply DecodeRune_ascii, Hc.
    + destruct (DecodeRune_multi c s' r n Hc HD Hne)
        as [(p1 & q & -> & -> & -> & R0 & R1)
           |[(p1 & p2 & q & -> & -> & -> & R0 & R1 & R2)
            |(p1 & p2 & p3 & q & -> & -> & -> & R0 & R1 & R2 & R3)]];
        cbn [firstn]; rewrite take_0.
      * apply (Valid_go_app _ [c; p1] _ (rune2 (code c) (code p1)));
          [discriminate | | exact Hne | apply IH].
        apply DecodeRune_two; assumption.
      * apply (Valid_go_app _ [c; p1; p2] _ (rune3 (code c) (code p1) (code p2)));
          [discriminate | | exact Hne | apply IH].
        apply DecodeRune_three; assumption.
      * apply (Valid_go_app _ [c; p1; p2; p3] _
                 (rune4 (code c) (code p1) (code p2) (code p3)));
          [discriminate | | exact Hne | apply IH].
        apply DecodeRune_four; assumption.
Qed.

Lemma coerce_Valid (s : string) : ValidString (coerce s) = true.
Proof.
  unfold ValidString, coerce. rewrite length_string_of, bytes_of_string_of.
  apply coerce_go_Valid.
Qed.

Lemma coerce_of_valid (s : string) : ValidString s = true -> coerce s = s.
Proof.
  intros Hv. unfold coerce. rewrite coerce_go_valid by exact Hv.
  apply string_of_bytes_of.
Qed.

Lemma coerce_Data_valid (data : Data) :
  Forall valid_item (elems (ClipboardHistory (coerce_Data data))).
Proof.
  unfold coerce_Data. destruct (ClipboardHistory data) as [l|]; [|constructor].
  cbn [ClipboardHistory elems]. apply Forall_forall. intros it Hit.
  apply list_elem_of_In, in_map_iff in Hit as (x & <- & _).
  split; apply coerce_Valid.
Qed.

Lemma coerce_Data_of_valid (data : Data) :
  Forall valid_item (elems (ClipboardHistory data)) -> coerce_Data data = data.
Proof.
  destruct data as [[l|]]; [|reflexivity]. unfold coerce_Data.
  cbn [ClipboardHistory elems]. intros Hv. do 2 f_equal. induction Hv as [|it l [H1 H2] Hl IH]; [reflexivity|].
  cbn [map]. rewrite IH. f_equal. unfold coerce_item.
  rewrite !coerce_of_valid by assumption. destruct it; reflexivity.
Qed.

(** * Saving, deleting and loading: any store *)

Lemma load_written (fs : FS) (fullPath : string) (content : bytes) (cur : Data) :
  loadDataFromFile (os_WriteFile fs fullPath content) fullPath cur =
    Decode content cur.
Proof.
  unfold loadDataFromFile, os_ReadFile, os_WriteFile. cbn [files].
  rewrite lookup_insert_eq. reflexivity.
Qed.

Lemma save_written (fs : FS) (fullPath : string) (data : Data) :
  read_only fs = false ->
  saveDataToFile fs fullPath data = (os_WriteFile fs fullPath (Encode data), None).
Proof. intros Hrw. unfold saveDataToFile. rewrite Hrw. reflexivity. Qed.

Lemma delete_written (fs : FS) (fullPath item : string) (content : bytes)
    (data : Data) :
  read_only fs = false ->
  Unmarshal content zero_Data = (data, None) ->
  deleteJsonItem (os_WriteFile fs fullPath content) fullPath item =
    (os_WriteFile (os_WriteFile fs fullPath content) fullPath
       (Marshal (Remove data item)), None).
Proof.
  intros Hrw HU. unfold deleteJsonItem, os_ReadFile.
  cbn [os_WriteFile files read_only]. rewrite lookup_insert_eq, HU, Hrw.
  reflexivity.
Qed.

(** X8: Whatever the store holds, on a file system that takes the write the
    save ends without an error and the load that follows ends without an
    error: it gives the store with every string coerced to valid UTF-8,
    and that store then goes through a save and a load unchanged. *)
Theorem Load_Save_any (fs : FS) (fullPath : string) (data cur : Data) :
  read_only fs = false ->
  snd (saveDataToFile fs fullPath data) = None /\
  loadDataFromFile (fst (saveDataToFile fs fullPath data)) fullPath cur =
    (coerce_Data data, None) /\
  Forall valid_item (elems (ClipboardHistory (coerce_Data data))) /\
  loadDataFromFile
    (fst (saveDataToFile (fst (saveDataToFile fs fullPath data)) fullPath
            (coerce_Data data))) fullPath cur = (coerce_Data data, None).
Proof.
  intros Hrw. rewrite save_written by exact Hrw. cbn [fst snd].
  rewrite save_written by exact Hrw. cbn [fst].
  rewrite !load_written, !Decode_Encode_any.
  rewrite (coerce_Data_of_valid (coerce_Data data)) by apply coerce_Data_valid.
  repeat split. apply coerce_Data_valid.
Qed.

Lemma Load_Save_any_witness :
  read_only (mkFS ∅ false) = false /\
  loadDataFromFile
    (fst (saveDataToFile (mkFS ∅ false) "history.json"
            (mkData (Some [mkItem (string_of [chr 255; "a"%char]) "t"]))))
    "history.json" zero_Data =
  (mkData (Some [mkItem (string_of [chr 239; chr 191; chr 189; "a"%char]) "t"]), None).
Proof.
  assert (H : read_only (mkFS ∅ false) = false) by reflexivity.
  split; [exact H|].
  exact (proj1 (proj2 (Load_Save_any (mkFS ∅ false) "history.json"
                         (mkData (Some [mkItem (string_of [chr 255; "a"%char]) "t"]))
                         zero_Data H))).
Defined.

Lemma Remove_valid (data : Data) (item : string) :
  Forall valid_item (elems (ClipboardHistory data)) ->
  Forall valid_item (elems (ClipboardHistory (Remove data item))).
Proof.
  intros Hv. unfold Remove. cbn [ClipboardHistory].
  rewrite Remove_loop_filter. cbn [elems app].
  apply Forall_forall. intros it Hit.
  apply list_elem_of_In, filter_In in Hit as [Hit _].
  rewrite Forall_forall in Hv. apply Hv, list_elem_of_In, Hit.
Qed.

(** X9: Save, delete, load: on the file that the sampler saved for a store
    of valid UTF-8 the deletion ends without an error, and the load
    that follows gives that store without the entries of the value. *)
Theorem Load_Delete_Save (fs : FS) (fullPath item : string) (data cur : Data) :
  read_only fs = false ->
  Forall valid_item (elems (ClipboardHistory data)) ->
  let saved := fst (saveDataToFile fs fullPath data) in
  snd (deleteJsonItem saved fullPath item) = None /\
  loadDataFromFile (fst (deleteJsonItem saved fullPath item)) fullPath cur =
    (Remove data item, None).
Proof.
  intros Hrw Hv saved. subst saved. rewrite save_written by exact Hrw.
  cbn [fst].
  rewrite (delete_written fs fullPath item (Encode data) data Hrw)
    by (rewrite Unmarshal_Encode_any, coerce_Data_of_valid by exact Hv; reflexivity).
  cbn [fst snd]. split; [reflexivity|].
  rewrite load_written, Decode_Marshal_any.
  rewrite coerce_Data_of_valid by (apply Remove_valid, Hv). reflexivity.
Qed.

Lemma Load_Delete_Save_witness :
  read_only (mkFS ∅ false) = false /\
  Forall valid_item (elems (ClipboardHistory (mkData (Some (sample_items 3))))) /\
  fst (loadDataFromFile
         (fst (deleteJsonItem
                 (fst (saveDataToFile (mkFS ∅ false) "history.json"
                         (mkData (Some (sample_items 3)))))
                 "history.json" (sample_value 1)))
         "history.json" zero_Data) =
  Remove (mkData (Some (sample_items 3))) (sample_value 1).
Proof.
  assert (H1 : read_only (mkFS ∅ false) = false) by reflexivity.
  assert (H2 : Forall valid_item
                 (elems (ClipboardHistory (mkData (Some (sample_items 3))))))
    by (repeat constructor; vm_compute; reflexivity).
  split; [exact H1|]. split; [exact H2|].
  rewrite (proj2 (Load_Delete_Save (mkFS ∅ false) "history.json" (sample_value 1)
                    (mkData (Some (sample_items 3))) zero_Data H1 H2)).
  reflexivity.
Defined.

Lemma contains_filtered (l : list ClipboardEntry) (item : string) :
  contains (List.filter (fun e => negb (String.eqb (Value e) item)) l) item = false.
Proof.
  induction l as [|e l IH]; [reflexivity|]. cbn [List.filter].
  destruct (String.eqb (Value e) item) eqn:E; cbn [negb]; [exact IH|].
  cbn [contains]. rewrite E. exact IH.
Qed.

(** X10: The save, the deletion and the reset write to no file but the one
    they are given.  On a file system that refuses to open a file for
    writing each of them returns an error and leaves every file as it
    was; and the deletion returns an error without writing when the
    file is not there or is not read as JSON for a store, which it
    finds out before it writes. *)
Theorem persistence_frame (fs : FS) (fullPath other item : string) (data : Data) :
  (other <> fullPath ->
   files (fst (saveDataToFile fs fullPath data)) !! other = files fs !! other /\
   files (fst (deleteJsonItem fs fullPath item)) !! other = files fs !! other /\
   files (fst (setBaseConfig fs fullPath)) !! other = files fs !! other) /\
  (read_only fs = true ->
   saveDataToFile fs fullPath data = (fs, Some ErrPermission) /\
   setBaseConfig fs fullPath = (fs, Some ErrPermission) /\
   fst (deleteJsonItem fs fullPath item) = fs /\
   snd (deleteJsonItem fs fullPath item) <> None) /\
  (os_ReadFile fs fullPath = None \/
   (exists content, os_ReadFile fs fullPath = Some content /\
                    snd (Unmarshal content zero_Data) <> None) ->
   fst (deleteJsonItem fs fullPath item) = fs /\
   snd (deleteJsonItem fs fullPath item) <> None).
Proof.
  unfold saveDataToFile, deleteJsonItem, setBaseConfig, os_ReadFile, os_WriteFile.
  split; [|split].
  - intros Hne. destruct (read_only fs); cbn [fst snd files];
      rewrite ?lookup_insert_ne by congruence;
      (split; [reflexivity|]); (split; [|reflexivity]);
      destruct (files fs !! fullPath) as [content|]; try reflexivity;
      destruct (Unmarshal content zero_Data) as [d [e|]]; try reflexivity.
    cbn [fst files]. apply lookup_insert_ne. congruence.
  - intros ->. split; [reflexivity|]. split; [reflexivity|].
    destruct (files fs !! fullPath) as [content|]; [|split; [reflexivity|discriminate]].
    destruct (Unmarshal content zero_Data) as [d [e|]];
      (split; [reflexivity|discriminate]).
  - intros [-> | (content & -> & Herr)]; [split; [reflexivity|discriminate]|].
    destruct (Unmarshal content zero_Data) as [d [e|]];
      [split; [reflexivity|discriminate]|].
    exfalso. apply Herr. reflexivity.
Qed.

Lemma persistence_frame_witness :
  "other.json" <> "history.json" /\
  files (fst (deleteJsonItem (fs_of (world (sample_session false)))
                "history.json" (sample_value 1))) !! "other.json" =
  files (fs_of (world (sample_session false))) !! "other.json" /\
  read_only (mkFS {[ "history.json" := Marshal zero_Data ]} true) = true /\
  fst (deleteJsonItem (mkFS {[ "history.json" := Marshal zero_Data ]} true)
         "history.json" "a") =
    mkFS {[ "history.json" := Marshal zero_Data ]} true /\
  os_ReadFile (mkFS ∅ false) "history.json" = None /\
  fst (deleteJsonItem (mkFS ∅ false) "history.json" "a") = mkFS ∅ false.
Proof.
  assert (H1 : "other.json" <> "history.json") by discriminate.
  assert (H2 : read_only (mkFS {[ "history.json" := Marshal zero_Data ]} true) = true)
    by reflexivity.
  assert (H3 : os_ReadFile (mkFS ∅ false) "history.json" = None) by reflexivity.
  split; [exact H1|]. split.
  { exact (proj1 (proj2 (proj1 (persistence_frame (fs_of (world (sample_session false)))
                                  "history.json" "other.json" (sample_value 1)
                                  zero_Data) H1))). }
  split; [exact H2|]. split.
  { exact (proj1 (proj2 (proj2 (proj1 (proj2
             (persistence_frame (mkFS {[ "history.json" := Marshal zero_Data ]} true)
                "history.json" "other.json" "a" zero_Data)) H2)))). }
  split; [exact H3|].
  exact (proj1 (proj2 (proj2 (persistence_frame (mkFS ∅ false) "history.json"
                                "other.json" "a" zero_Data))
                  (or_introl H3))).
Defined.

(** X11: After [setBaseConfig], as the command [clear] and the first start
    run it, on a file system that takes the write: whatever the file
    held, the load gives the empty store without an error, the browser
    starts on an empty list, and the first value that the sampler then
    observes makes a store of that one entry. *)
Theorem setBaseConfig_empty (fs : FS) (fullPath : string) (cur : Data)
    (text : string) (now : Time) :
  read_only fs = false ->
  snd (setBaseConfig fs fullPath) = None /\
  loadDataFromFile (fst (setBaseConfig fs fullPath)) fullPath cur =
    (baseConfig, None) /\
  getjsonData (fst (setBaseConfig fs fullPath)) fullPath = inl (Some []) /\
  fst (createHistoryFile fs fullPath) = fst (setBaseConfig fs fullPath) /\
  (text <> "" ->
   elems (ClipboardHistory
            (snd (runListener fullPath (fst (setBaseConfig fs fullPath))
                    [(text, now)]))) = [mkItem text (timeNow now)]).
Proof.
  intros Hrw. unfold createHistoryFile, setBaseConfig, os_WriteFile.
  cbn [read_only]. rewrite Hrw. cbn [fst snd files].
  assert (Hload : forall c, loadDataFromFile
            (mkFS (<[fullPath:=EncodeIndent baseConfig "" "    "]> (files fs)) false)
            fullPath c = (baseConfig, None)).
  { intros c. unfold loadDataFromFile, os_ReadFile. cbn [files].
    rewrite lookup_insert_eq. destruct c as [[l|]]; vm_compute; reflexivity. }
  split; [reflexivity|]. split; [apply Hload|]. split; [|split].
  - unfold getjsonData, os_ReadFile. cbn [files]. rewrite lookup_insert_eq.
    vm_compute. reflexivity.
  - rewrite insert_insert_eq. reflexivity.
  - intros Hne. unfold runListener. rewrite Hload. cbn [fst fold_left].
    unfold runListener_turn. cbn [fst snd].
    destruct (String.eqb_spec text "") as [E|_]; [contradiction|].
    cbn [negb andb contains baseConfig ClipboardHistory elems snd].
    apply (Insert_new (mkData (Some [])) text now Hne eq_refl).
Qed.

Lemma setBaseConfig_empty_witness :
  read_only (fs_of (world (sample_session false))) = false /\
  loadDataFromFile (fst (setBaseConfig (fs_of (world (sample_session false)))
                           "history.json")) "history.json" zero_Data =
    (baseConfig, None).
Proof.
  assert (H : read_only (fs_of (world (sample_session false))) = false)
    by reflexivity.
  split; [exact H|].
  exact (proj1 (proj2 (setBaseConfig_empty (fs_of (world (sample_session false)))
                         "history.json" zero_Data "a" sample_time H))).
Defined.

(** * What the decoder gives is valid UTF-8 *)

(** The bytes that [EncodeRune] writes, as numbers. *)
Lemma encode_lead (t r k sh : Z) :
  0 <= sh -> 0 <= k -> 0 <= r -> r / 2 ^ sh < 2 ^ k -> 2 ^ k <= 256 ->
  t mod 2 ^ k = 0 ->
  Z.lor t (byte (Z.shiftr r sh)) = t + r / 2 ^ sh.
Proof.
  intros Hsh Hk Hr Hlt H256 Ht. unfold byte. change 0xFF with (Z.ones 8).
  rewrite Z.land_ones, Z.shiftr_div_pow2 by lia.
  assert (0 <= r / 2 ^ sh) by (apply Z.div_pos; lia).
  rewrite Z.mod_small by (change (2 ^ 8) with 256; lia).
  apply (lor_add _ _ k); lia.
Qed.

Lemma encode_cont (r sh : Z) :
  0 <= sh -> 0 <= r ->
  Z.lor 0x80 (Z.land (byte (Z.shiftr r sh)) 0x3F) = 128 + (r / 2 ^ sh) mod 64.
Proof.
  intros Hsh Hr. unfold byte. change 0xFF with (Z.ones 8).
  change 0x3F with (Z.ones 6).
  rewrite !Z.land_ones, Z.shiftr_div_pow2 by lia.
  change (2 ^ 8) with 256. change (2 ^ 6) with 64.
  assert (0 <= r / 2 ^ sh) by (apply Z.div_pos; lia).
  replace ((r / 2 ^ sh) mod 256 mod 64) with ((r / 2 ^ sh) mod 64)
    by (generalize (r / 2 ^ sh); intros x; divmod).
  apply (lor_add _ _ 6); [lia | change (2 ^ 6) with 64; divmod | reflexivity].
Qed.

Lemma encode_cont0 (r : Z) :
  0 <= r -> Z.lor 0x80 (Z.land (byte r) 0x3F) = 128 + r mod 64.
Proof.
  intros Hr. pose proof (encode_cont r 0 ltac:(lia) Hr) as H.
  rewrite Z.shiftr_0_r in H. rewrite H. rewrite Z.pow_0_r, Z.div_1_r. reflexivity.
Qed.

(** What [EncodeRune] writes is a sequence that [DecodeRune] accepts in
    front of anything. *)
Lemma EncodeRune_wellformed (r : Z) :
  0 <= r ->
  exists r', EncodeRune r <> [] /\
    (forall rest, DecodeRune (EncodeRune r ++ rest) =
                  (r', List.length (EncodeRune r))) /\
    (r' =? RuneError) && (List.length (EncodeRune r) =? 1)%nat = false.
Proof.
  intros Hr.
  assert (Hthree : forall x, 0x800 <= x <= 0xFFFF -> ~ (0xD800 <= x <= 0xDFFF) ->
    let enc := [chr (Z.lor 0xE0 (byte (Z.shiftr x 12)));
                chr (Z.lor 0x80 (Z.land (byte (Z.shiftr x 6)) 0x3F));
                chr (Z.lor 0x80 (Z.land (byte x) 0x3F))] in
    exists r', enc <> [] /\
      (forall rest, DecodeRune (enc ++ rest) = (r', List.length enc)) /\
      (r' =? RuneError) && (List.length enc =? 1)%nat = false).
  { intros x Hx Hs enc. subst enc.
    rewrite (encode_lead 0xE0 x 5 12), encode_cont, encode_cont0 by (try lia; try reflexivity; change (2 ^ 12) with 4096; change (2 ^ 5) with 32; divmod).
    change (2 ^ 12) with 4096. change (2 ^ 6) with 64.
    eexists. split; [discriminate|]. split.
    - intros rest. cbn [app List.length]. apply DecodeRune_three;
        rewrite ?code_chr by divmod; unfold accept_lo, accept_hi;
        repeat match goal with
        | |- context [?a =? ?b] => destruct (Z.eqb_spec a b)
        end; divmod.
    - cbn [List.length Nat.eqb]. apply andb_false_r. }
  unfold EncodeRune. unfold MaxRune.
  destruct (Z.leb_spec r 0x7F) as [H1|H1].
  - unfold byte. change 0xFF with (Z.ones 8). rewrite Z.land_ones by lia.
    rewrite Z.mod_small by (change (2 ^ 8) with 256; lia).
    exists r. split; [discriminate|]. split.
    + intros rest. cbn [app List.length].
      rewrite DecodeRune_ascii; rewrite code_chr by lia; [reflexivity | lia].
    + replace (r =? RuneError) with false; [reflexivity|].
      symmetry. apply Z.eqb_neq. unfold RuneError. lia.
  - destruct (Z.leb_spec r 0x7FF) as [H2|H2].
    + rewrite (encode_lead 0xC0 r 5 6), encode_cont0
        by (try lia; try reflexivity; change (2 ^ 6) with 64; change (2 ^ 5) with 32; divmod).
      change (2 ^ 6) with 64.
      eexists. split; [discriminate|]. split.
      * intros rest. cbn [app List.length].
        apply DecodeRune_two; rewrite code_chr by divmod; divmod.
      * cbn [List.length Nat.eqb]. apply andb_false_r.
    + destruct (Z.ltb_spec 0x10FFFF r) as [H3|H3]; cbn [orb].
      * apply Hthree; unfold RuneError; lia.
      * destruct (Z.leb_spec r 0xFFFF) as [H6|H6].
        -- destruct (Z.leb_spec 0xD800 r) as [H4|H4],
             (Z.leb_spec r 0xDFFF) as [H5|H5]; cbn [andb];
             apply Hthree; unfold RuneError; lia.
        -- destruct (Z.leb_spec 0xD800 r) as [H4|H4]; [|lia].
           destruct (Z.leb_spec r 0xDFFF) as [H5|H5]; [lia|]. cbn [andb].
           rewrite (encode_lead 0xF0 r 4 18), !encode_cont, encode_cont0
             by (try lia; try reflexivity; change (2 ^ 18) with 262144;
                 change (2 ^ 4) with 16; divmod).
           change (2 ^ 18) with 262144. change (2 ^ 12) with 4096.
           change (2 ^ 6) with 64.
           eexists. split; [discriminate|]. split.
           ++ intros rest. cbn [app List.length]. apply DecodeRune_four;
                rewrite ?code_chr by divmod; unfold accept_lo, accept_hi;
                repeat match goal with
                | |- context [?a =? ?b] => destruct (Z.eqb_spec a b)
                end; divmod.
           ++ cbn [List.length Nat.eqb]. apply andb_false_r.
Qed.

Lemma valid_bytes_string (t : bytes) :
  valid_bytes t -> ValidString (string_of t) = true.
Proof.
  intros H. unfold ValidString. rewrite length_string_of, bytes_of_string_of.
  exact H.
Qed.

Lemma valid_bytes_ascii (c : ascii) (t : bytes) :
  code c < 0x80 -> valid_bytes t -> valid_bytes (c :: t).
Proof.
  intros Hc Ht. unfold valid_bytes.
  apply (Valid_go_app (List.length t) [c] t (code c)).
  - discriminate.
  - apply DecodeRune_ascii, Hc.
  - replace (code c =? RuneError) with false; [reflexivity|].
    symmetry. apply Z.eqb_neq. unfold RuneError. lia.
  - exact Ht.
Qed.

Lemma valid_bytes_rune (r : Z) (t : bytes) :
  0 <= r -> valid_bytes t -> valid_bytes (EncodeRune r ++ t).
Proof.
  intros Hr Ht. unfold valid_bytes. rewrite length_app.
  destruct (EncodeRune_wellformed r Hr) as (r' & Hne & HD & Herr).
  apply (Valid_go_app _ _ _ r'); [exact Hne | apply HD | exact Herr | exact Ht].
Qed.

Lemma lor_nonneg_2 (a b : Z) : 0 <= a -> 0 <= b -> 0 <= Z.lor a b.
Proof. intros Ha Hb. apply Z.lor_nonneg. split; assumption. Qed.

Lemma land_nonneg_2 (a b : Z) : 0 <= b -> 0 <= Z.land a b.
Proof. intros Hb. apply Z.land_nonneg. right. exact Hb. Qed.

Lemma DecodeRune_nonneg (p : bytes) (r : Z) (n : nat) :
  DecodeRune p = (r, n) -> 0 <= r.
Proof.
  destruct p as [|c t]; [intros [= <- _]; unfold RuneError; lia|].
  intros HD. pose proof (code_range c).
  destruct (Z.ltb_spec (code c) 0x80) as [Hc|Hc].
  - rewrite DecodeRune_ascii in HD by assumption. injection HD as <- _. lia.
  - destruct ((r =? RuneError) && (n =? 1)%nat) eqn:Hne.
    + apply andb_true_iff in Hne as [E _]. apply Z.eqb_eq in E.
      rewrite E. unfold RuneError. lia.
    + destruct (DecodeRune_multi c t r n Hc HD Hne)
        as [(p1 & q & -> & -> & -> & R0 & R1)
           |[(p1 & p2 & q & -> & -> & -> & R0 & R1 & R2)
            |(p1 & p2 & p3 & q & -> & -> & -> & R0 & R1 & R2 & R3)]].
      * rewrite rune2_value by assumption. lia.
      * unfold rune3. repeat apply lor_nonneg_2;
          try apply Z.shiftl_nonneg; apply land_nonneg_2; lia.
      * unfold rune4. repeat apply lor_nonneg_2;
          try apply Z.shiftl_nonneg; apply land_nonneg_2; lia.
Qed.

Lemma utf16_DecodeRune_nonneg (r1 r2 : Z) : 0 <= utf16_DecodeRune r1 r2.
Proof.
  unfold utf16_DecodeRune.
  destruct (Z.leb_spec 0xD800 r1), (Z.ltb_spec r1 0xDC00),
    (Z.leb_spec 0xDC00 r2), (Z.ltb_spec r2 0xE000); cbn [andb];
    try (unfold RuneError; lia).
  assert (0 <= Z.lor (Z.shiftl (r1 - 0xD800) 10) (r2 - 0xDC00)); [|lia].
  apply lor_nonneg_2; [apply Z.shiftl_nonneg|]; lia.
Qed.

Ltac bools :=
  repeat match goal with
  | H : (_ || _) = true |- _ => apply orb_true_iff in H; destruct H
  | H : (_ =? _) = true |- _ => apply Z.eqb_eq in H
  | H : (_ <? _) = true |- _ => apply Z.ltb_lt in H
  | H : (_ <? _) = false |- _ => apply Z.ltb_ge in H
  end.

(** The end of a branch of [unquote]: the rest was read by the call
    at the smaller fuel, and [tac] shows that what was put in front of it
    keeps the string valid. *)
Ltac unquote_branch H IH tac :=
  match type of H with
  | context [unquote ?f ?x] =>
    let U := fresh "U" in
    destruct (unquote f x) as [[? ?]|] eqn:U; [|discriminate H];
    injection H as <- <-; apply IH in U; tac; exact U
  end.

(** Whatever a string literal holds, the string read from it is valid
    UTF-8. *)
Lemma unquote_valid (f : nat) :
  forall (s t rest : bytes), unquote f s = Some (t, rest) -> valid_bytes t.
Proof.
  induction f as [|f IH]; intros s t rest H; [discriminate|].
  destruct s as [|c s']; [discriminate|].
  rewrite unquote_unfold in H. cbv zeta in H.
  destruct (code c =? 34); [injection H as <- <-; reflexivity|].
  destruct (code c =? 92).
  - destruct s' as [|e s'']; [discriminate|].
    destruct ((code e =? 34) || (code e =? 92) || (code e =? 47)) eqn:E1.
    { unquote_branch H IH ltac:(apply valid_bytes_ascii; [bools; lia|]). }
    destruct (code e =? 98).
    { unquote_branch H IH ltac:(apply valid_bytes_ascii; [rewrite code_chr; lia|]). }
    destruct (code e =? 102).
    { unquote_branch H IH ltac:(apply valid_bytes_ascii; [rewrite code_chr; lia|]). }
    destruct (code e =? 110).
    { unquote_branch H IH ltac:(apply valid_bytes_ascii; [rewrite code_chr; lia|]). }
    destruct (code e =? 114).
    { unquote_branch H IH ltac:(apply valid_bytes_ascii; [rewrite code_chr; lia|]). }
    destruct (code e =? 116).
    { unquote_branch H IH ltac:(apply valid_bytes_ascii; [rewrite code_chr; lia|]). }
    destruct (code e =? 117); [|discriminate].
    destruct (getu4 (c :: e :: s'') <? 0) eqn:Hrr; [discriminate|].
    apply Z.ltb_ge in Hrr.
    destruct ((0xD800 <=? getu4 (c :: e :: s'')) &&
              (getu4 (c :: e :: s'') <? 0xE000)).
    + destruct (negb (utf16_DecodeRune (getu4 (c :: e :: s''))
                        (getu4 (skipn 6 (c :: e :: s''))) =? RuneError));
        cbn [andb] in H; cbv beta iota in H.
      * unquote_branch H IH
          ltac:(apply valid_bytes_rune; [apply utf16_DecodeRune_nonneg|]).
      * unquote_branch H IH
          ltac:(apply (valid_bytes_rune RuneError); [unfold RuneError; lia|]).
    + cbn [andb] in H. cbv beta iota in H.
      unquote_branch H IH ltac:(apply valid_bytes_rune; [exact Hrr|]).
  - destruct (code c <? 0x20); [discriminate|].
    destruct (code c <? 0x80) eqn:Hc.
    + unquote_branch H IH ltac:(apply valid_bytes_ascii; [bools; lia|]).
    + destruct (DecodeRune (c :: s')) as [rr size] eqn:HD.
      apply DecodeRune_nonneg in HD.
      unquote_branch H IH ltac:(apply valid_bytes_rune; [exact HD|]).
Qed.

Lemma json_valid_array (l : list json) :
  json_valid (JArray l) <-> Forall json_valid l.
Proof.
  induction l as [|x l IH]; [split; constructor|].
  change (json_valid (JArray (x :: l))) with (json_valid x /\ json_valid (JArray l)).
  rewrite IH, Forall_cons. reflexivity.
Qed.

Lemma json_valid_object (ms : list (bytes * json)) :
  json_valid (JObject ms) <-> Forall (fun kv => json_valid (snd kv)) ms.
Proof.
  induction ms as [|[k v] ms IH]; [split; constructor|].
  change (json_valid (JObject ((k, v) :: ms)))
    with (json_valid v /\ json_valid (JObject ms)).
  rewrite IH, Forall_cons. reflexivity.
Qed.

(** Every string value of a value that was read is valid UTF-8. *)
Lemma parse_valid (f : nat) :
  (forall s j r, parse_value f s = Some (j, r) -> json_valid j) /\
  (forall s l r, parse_elems f s = Some (l, r) -> Forall json_valid l) /\
  (forall s ms r, parse_members f s = Some (ms, r) ->
                  Forall (fun kv => json_valid (snd kv)) ms).
Proof.
  induction f as [|f (IHv & IHe & IHm)]; [repeat split; discriminate|].
  split; [|split].
  - intros s j r H. rewrite parse_value_unfold in H.
    destruct (skip_ws s) as [|c t]; [discriminate|].
    destruct (Ascii.eqb c quote).
    { destruct (unquote (List.length t) t) as [[str r0]|] eqn:U; [|discriminate].
      injection H as <- <-. apply unquote_valid in U. exact U. }
    destruct (Ascii.eqb c "[").
    { destruct (skip_ws t) as [|d r0]; [discriminate|].
      destruct (Ascii.eqb d "]"); [injection H as <- <-; exact I|].
      destruct (parse_elems f t) as [[l r1]|] eqn:E; [|discriminate].
      injection H as <- <-. apply json_valid_array, (IHe _ _ _ E). }
    destruct (Ascii.eqb c "{").
    { destruct (skip_ws t) as [|d r0]; [discriminate|].
      destruct (Ascii.eqb d "}"); [injection H as <- <-; exact I|].
      destruct (parse_members f t) as [[l r1]|] eqn:E; [|discriminate].
      injection H as <- <-. apply json_valid_object, (IHm _ _ _ E). }
    destruct (HasPrefix (c :: t) (bytes_of "null")); [injection H as <- <-; exact I|].
    destruct (HasPrefix (c :: t) (bytes_of "true")); [injection H as <- <-; exact I|].
    destruct (HasPrefix (c :: t) (bytes_of "false")); [injection H as <- <-; exact I|].
    destruct (scan_number (c :: t)) as [[lit r0]|]; [|discriminate].
    injection H as <- <-. exact I.
  - intros s l r H. rewrite parse_elems_unfold in H.
    destruct (parse_value f s) as [[v r0]|] eqn:V; [|discriminate].
    apply IHv in V.
    destruct (skip_ws r0) as [|d r1]; [discriminate|].
    destruct (Ascii.eqb d ",").
    { destruct (parse_elems f r1) as [[l' r2]|] eqn:E; [|discriminate].
      injection H as <- <-. apply Forall_cons. split; [exact V | apply (IHe _ _ _ E)]. }
    destruct (Ascii.eqb d "]"); [|discriminate].
    injection H as <- <-. apply Forall_cons. split; [exact V | constructor].
  - intros s ms r H. rewrite parse_members_unfold in H.
    destruct (skip_ws s) as [|q t]; [discriminate|].
    destruct (Ascii.eqb q quote); [|discriminate].
    destruct (unquote (List.length t) t) as [[k r0]|]; [|discriminate].
    destruct (skip_ws r0) as [|d r1]; [discriminate|].
    destruct (Ascii.eqb d ":"); [|discriminate].
    destruct (parse_value f r1) as [[v r2]|] eqn:V; [|discriminate].
    apply IHv in V.
    destruct (skip_ws r2) as [|e r3]; [discriminate|].
    destruct (Ascii.eqb e ",").
    { destruct (parse_members f r3) as [[l' r4]|] eqn:E; [|discriminate].
      injection H as <- <-. apply Forall_cons. split; [exact V | apply (IHm _ _ _ E)]. }
    destruct (Ascii.eqb e "}"); [|discriminate].
    injection H as <- <-. apply Forall_cons. split; [exact V | constructor].
Qed.

Lemma decode_string_valid (cur : string) (j : json) :
  json_valid j -> ValidString cur = true ->
  ValidString (fst (decode_string cur j)) = true.
Proof.
  intros Hj Hc. destruct j; cbn [decode_string fst]; try exact Hc.
  apply valid_bytes_string, Hj.
Qed.

Lemma decode_item_valid (cur : ClipboardItem) (j : json) :
  json_valid j -> valid_item cur -> valid_item (fst (decode_item cur j)).
Proof.
  intros Hj Hc. destruct j as [| | | | |ms]; cbn [decode_item fst]; try exact Hc.
  apply json_valid_object in Hj.
  match goal with
  | |- valid_item (fst (fold_left ?F ms ?a)) =>
    set (step := F);
    assert (Hfold : forall acc, valid_item (fst acc) ->
                                valid_item (fst (fold_left step ms acc)));
      [|apply Hfold; exact Hc]
  end.
  clear cur Hc. induction Hj as [|kv ms Hkv Hms IH]; intros [cur ok] Hc; [exact Hc|].
  cbn [fold_left]. apply IH. unfold step. cbn [fst] in Hc. destruct Hc as [Hv Hr].
  destruct (field_is (fst kv) "value").
  - pose proof (decode_string_valid (Value cur) (snd kv) Hkv Hv) as Hd.
    destruct (decode_string (Value cur) (snd kv)) as [x ok'].
    split; [exact Hd | exact Hr].
  - destruct (field_is (fst kv) "recorded").
    + pose proof (decode_string_valid (Recorded cur) (snd kv) Hkv Hr) as Hd.
      destruct (decode_string (Recorded cur) (snd kv)) as [x ok'].
      split; [exact Hv | exact Hd].
    + split; assumption.
Qed.

Lemma decode_elems_valid (js : list json) :
  forall cur : list ClipboardItem,
  Forall json_valid js -> Forall valid_item cur ->
  Forall valid_item (fst (decode_elems cur js)).
Proof.
  induction js as [|j js IH]; intros cur Hjs Hcur; [constructor|].
  apply Forall_cons in Hjs as [Hj Hjs]. cbn [decode_elems].
  assert (Hhd : valid_item (hd (mkItem "" "") cur))
    by (destruct Hcur; [split; reflexivity | assumption]).
  assert (Htl : Forall valid_item (tl cur))
    by (destruct Hcur; [constructor | assumption]).
  pose proof (decode_item_valid _ j Hj Hhd) as Hx.
  pose proof (IH (tl cur) Hjs Htl) as Hxs.
  destruct (decode_item (hd (mkItem "" "") cur) j) as [x ok].
  destruct (decode_elems (tl cur) js) as [xs ok'].
  cbn [fst] in *. apply Forall_cons. split; assumption.
Qed.

Lemma decode_Data_valid (cur : Data) (j : json) :
  json_valid j -> Forall valid_item (elems (ClipboardHistory cur)) ->
  Forall valid_item (elems (ClipboardHistory (fst (decode_Data cur j)))).
Proof.
  intros Hj Hc. destruct j as [| | | | |ms]; cbn [decode_Data fst]; try exact Hc.
  apply json_valid_object in Hj.
  match goal with
  | |- Forall _ (elems (ClipboardHistory (fst (fold_left ?F ms ?a)))) =>
    set (step := F);
    assert (Hfold : forall acc,
              Forall valid_item (elems (ClipboardHistory (fst acc))) ->
              Forall valid_item
                (elems (ClipboardHistory (fst (fold_left step ms acc)))));
      [|apply Hfold; exact Hc]
  end.
  clear cur Hc. induction Hj as [|kv ms Hkv Hms IH]; intros [cur ok] Hc; [exact Hc|].
  cbn [fold_left]. apply IH. unfold step. cbn [fst] in Hc.
  destruct (field_is (fst kv) "clipboardHistory"); [|exact Hc].
  destruct (snd kv) as [| | | |js|] eqn:Ekv; cbn [decode_slice fst ClipboardHistory elems];
    try exact Hc; try constructor.
  apply json_valid_array in Hkv.
  pose proof (decode_elems_valid js _ Hkv Hc) as Hd.
  destruct (decode_elems (elems (ClipboardHistory cur)) js) as [l ok'].
  exact Hd.
Qed.

(** Whatever the file holds, and whether the load ends with an error or
    not, the strings that it leaves in a target of valid UTF-8 are valid
    UTF-8. *)
Lemma loadDataFromFile_valid (fs : FS) (fullPath : string) (cur : Data) :
  Forall valid_item (elems (ClipboardHistory cur)) ->
  Forall valid_item (elems (ClipboardHistory (fst (loadDataFromFile fs fullPath cur)))).
Proof.
  intros Hc. unfold loadDataFromFile.
  destruct (os_ReadFile fs fullPath) as [content|]; [|exact Hc].
  unfold Decode. destruct (skip_ws content); [exact Hc|].
  destruct (parse_value _ content) as [[j r]|] eqn:P; [|exact Hc].
  apply (proj1 (parse_valid _)) in P.
  pose proof (decode_Data_valid cur j P Hc) as Hd.
  destruct (decode_Data cur j) as [d ok]. exact Hd.
Qed.

(** * What was loaded is saved without loss *)

(** X12: Whatever a file holds, and whether its load ends with an error or
    not, the store that the load leaves in the zero value holds valid
    UTF-8 only; saved to a file system that takes the write and loaded
    again, it comes back as it was. *)
Theorem Save_Load_loaded (fs fs2 : FS) (fullPath fullPath2 : string) (cur : Data) :
  read_only fs2 = false ->
  let data := fst (loadDataFromFile fs fullPath zero_Data) in
  Forall valid_item (elems (ClipboardHistory data)) /\
  loadDataFromFile (fst (saveDataToFile fs2 fullPath2 data)) fullPath2 cur =
    (data, None).
Proof.
  intros Hrw data.
  assert (Hv : Forall valid_item (elems (ClipboardHistory data)))
    by (apply loadDataFromFile_valid; constructor).
  split; [exact Hv|].
  rewrite save_written by exact Hrw. cbn [fst].
  rewrite load_written. apply Decode_Encode, Hv.
Qed.

Lemma Save_Load_loaded_witness :
  read_only (mkFS ∅ false) = false /\
  loadDataFromFile
    (fst (saveDataToFile (mkFS ∅ false) "copy.json"
            (fst (loadDataFromFile (fs_of (world (sample_session false)))
                    "history.json" zero_Data))))
    "copy.json" zero_Data =
  (fst (loadDataFromFile (fs_of (world (sample_session false)))
          "history.json" zero_Data), None).
Proof.
  assert (H : read_only (mkFS ∅ false) = false) by reflexivity.
  split; [exact H|].
  exact (proj2 (Save_Load_loaded (fs_of (world (sample_session false)))
                  (mkFS ∅ false) "history.json" "copy.json" zero_Data H)).
Defined.

(** * The sampler and its file *)

Section Sampler.

Variable fullPath : string.

Lemma runListener_turn_new (fs : FS) (data : Data) (text : string) (now : Time) :
  text <> "" -> contains (elems (ClipboardHistory data)) text = false ->
  runListener_turn fullPath (fs, data) (text, now) =
    (fst (saveDataToFile fs fullPath (Insert data text now)), Insert data text now).
Proof.
  intros Hne Hc. unfold runListener_turn. cbn [fst snd]. rewrite Hc.
  destruct (String.eqb_spec text ""); [contradiction | reflexivity].
Qed.

Lemma runListener_turn_old (fs : FS) (data : Data) (text : string) (now : Time) :
  text = "" \/ contains (elems (ClipboardHistory data)) text = true ->
  runListener_turn fullPath (fs, data) (text, now) = (fs, data).
Proof.
  intros H. unfold runListener_turn. cbn [fst snd].
  destruct H as [-> | ->]; [reflexivity | rewrite andb_false_r; reflexivity].
Qed.

Lemma runListener_snoc (fs : FS) (obs : list (string * Time)) (o : string * Time) :
  runListener fullPath fs (obs ++ [o]) =
  runListener_turn fullPath (runListener fullPath fs obs) o.
Proof. unfold runListener. rewrite fold_left_app. reflexivity. Qed.

Lemma runListener_inv (fs : FS) (obs : list (string * Time)) :
  read_only fs = false ->
  Forall (fun o => ValidString (fst o) = true) obs ->
  read_only (fst (runListener fullPath fs obs)) = false /\
  Forall valid_item (elems (ClipboardHistory (snd (runListener fullPath fs obs)))) /\
  (runListener fullPath fs obs = (fs, fst (loadDataFromFile fs fullPath zero_Data)) \/
   files (fst (runListener fullPath fs obs)) !! fullPath =
     Some (Encode (snd (runListener fullPath fs obs)))).
Proof.
  intros Hrw Hobs. induction obs as [|o obs IH] using rev_ind.
  - cbn. split; [exact Hrw|]. split; [|left; reflexivity].
    apply loadDataFromFile_valid. constructor.
  - apply Forall_app in Hobs as [Hobs Ho]. apply Forall_cons in Ho as [Ho _].
    destruct (IH Hobs) as (Hrw' & Hv & Hsync). rewrite runListener_snoc.
    destruct (runListener fullPath fs obs) as [fs' data'] eqn:E.
    cbn [fst snd] in *. destruct o as [text now]. cbn [fst] in Ho.
    destruct (Insert_cases data' text now) as [[Hne Hc]|Hold].
    + rewrite runListener_turn_new by assumption.
      rewrite save_written by exact Hrw'. cbn [fst snd].
      split; [exact Hrw'|].
      split; [apply Insert_valid; assumption|]. right.
      cbn [os_WriteFile files]. apply lookup_insert_eq.
    + rewrite runListener_turn_old by assumption. tauto.
Qed.

Lemma load_file (fs : FS) (data cur : Data) :
  Forall valid_item (elems (ClipboardHistory data)) ->
  files fs !! fullPath = Some (Encode data) \/
  files fs !! fullPath = Some (Marshal data) ->
  loadDataFromFile fs fullPath cur = (data, None).
Proof.
  intros Hv Hfile. unfold loadDataFromFile, os_ReadFile.
  destruct Hfile as [-> | ->].
  - apply Decode_Encode, Hv.
  - rewrite Decode_Marshal_any, coerce_Data_of_valid by exact Hv. reflexivity.
Qed.

(** X13: The file mirrors the memory of the sampler.  On a file system that
    takes the writes and with clipboard contents of valid UTF-8, after
    any number of turns either nothing was saved, the files are as they
    were and the memory holds what the first load left, or the file
    decodes without an error to exactly the store that the sampler holds
    in memory. *)
Theorem runListener_mirrors (fs : FS) (obs : list (string * Time)) :
  read_only fs = false ->
  Forall (fun o => ValidString (fst o) = true) obs ->
  runListener fullPath fs obs = (fs, fst (loadDataFromFile fs fullPath zero_Data)) \/
  loadDataFromFile (fst (runListener fullPath fs obs)) fullPath zero_Data =
    (snd (runListener fullPath fs obs), None).
Proof.
  intros Hrw Hobs.
  destruct (runListener_inv fs obs Hrw Hobs) as (_ & Hv & [Hsame | Hfile]).
  - left. exact Hsame.
  - right. apply load_file; [exact Hv | left; exact Hfile].
Qed.

Lemma runListener_turn_snd (fs : FS) (data : Data) (o : string * Time) :
  snd (runListener_turn fullPath (fs, data) o) = Insert data (fst o) (snd o).
Proof.
  destruct o as [text now]. cbn [fst snd].
  destruct (Insert_cases data text now) as [[Hne Hc]|Hold].
  - rewrite runListener_turn_new by assumption. reflexivity.
  - rewrite runListener_turn_old, Insert_old by assumption. reflexivity.
Qed.

Lemma runListener_turn_fst (fs : FS) (data : Data) (o : string * Time) :
  fst (runListener_turn fullPath (fs, data) o) = fs \/
  read_only fs = false /\
  fst (runListener_turn fullPath (fs, data) o) =
    os_WriteFile fs fullPath (Encode (Insert data (fst o) (snd o))).
Proof.
  destruct o as [text now]. cbn [fst snd].
  destruct (Insert_cases data text now) as [[Hne Hc]|Hold].
  - rewrite runListener_turn_new by assumption. cbn [fst].
    unfold saveDataToFile. destruct (read_only fs); [left | right]; auto.
  - rewrite runListener_turn_old by assumption. left. reflexivity.
Qed.

(** X14: The memory of the sampler does not depend on its saves: after any
    number of turns it holds the insertions of what the clipboard held,
    made one after the other into what the first load left, whether the
    saves ended with an error or not.  The turns write to no file but
    the history file, and on a file system that refuses the writes they
    go on with the files as they were. *)
Theorem runListener_memory (fs : FS) (obs : list (string * Time)) (other : string) :
  snd (runListener fullPath fs obs) =
    Inserts (fst (loadDataFromFile fs fullPath zero_Data)) obs /\
  read_only (fst (runListener fullPath fs obs)) = read_only fs /\
  (other <> fullPath ->
   files (fst (runListener fullPath fs obs)) !! other = files fs !! other) /\
  (read_only fs = true -> fst (runListener fullPath fs obs) = fs).
Proof.
  induction obs as [|o obs IH] using rev_ind.
  - cbn. tauto.
  - rewrite runListener_snoc, Inserts_snoc.
    destruct (runListener fullPath fs obs) as [fs' data'] eqn:E.
    cbn [fst snd] in IH. destruct IH as (Hmem & Hro & Hfiles & Hsame).
    rewrite runListener_turn_snd. split; [rewrite Hmem; reflexivity|].
    destruct (runListener_turn_fst fs' data' o) as [-> | [Hrw ->]].
    + tauto.
    + cbn [os_WriteFile read_only files]. split; [exact Hro|]. split.
      * intros Hne. rewrite lookup_insert_ne by congruence. auto.
      * intros Hfs. congruence.
Qed.

(** X15: A start on a file that is missing, empty or not JSON: the load
    leaves the empty store, so the store of the sampler keeps its values
    pairwise distinct and its length at most 50 whatever the clipboard
    holds, and on a file system that takes the write the first new
    value replaces what the file held by the store of that one entry. *)
Theorem runListener_start (fs : FS) (e : error) (obs : list (string * Time))
    (text : string) (now : Time) :
  snd (loadDataFromFile fs fullPath zero_Data) = Some e ->
  e <> UnmarshalTypeError ->
  NoDup (map Value (elems (ClipboardHistory (snd (runListener fullPath fs obs))))) /\
  (List.length (elems (ClipboardHistory (snd (runListener fullPath fs obs)))) <= 50)%nat /\
  (text <> "" -> read_only fs = false ->
   runListener fullPath fs [(text, now)] =
     (os_WriteFile fs fullPath (Encode (mkData (Some [mkItem text (timeNow now)]))),
      mkData (Some [mkItem text (timeNow now)]))).
Proof.
  intros He Hne.
  assert (Hstart : fst (loadDataFromFile fs fullPath zero_Data) = zero_Data).
  { revert He. unfold loadDataFromFile, Decode.
    destruct (os_ReadFile fs fullPath) as [content|]; [|reflexivity].
    destruct (skip_ws content); [reflexivity|].
    destruct (parse_value _ content) as [[j rest]|]; [|reflexivity].
    destruct (decode_Data zero_Data j) as [d [|]]; cbn [fst snd]; congruence. }
  split; [|split].
  - induction obs as [|o obs IH] using rev_ind.
    + unfold runListener. cbn [fold_left snd]. rewrite Hstart. constructor.
    + rewrite runListener_snoc.
      destruct (runListener fullPath fs obs) as [fs' data'].
      rewrite runListener_turn_snd. apply Insert_NoDup, IH.
  - induction obs as [|o obs IH] using rev_ind.
    + unfold runListener. cbn [fold_left snd]. rewrite Hstart. cbn. lia.
    + rewrite runListener_snoc.
      destruct (runListener fullPath fs obs) as [fs' data'].
      rewrite runListener_turn_snd. apply Insert_length, IH.
  - intros Htext Hrw. unfold runListener. rewrite Hstart. cbn [fold_left].
    rewrite runListener_turn_new by (try exact Htext; reflexivity).
    rewrite save_written by exact Hrw. cbn [fst].
    assert (HI : Insert zero_Data text now = mkData (Some [mkItem text (timeNow now)])).
    { unfold Insert. destruct (String.eqb_spec text ""); [contradiction|].
      reflexivity. }
    rewrite HI. reflexivity.
Qed.

(** X16: A failed save is not made again.  When the file system refuses the
    write the new value stays in the memory of the sampler and the file
    stays as it was; and on the turns that follow, as long as the
    clipboard holds nothing or a value of the memory, nothing is
    written, also where the files would take the write by then. *)
Theorem runListener_no_retry (fs fs2 : FS) (data : Data) (text : string)
    (now : Time) (obs : list (string * Time)) :
  read_only fs = true ->
  text <> "" -> contains (elems (ClipboardHistory data)) text = false ->
  Forall (fun o => fst o = "" \/
            contains (elems (ClipboardHistory (Insert data text now))) (fst o) = true)
         obs ->
  runListener_turn fullPath (fs, data) (text, now) = (fs, Insert data text now) /\
  contains (elems (ClipboardHistory (Insert data text now))) text = true /\
  fold_left (runListener_turn fullPath) obs (fs2, Insert data text now) =
    (fs2, Insert data text now).
Proof.
  intros Hro Hne Hc Hobs. split; [|split].
  - rewrite runListener_turn_new by assumption. unfold saveDataToFile.
    rewrite Hro. reflexivity.
  - rewrite (Insert_new data text now Hne Hc). cbn [contains Value].
    rewrite String.eqb_refl. reflexivity.
  - induction Hobs as [|[t n] obs Ho _ IH]; [reflexivity|].
    cbn [fold_left]. rewrite runListener_turn_old by exact Ho. exact IH.
Qed.

End Sampler.

Lemma runListener_mirrors_witness :
  read_only (fs_of (world (sample_session false))) = false /\
  Forall (fun o : string * Time => ValidString (fst o) = true)
    [("b", sample_time); ("", sample_time)] /\
  (runListener "history.json" (fs_of (world (sample_session false)))
     [("b", sample_time); ("", sample_time)] =
   (fs_of (world (sample_session false)),
    fst (loadDataFromFile (fs_of (world (sample_session false))) "history.json"
           zero_Data)) \/
   loadDataFromFile
     (fst (runListener "history.json" (fs_of (world (sample_session false)))
             [("b", sample_time); ("", sample_time)]))
     "history.json" zero_Data =
   (snd (runListener "history.json" (fs_of (world (sample_session false)))
           [("b", sample_time); ("", sample_time)]), None)).
Proof.
  assert (H1 : read_only (fs_of (world (sample_session false))) = false)
    by reflexivity.
  assert (H2 : Forall (fun o : string * Time => ValidString (fst o) = true)
                 [("b", sample_time); ("", sample_time)])
    by (repeat constructor).
  split; [exact H1|]. split; [exact H2|].
  exact (runListener_mirrors "history.json" _ _ H1 H2).
Defined.

Lemma runListener_memory_witness :
  "other.json" <> "history.json" /\
  files (fst (runListener "history.json" (fs_of (world (sample_session false)))
                (sample_obs 5))) !! "other.json" =
  files (fs_of (world (sample_session false))) !! "other.json".
Proof.
  assert (H : "other.json" <> "history.json") by discriminate.
  split; [exact H|].
  exact (proj1 (proj2 (proj2 (runListener_memory "history.json"
                                (fs_of (world (sample_session false)))
                                (sample_obs 5) "other.json"))) H).
Defined.

Lemma runListener_start_witness :
  snd (loadDataFromFile (mkFS {[ "history.json" := bytes_of "{" ]} false)
         "history.json" zero_Data) = Some SyntaxError /\
  SyntaxError <> UnmarshalTypeError /\
  "a" <> "" /\
  runListener "history.json" (mkFS {[ "history.json" := bytes_of "{" ]} false)
    [("a", sample_time)] =
  (os_WriteFile (mkFS {[ "history.json" := bytes_of "{" ]} false) "history.json"
     (Encode (mkData (Some [mkItem "a" (timeNow sample_time)]))),
   mkData (Some [mkItem "a" (timeNow sample_time)])).
Proof.
  assert (H1 : snd (loadDataFromFile (mkFS {[ "history.json" := bytes_of "{" ]} false)
                      "history.json" zero_Data) = Some SyntaxError)
    by (vm_compute; reflexivity).
  assert (H2 : SyntaxError <> UnmarshalTypeError) by discriminate.
  assert (H3 : "a" <> "") by discriminate.
  split; [exact H1|]. split; [exact H2|]. split; [exact H3|].
  exact (proj2 (proj2 (runListener_start "history.json" _ SyntaxError []
                         "a" sample_time H1 H2)) H3 eq_refl).
Defined.

Lemma runListener_no_retry_witness :
  read_only (mkFS ∅ true) = true /\
  "a" <> "" /\
  contains (elems (ClipboardHistory zero_Data)) "a" = false /\
  runListener_turn "history.json" (mkFS ∅ true, zero_Data) ("a", sample_time) =
    (mkFS ∅ true, Insert zero_Data "a" sample_time) /\
  fold_left (runListener_turn "history.json") [("a", sample_time); ("", sample_time)]
    (mkFS ∅ false, Insert zero_Data "a" sample_time) =
    (mkFS ∅ false, Insert zero_Data "a" sample_time).
Proof.
  assert (H1 : read_only (mkFS ∅ true) = true) by reflexivity.
  assert (H2 : "a" <> "") by discriminate.
  assert (H3 : contains (elems (ClipboardHistory zero_Data)) "a" = false)
    by reflexivity.
  assert (H4 : Forall (fun o : string * Time => fst o = "" \/
                  contains (elems (ClipboardHistory (Insert zero_Data "a" sample_time)))
                    (fst o) = true)
                 [("a", sample_time); ("", sample_time)]).
  { constructor; [right; reflexivity|]. constructor; [left; reflexivity|].
    constructor. }
  split; [exact H1|]. split; [exact H2|]. split; [exact H3|].
  pose proof (runListener_no_retry "history.json" (mkFS ∅ true) (mkFS ∅ false)
                zero_Data "a" sample_time _ H1 H2 H3 H4) as H.
  split; [exact (proj1 H) | exact (proj2 (proj2 H))].
Defined.

(** * The browser: what it shows, what it deletes, what it leaves *)

Section BrowserMore.

Variable fullPath : string.

Lemma entryItems_delete (entries : list ClipboardEntry) (n : nat) :
  entryItems (delete n entries) = delete n (entryItems entries).
Proof.
  revert n. induction entries as [|e l IH]; intros [|n]; try reflexivity.
  cbn [delete list_delete entryItems map]. f_equal. apply IH.
Qed.

Lemma deleteJsonItem_file (fs : FS) (item : string) (data : Data) :
  read_only fs = false ->
  Forall valid_item (elems (ClipboardHistory data)) ->
  files fs !! fullPath = Some (Encode data) \/
  files fs !! fullPath = Some (Marshal data) ->
  deleteJsonItem fs fullPath item =
    (os_WriteFile fs fullPath (Marshal (Remove data item)), None).
Proof.
  intros Hrw Hv Hfile. unfold deleteJsonItem, os_ReadFile.
  destruct Hfile as [-> | ->].
  - rewrite Unmarshal_Encode_any, coerce_Data_of_valid, Hrw by exact Hv.
    reflexivity.
  - rewrite Unmarshal_Marshal, Hrw by exact Hv. reflexivity.
Qed.

Lemma deleteJsonItem_fails (fs : FS) (item : string) :
  read_only fs = true \/ os_ReadFile fs fullPath = None ->
  exists err, deleteJsonItem fs fullPath item = (fs, Some err).
Proof.
  intros H. unfold deleteJsonItem.
  destruct (os_ReadFile fs fullPath) as [content|]; [|eauto].
  destruct H as [Hro|H]; [|discriminate].
  destruct (Unmarshal content zero_Data) as [d [e|]]; [eauto|].
  rewrite Hro. eauto.
Qed.

(** X17: The browser starts on what the load gives: [newModel] ends the
    process with status 1 exactly when the load of the file ends with
    an error, and otherwise lists the items of the loaded entries, in
    their order, with the cursor on the first.  Started after a run of
    the sampler, on files that take the writes, with a first load
    without an error and clipboard contents of valid UTF-8, it lists
    the store that the sampler holds in memory. *)
Theorem newModel_shows (fs : FS) (obs : list (string * Time)) :
  newModel fs fullPath =
    match loadDataFromFile fs fullPath zero_Data with
    | (data, None) =>
      inl (mkModel (entryItems (elems (ClipboardHistory data))) 0, newDelegateKeyMap)
    | (_, Some _) => inr 1
    end /\
  (read_only fs = false ->
   snd (loadDataFromFile fs fullPath zero_Data) = None ->
   Forall (fun o => ValidString (fst o) = true) obs ->
   newModel (fst (runListener fullPath fs obs)) fullPath =
     inl (mkModel
            (entryItems
               (elems (ClipboardHistory (snd (runListener fullPath fs obs))))) 0,
          newDelegateKeyMap)).
Proof.
  assert (Hnew : forall fs',
    newModel fs' fullPath =
    match loadDataFromFile fs' fullPath zero_Data with
    | (data, None) =>
      inl (mkModel (entryItems (elems (ClipboardHistory data))) 0, newDelegateKeyMap)
    | (_, Some _) => inr 1
    end).
  { intros fs'. unfold newModel, getjsonData, loadDataFromFile.
    destruct (os_ReadFile fs' fullPath) as [content|]; [|reflexivity].
    destruct (Decode content zero_Data) as [d [e|]]; reflexivity. }
  split; [apply Hnew|]. intros Hrw Hload Hobs. rewrite Hnew.
  destruct (runListener_inv fullPath fs obs Hrw Hobs) as (_ & Hv & [Hsame | Hfile]).
  - rewrite Hsame. cbn [fst snd].
    destruct (loadDataFromFile fs fullPath zero_Data) as [d [e|]];
      [discriminate | reflexivity].
  - rewrite (load_file fullPath _ _ zero_Data Hv (or_introl Hfile)). reflexivity.
Qed.

(** X18: A deletion that is written.  When an item is selected, the key is
    one of the remove binding, and the file is what the sampler's save
    or an earlier deletion wrote for a store of valid UTF-8, on a file
    system that takes the write, the delegate returns the message of
    the deletion with the title of the item.  The file then holds what
    a deletion writes for the store without the entries of the item's
    whole value: it loads to that store without an error, the value is
    not in it, and where the values were pairwise distinct exactly the
    entry of that value went.  From the list the item at the index went,
    the remove binding stays enabled exactly when items are left, and
    the clipboard is as it was. *)
Theorem UpdateFunc_delete_success (s : Session) (data : Data) (i : item)
    (k : string) :
  SelectedItem (m_list s) = Some i ->
  key_Matches k (choose (keys s)) = false ->
  key_Matches k (remove (keys s)) = true ->
  read_only (fs_of (world s)) = false ->
  Forall valid_item (elems (ClipboardHistory data)) ->
  files (fs_of (world s)) !! fullPath = Some (Encode data) \/
  files (fs_of (world s)) !! fullPath = Some (Marshal data) ->
  snd (UpdateFunc fullPath (KeyMsg k) s) =
    Return (Some ("Deleted: " ++ title i)%string) /\
  files (fs_of (world (fst (UpdateFunc fullPath (KeyMsg k) s)))) !! fullPath =
    Some (Marshal (Remove data (titleFull i))) /\
  loadDataFromFile (fs_of (world (fst (UpdateFunc fullPath (KeyMsg k) s))))
    fullPath zero_Data = (Remove data (titleFull i), None) /\
  contains (elems (ClipboardHistory (Remove data (titleFull i)))) (titleFull i) =
    false /\
  (forall n e,
     NoDup (map Value (elems (ClipboardHistory data))) ->
     elems (ClipboardHistory data) !! n = Some e -> Value e = titleFull i ->
     elems (ClipboardHistory (Remove data (titleFull i))) =
       delete n (elems (ClipboardHistory data))) /\
  Items (m_list (fst (UpdateFunc fullPath (KeyMsg k) s))) =
    delete (Index (m_list s)) (Items (m_list s)) /\
  Enabled (remove (keys (fst (UpdateFunc fullPath (KeyMsg k) s)))) =
    negb (List.length (Items (m_list (fst (UpdateFunc fullPath (KeyMsg k) s)))) =? 0)%nat /\
  choose (keys (fst (UpdateFunc fullPath (KeyMsg k) s))) = choose (keys s) /\
  clipboard (world (fst (UpdateFunc fullPath (KeyMsg k) s))) = clipboard (world s) /\
  read_only (fs_of (world (fst (UpdateFunc fullPath (KeyMsg k) s)))) = false.
Proof.
  intros Hsel Hchoose Hremove Hrw Hv Hfile.
  assert (Hv' : Forall valid_item
                  (elems (ClipboardHistory (Remove data (titleFull i)))))
    by apply Remove_valid, Hv.
  assert (Hen : Enabled (remove (keys s)) = true).
  { unfold key_Matches in Hremove. apply andb_true_iff in Hremove. tauto. }
  unfold UpdateFunc. rewrite Hsel, Hchoose, Hremove.
  rewrite (deleteJsonItem_file _ (titleFull i) data Hrw Hv Hfile).
  cbn [fst snd world fs_of clipboard m_list keys].
  split; [reflexivity|].
  split; [unfold os_WriteFile; cbn [files]; apply lookup_insert_eq|].
  split.
  { rewrite load_written, Decode_Marshal_any.
    apply f_equal2; [|reflexivity]. apply coerce_Data_of_valid, Hv'. }
  split; [rewrite Remove_entries; apply contains_filtered|].
  split.
  { intros n e Hnd He Hval. rewrite Remove_entries, <- Hval.
    apply filter_unique; assumption. }
  split; [reflexivity|]. split.
  { destruct (List.length (Items (RemoveItem (m_list s) (Index (m_list s)))) =? 0)%nat;
      cbn [remove Enabled negb]; [reflexivity | exact Hen]. }
  split.
  { destruct (List.length (Items (RemoveItem (m_list s) (Index (m_list s)))) =? 0)%nat;
      reflexivity. }
  split; [reflexivity|]. unfold os_WriteFile. cbn [read_only]. exact Hrw.
Qed.

(** X19: A deletion that cannot be written.  When an item is selected, the
    key is one of the remove binding and the file system refuses the
    write or the file is not there, the process leaves with status 1:
    the item is gone from the list, the files and the clipboard are as
    they were, and no message that follows is handled. *)
Theorem UpdateFunc_delete_failure (s : Session) (i : item) (k : string)
    (msgs : list Msg) :
  SelectedItem (m_list s) = Some i ->
  key_Matches k (choose (keys s)) = false ->
  key_Matches k (remove (keys s)) = true ->
  read_only (fs_of (world s)) = true \/
  os_ReadFile (fs_of (world s)) fullPath = None ->
  snd (UpdateFunc fullPath (KeyMsg k) s) = Exit 1 /\
  world (fst (UpdateFunc fullPath (KeyMsg k) s)) = world s /\
  Items (m_list (fst (UpdateFunc fullPath (KeyMsg k) s))) =
    delete (Index (m_list s)) (Items (m_list s)) /\
  Run fullPath (KeyMsg k :: msgs) s = UpdateFunc fullPath (KeyMsg k) s.
Proof.
  intros Hsel Hchoose Hremove Hfail.
  destruct (deleteJsonItem_fails (fs_of (world s)) (titleFull i) Hfail) as [err Herr].
  cbn [Run]. unfold UpdateFunc. rewrite Hsel, Hchoose, Hremove, Herr.
  cbn [fst snd world m_list RemoveItem Items]. destruct (world s); auto.
Qed.

Lemma UpdateFunc_no_remove (msg : Msg) (s : Session) :
  (forall k, msg = KeyMsg k -> key_Matches k (remove (keys s)) = false) ->
  fs_of (world (fst (UpdateFunc fullPath msg s))) = fs_of (world s) /\
  m_list (fst (UpdateFunc fullPath msg s)) = m_list s /\
  keys (fst (UpdateFunc fullPath msg s)) = keys s /\
  forall status, snd (UpdateFunc fullPath msg s) <> Exit status.
Proof.
  intros Hk. unfold UpdateFunc.
  destruct (SelectedItem (m_list s)) as [i|]; [|repeat split; discriminate].
  destruct msg as [k|w h]; [|repeat split; discriminate].
  rewrite (Hk k eq_refl).
  destruct (key_Matches k (choose (keys s))); [|repeat split; discriminate].
  unfold clipboard_WriteAll.
  destruct (clipboard_fails (world s)); repeat split; discriminate.
Qed.

(** X20: Browsing and copying never write.  Over any calls of the delegate
    none of which is for a key of the remove binding, wherever the list
    has its selection at each of them, the session ends with the files,
    the items of the list and the key map as they were at its start,
    whichever copies it made and whether one of them failed; and it does
    not leave through an exit. *)
Theorem Calls_without_delete (calls : list (nat * Msg)) (s : Session) :
  (forall index k, In (index, KeyMsg k) calls ->
                   key_Matches k (remove (keys s)) = false) ->
  fs_of (world (fst (Calls fullPath calls s))) = fs_of (world s) /\
  Items (m_list (fst (Calls fullPath calls s))) = Items (m_list s) /\
  keys (fst (Calls fullPath calls s)) = keys s /\
  forall status, snd (Calls fullPath calls s) <> Exit status.
Proof.
  revert s. induction calls as [|[index msg] rest IH]; intros s Hk.
  - cbn. repeat split; discriminate.
  - cbn [Calls].
    assert (Hstep := UpdateFunc_no_remove msg
                       (mkSession (world s) (Select (m_list s) index) (keys s))).
    destruct Hstep as (Hfs & Hm & Hkeys & Hexit).
    { intros k ->. cbn [keys]. apply (Hk index). left. reflexivity. }
    destruct (UpdateFunc fullPath msg _) as [s' c]. cbn [fst snd world m_list keys] in *.
    assert (Hitems : Items (m_list s') = Items (m_list s))
      by (rewrite Hm; reflexivity).
    destruct c as [status|err|status].
    + destruct (IH s') as (Hfs' & Hm' & Hkeys' & Hexit').
      { intros index' k Hin. rewrite Hkeys. apply (Hk index'). right. exact Hin. }
      rewrite Hfs', Hm', Hkeys'. auto.
    + cbn [fst snd]. repeat split; try assumption; discriminate.
    + exfalso. exact (Hexit status eq_refl).
Qed.

End BrowserMore.

Lemma newModel_shows_witness :
  read_only (fs_of (world (sample_session false))) = false /\
  snd (loadDataFromFile (fs_of (world (sample_session false))) "history.json"
         zero_Data) = None /\
  Forall (fun o : string * Time => ValidString (fst o) = true) (sample_obs 5) /\
  newModel (fst (runListener "history.json" (fs_of (world (sample_session false)))
                   (sample_obs 5))) "history.json" =
  inl (mkModel
         (entryItems
            (elems (ClipboardHistory
                      (snd (runListener "history.json"
                              (fs_of (world (sample_session false)))
                              (sample_obs 5)))))) 0,
       newDelegateKeyMap).
Proof.
  assert (H1 : read_only (fs_of (world (sample_session false))) = false)
    by reflexivity.
  assert (H2 : snd (loadDataFromFile (fs_of (world (sample_session false)))
                      "history.json" zero_Data) = None)
    by (vm_compute; reflexivity).
  assert (H3 : Forall (fun o : string * Time => ValidString (fst o) = true)
                 (sample_obs 5))
    by (repeat constructor).
  split; [exact H1|]. split; [exact H2|]. split; [exact H3|].
  exact (proj2 (newModel_shows "history.json" _ (sample_obs 5)) H1 H2 H3).
Defined.

Lemma UpdateFunc_delete_success_witness :
  SelectedItem (m_list (sample_session false)) =
    Some (mkitem (shorten (sample_value 1)) (sample_value 1)
            "Copied to clipboard: 2024-03-09 17:43:15 ") /\
  key_Matches "x" (choose (keys (sample_session false))) = false /\
  key_Matches "x" (remove (keys (sample_session false))) = true /\
  read_only (fs_of (world (sample_session false))) = false /\
  Forall valid_item (elems (ClipboardHistory (mkData (Some (sample_items 3))))) /\
  files (fs_of (world (sample_session false))) !! "history.json" =
    Some (Marshal (mkData (Some (sample_items 3)))) /\
  snd (UpdateFunc "history.json" (KeyMsg "x") (sample_session false)) =
    Return (Some ("Deleted: " ++ shorten (sample_value 1))%string) /\
  loadDataFromFile
    (fs_of (world (fst (UpdateFunc "history.json" (KeyMsg "x")
                          (sample_session false)))))
    "history.json" zero_Data =
    (Remove (mkData (Some (sample_items 3))) (sample_value 1), None).
Proof.
  assert (H1 : SelectedItem (m_list (sample_session false)) =
               Some (mkitem (shorten (sample_value 1)) (sample_value 1)
                       "Copied to clipboard: 2024-03-09 17:43:15 "))
    by reflexivity.
  assert (H2 : key_Matches "x" (choose (keys (sample_session false))) = false)
    by reflexivity.
  assert (H3 : key_Matches "x" (remove (keys (sample_session false))) = true)
    by reflexivity.
  assert (H4 : read_only (fs_of (world (sample_session false))) = false)
    by reflexivity.
  assert (H5 : Forall valid_item
                 (elems (ClipboardHistory (mkData (Some (sample_items 3))))))
    by (repeat constructor).
  assert (H6 : files (fs_of (world (sample_session false))) !! "history.json" =
               Some (Marshal (mkData (Some (sample_items 3)))))
    by (vm_compute; reflexivity).
  split; [exact H1|]. split; [exact H2|]. split; [exact H3|]. split; [exact H4|].
  split; [exact H5|]. split; [exact H6|].
  pose proof (UpdateFunc_delete_success "history.json" (sample_session false)
                (mkData (Some (sample_items 3))) _ "x" H1 H2 H3 H4 H5
                (or_intror H6)) as H.
  split; [exact (proj1 H) | exact (proj1 (proj2 (proj2 H)))].
Defined.

Lemma UpdateFunc_delete_failure_witness :
  SelectedItem (mkModel (entryItems (sample_items 3)) 1) =
    Some (mkitem (shorten (sample_value 1)) (sample_value 1)
            "Copied to clipboard: 2024-03-09 17:43:15 ") /\
  read_only (mkFS ∅ true) = true /\
  snd (UpdateFunc "history.json" (KeyMsg "backspace")
         (mkSession (mkWorld (mkFS ∅ true) "" false)
                    (mkModel (entryItems (sample_items 3)) 1)
                    newDelegateKeyMap)) = Exit 1.
Proof.
  assert (H1 : SelectedItem (mkModel (entryItems (sample_items 3)) 1) =
               Some (mkitem (shorten (sample_value 1)) (sample_value 1)
                       "Copied to clipboard: 2024-03-09 17:43:15 "))
    by reflexivity.
  assert (H2 : read_only (mkFS ∅ true) = true) by reflexivity.
  split; [exact H1|]. split; [exact H2|].
  exact (proj1 (UpdateFunc_delete_failure "history.json"
                  (mkSession (mkWorld (mkFS ∅ true) "" false)
                             (mkModel (entryItems (sample_items 3)) 1)
                             newDelegateKeyMap)
                  _ "backspace" [] H1 eq_refl eq_refl (or_introl H2))).
Defined.

Lemma Calls_without_delete_witness :
  (forall index k,
     In (index, KeyMsg k)
        [(0%nat, KeyMsg "enter"); (0%nat, WindowSizeMsg 80 24); (2%nat, KeyMsg "j")] ->
     key_Matches k (remove (keys (sample_session true))) = false) /\
  fs_of (world (fst (Calls "history.json"
                       [(0%nat, KeyMsg "enter"); (0%nat, WindowSizeMsg 80 24);
                        (2%nat, KeyMsg "j")]
                       (sample_session true)))) =
  fs_of (world (sample_session true)).
Proof.
  assert (H : forall index k,
             In (index, KeyMsg k)
                [(0%nat, KeyMsg "enter"); (0%nat, WindowSizeMsg 80 24);
                 (2%nat, KeyMsg "j")] ->
             key_Matches k (remove (keys (sample_session true))) = false).
  { intros index k [E|[E|[E|[]]]]; inversion E; reflexivity. }
  split; [exact H|].
  exact (proj1 (Calls_without_delete "history.json" _ (sample_session true) H)).
Defined.

(** * The title of an item *)

Lemma ReplaceAll_newline_clean (l : bytes) :
  Forall (fun c => code c <> 10) (ReplaceAll_newline l).
Proof.
  induction l as [|c l IH]; [constructor|]. cbn [ReplaceAll_newline map].
  constructor; [|exact IH].
  destruct (Z.eqb_spec (code c) 10); [vm_compute; discriminate | assumption].
Qed.

Lemma ReplaceAll_newline_id (l : bytes) :
  Forall (fun c => code c <> 10) l -> ReplaceAll_newline l = l.
Proof.
  induction 1 as [|c l Hc _ IH]; [reflexivity|]. cbn [ReplaceAll_newline map].
  destruct (Z.eqb_spec (code c) 10); [contradiction|]. f_equal. exact IH.
Qed.

(** X21: The title that the list shows for a value: it has the length of the
    value and at most 50 bytes, and no newline; a value of at most 50
    bytes without a newline is its own title, and of a longer value the
    title is 47 bytes followed by three dots. *)
Theorem shorten_title (s : string) :
  String.length (shorten s) = Nat.min (String.length s) 50 /\
  Forall (fun c => code c <> 10) (bytes_of (shorten s)) /\
  ((String.length s <= 50)%nat ->
   Forall (fun c => code c <> 10) (bytes_of s) -> shorten s = s) /\
  ((50 < String.length s)%nat ->
   exists pre, shorten s = (pre ++ "...")%string /\ String.length pre = 47%nat).
Proof.
  unfold shorten. rewrite <- (length_bytes_of s).
  change (50 - 3)%nat with 47%nat.
  destruct (Nat.leb_spec (List.length (bytes_of s)) 50) as [Hle|Hgt].
  - split; [|split; [|split]].
    + rewrite length_string_of. unfold ReplaceAll_newline.
      rewrite length_map. lia.
    + rewrite bytes_of_string_of. apply ReplaceAll_newline_clean.
    + intros _ Hclean. rewrite ReplaceAll_newline_id by exact Hclean.
      apply string_of_bytes_of.
    + intros H. lia.
  - rewrite <- (string_of_bytes_of "...") at 1 2 3. rewrite <- string_of_app.
    split; [|split; [|split]].
    + rewrite length_string_of, length_app. unfold ReplaceAll_newline.
      rewrite length_map, length_take.
      change (List.length (bytes_of "...")) with 3%nat. lia.
    + rewrite bytes_of_string_of. apply Forall_app. split.
      * apply ReplaceAll_newline_clean.
      * repeat constructor; vm_compute; discriminate.
    + intros H. lia.
    + intros _. exists (string_of (ReplaceAll_newline (take 47 (bytes_of s)))).
      split; [reflexivity|].
      rewrite length_string_of. unfold ReplaceAll_newline.
      rewrite length_map, length_take. lia.
Qed.

Lemma shorten_title_witness :
  (String.length "a b" <= 50)%nat /\
  Forall (fun c => code c <> 10) (bytes_of "a b") /\
  shorten "a b" = "a b" /\
  (50 < String.length (sample_value 59))%nat /\
  exists pre, shorten (sample_value 59) = (pre ++ "...")%string /\
              String.length pre = 47%nat.
Proof.
  assert (H1 : (String.length "a b" <= 50)%nat) by (simpl; lia).
  assert (H2 : Forall (fun c => code c <> 10) (bytes_of "a b"))
    by (repeat constructor; vm_compute; discriminate).
  assert (H3 : (50 < String.length (sample_value 59))%nat) by (vm_compute; lia).
  split; [exact H1|]. split; [exact H2|].
  split; [exact (proj1 (proj2 (proj2 (shorten_title "a b"))) H1 H2)|].
  split; [exact H3|].
  exact (proj2 (proj2 (proj2 (shorten_title (sample_value 59)))) H3).
Defined.

(** * The first start *)

(** X22: [checkConfig] case by case.  When [user.Current] fails, or
    [os.Stat] of the path fails with an error other than that the file
    does not exist, it leaves with status 1 and has written nothing.
    Otherwise, a history file that is there is left as it is, with all
    other files, and the path is returned.  Where no file is there and
    the file system refuses writes, it leaves with status 1 and the
    files as they were; where the file system takes the writes it
    returns, the file now decodes without an error to the empty store,
    the browser starts on the empty list, and no other file was
    written. *)
Theorem checkConfig_ready (fs : FS) (userError statError configDirExists : bool)
    (fullPath other : string) :
  (userError = true \/ statError = true ->
   checkConfig fs userError statError configDirExists fullPath = (fs, Some 1)) /\
  (userError = false -> statError = false ->
   (os_ReadFile fs fullPath <> None ->
    checkConfig fs userError statError configDirExists fullPath = (fs, None)) /\
   (os_ReadFile fs fullPath = None -> read_only fs = true ->
    checkConfig fs userError statError configDirExists fullPath = (fs, Some 1)) /\
   (os_ReadFile fs fullPath = None -> read_only fs = false ->
    snd (checkConfig fs userError statError configDirExists fullPath) = None /\
    loadDataFromFile
      (fst (checkConfig fs userError statError configDirExists fullPath))
      fullPath zero_Data = (baseConfig, None) /\
    newModel (fst (checkConfig fs userError statError configDirExists fullPath))
      fullPath = inl (mkModel [] 0, newDelegateKeyMap) /\
    (other <> fullPath ->
     files (fst (checkConfig fs userError statError configDirExists fullPath))
       !! other = files fs !! other))).
Proof.
  unfold checkConfig, createHistoryFile, setBaseConfig. split.
  - intros [-> | ->]; [reflexivity|]. destruct userError; reflexivity.
  - intros -> ->. split; [|split].
    + intros Hfile. destruct (os_ReadFile fs fullPath); [reflexivity|].
      contradiction.
    + intros -> ->. destruct configDirExists; reflexivity.
    + intros -> Hro. rewrite Hro, andb_false_r. unfold os_WriteFile.
      cbn [read_only files]. rewrite Hro. cbn [fst snd].
      split; [reflexivity|]. split; [|split].
      * unfold loadDataFromFile, os_ReadFile. cbn [files].
        rewrite lookup_insert_eq. vm_compute. reflexivity.
      * unfold newModel, getjsonData, os_ReadFile. cbn [files].
        rewrite lookup_insert_eq. vm_compute. reflexivity.
      * intros Hne. cbn [files]. rewrite !lookup_insert_ne by congruence.
        reflexivity.
Qed.

Lemma checkConfig_ready_witness :
  os_ReadFile (mkFS ∅ false) "history.json" = None /\
  read_only (mkFS ∅ false) = false /\
  newModel (fst (checkConfig (mkFS ∅ false) false false false "history.json"))
    "history.json" = inl (mkModel [] 0, newDelegateKeyMap) /\
  checkConfig (fs_of (world (sample_session false))) true false true "history.json" =
    (fs_of (world (sample_session false)), Some 1).
Proof.
  assert (H1 : os_ReadFile (mkFS ∅ false) "history.json" = None) by reflexivity.
  assert (H2 : read_only (mkFS ∅ false) = false) by reflexivity.
  split; [exact H1|]. split; [exact H2|]. split.
  - pose proof (proj2 (checkConfig_ready (mkFS ∅ false) false false false
                         "history.json" "other.json") eq_refl eq_refl) as H.
    exact (proj1 (proj2 (proj2 (proj2 (proj2 H) H1 H2)))).
  - exact (proj1 (checkConfig_ready (fs_of (world (sample_session false)))
                    true false true "history.json" "other.json")
             (or_introl eq_refl)).
Defined.
